(** * CME analysis platform: test-intent detection, demeanor analysis and
    report reconciliation

    A shallow embedding of
    - [backend/lambda_functions/cme_nlp_processor.py]
      ([CMENLPProcessor], [process_transcript_for_cme_analysis]) and
    - [backend/lambda_functions/cme_report_generator.py]
      (the statistics and timeline of [_generate_html_report]),
    followed by the properties of the specification that concern them.

    Conventions of the embedding.
    - Python [float] is IEEE binary64: Rocq's primitive [float], whose
      operations are the correctly rounded ones Python uses.
    - Python [str] is [string]; the development covers ASCII text (code
      points below 128), on which [str.lower], [\s] and [re.IGNORECASE]
      are the functions written out below.
    - A JSON-decoded Python object is a [pyval]; [dict.get], [float(...)],
      iteration and subscripting raise the exceptions Python raises, in a
      [result] monad.  [try: ... except Exception] is a [match] on the
      result.
    - A compiled regular expression is a [regex] term; each pattern of the
      source is transcribed next to its source text. *)

From Stdlib Require Import ZArith NArith List String Ascii Bool Lia PeanoNat.
From Stdlib Require Import PrimFloat SpecFloat FloatOps Uint63 DecimalString.
Import ListNotations.

Set Warnings "-inexact-float,-register-all".

Local Open Scope string_scope.
Local Open Scope list_scope.

(* ================================================================== *)
(** * Python values, exceptions and the built-ins the code calls *)
(* ================================================================== *)

Module Py.

(** The exceptions the modelled code can raise.  [ClientError] stands for
    any failure of a call to an external service. *)
Inductive exn : Set :=
| AttributeError
| TypeError
| ValueError
| IndexError
| KeyError
| OverflowError
| ClientError.

Inductive result (A : Type) : Type :=
| Ok (a : A)
| Raise (e : exn).
Arguments Ok {A} a.
Arguments Raise {A} e.

Definition bind {A B : Type} (m : result A) (k : A -> result B) : result B :=
  match m with
  | Ok a => k a
  | Raise e => Raise e
  end.

(** [m] ran to completion. *)
Definition succeeds {A : Type} (m : result A) : bool :=
  match m with Ok _ => true | Raise _ => false end.

(** A JSON-decoded object.  A [dict] keeps its insertion order, which is
    the order Python iterates it in. *)
Inductive pyval : Type :=
| PyNone
| PyBool (b : bool)
| PyInt (z : Z)
| PyFloat (f : float)
| PyStr (s : string)
| PyList (l : list pyval)
| PyDict (d : list (string * pyval)).

Fixpoint assoc {A : Type} (key : string) (d : list (string * A)) : option A :=
  match d with
  | [] => None
  | (k, v) :: d' => if String.eqb key k then Some v else assoc key d'
  end.

(** [v.get(key, default)]: only a dict has the method. *)
Definition get (v : pyval) (key : string) (default : pyval) : result pyval :=
  match v with
  | PyDict d => Ok (match assoc key d with Some x => x | None => default end)
  | _ => Raise AttributeError
  end.

(** [v == s] for a [str] constant [s]. *)
Definition eq_str (v : pyval) (s : string) : bool :=
  match v with
  | PyStr s' => String.eqb s' s
  | _ => false
  end.

Definition str_of_ascii (c : ascii) : string := String c EmptyString.

Fixpoint chars (s : string) : list pyval :=
  match s with
  | EmptyString => []
  | String c s' => PyStr (str_of_ascii c) :: chars s'
  end.

(** [for x in v]: the elements of a list, the keys of a dict, the
    characters of a string; anything else is not iterable. *)
Definition iter (v : pyval) : result (list pyval) :=
  match v with
  | PyList l => Ok l
  | PyDict d => Ok (map (fun kv => PyStr (fst kv)) d)
  | PyStr s => Ok (chars s)
  | _ => Raise TypeError
  end.

(** [v[0]].  The keys of a JSON object are strings, so [0] is never one. *)
Definition index0 (v : pyval) : result pyval :=
  match v with
  | PyList (x :: _) => Ok x
  | PyList [] => Raise IndexError
  | PyStr (String c _) => Ok (PyStr (str_of_ascii c))
  | PyStr EmptyString => Raise IndexError
  | PyDict _ => Raise KeyError
  | _ => Raise TypeError
  end.

(** ** Strings *)

Definition is_upper (c : ascii) : bool :=
  let n := nat_of_ascii c in (65 <=? n)%nat && (n <=? 90)%nat.

Definition lower_ascii (c : ascii) : ascii :=
  if is_upper c then ascii_of_nat (nat_of_ascii c + 32) else c.

(** [s.lower()] *)
Fixpoint lower (s : string) : string :=
  match s with
  | EmptyString => EmptyString
  | String c s' => String (lower_ascii c) (lower s')
  end.

(** [sub in s] *)
Fixpoint contains (sub s : string) : bool :=
  String.prefix sub s ||
  match s with
  | EmptyString => false
  | String _ s' => contains sub s'
  end.

(** [s[:n]] *)
Definition take (n : nat) (s : string) : string := String.substring 0 n s.

(** [sep.join(l)] for a list of strings *)
Definition join (sep : string) (l : list string) : string := String.concat sep l.

(** ** Loops in the [result] monad *)

Fixpoint foldM {S A : Type} (f : S -> A -> result S) (l : list A) (s : S)
  : result S :=
  match l with
  | [] => Ok s
  | a :: l' => bind (f s a) (fun s' => foldM f l' s')
  end.

Fixpoint mapM {A B : Type} (f : A -> result B) (l : list A) : result (list B) :=
  match l with
  | [] => Ok []
  | a :: l' => bind (f a) (fun b => bind (mapM f l') (fun bs => Ok (b :: bs)))
  end.

(** A list comprehension with a condition that can raise. *)
Fixpoint filterM {A : Type} (f : A -> result bool) (l : list A) : result (list A) :=
  match l with
  | [] => Ok []
  | a :: l' => bind (f a) (fun b => bind (filterM f l') (fun r => Ok (if b then a :: r else r)))
  end.

(** The items of [l] as strings, as [str.join] requires them. *)
Fixpoint all_str (l : list pyval) : result (list string) :=
  match l with
  | [] => Ok []
  | PyStr s :: l' => bind (all_str l') (fun r => Ok (s :: r))
  | _ :: _ => Raise TypeError
  end.

(** [str.isspace] on ASCII: tab, LF, VT, FF, CR, FS, GS, RS, US, space. *)
Definition is_space (c : ascii) : bool :=
  let n := nat_of_ascii c in
  ((9 <=? n)%nat && (n <=? 13)%nat) || ((28 <=? n)%nat && (n <=? 32)%nat).

Definition is_digit (c : ascii) : bool :=
  let n := nat_of_ascii c in (48 <=? n)%nat && (n <=? 57)%nat.

Definition digit_val (c : ascii) : Z := Z.of_nat (nat_of_ascii c - 48).

(** [str(n)] for a natural number *)
Definition str_of_nat (n : nat) : string := NilZero.string_of_uint (Nat.to_uint n).

(** ** Floats *)

Definition prec : Z := 53.
Definition emax : Z := 1024.

(** [float(z)] for an [int]: the nearest binary64, [OverflowError] beyond
    the range. *)
Definition float_of_Z (z : Z) : result float :=
  match binary_normalize prec emax z 0 false with
  | S754_infinity _ => Raise OverflowError
  | sf => Ok (SF2Prim sf)
  end.

(** The float of a count (a small non-negative [int]). *)
Definition float_of_nat (n : nat) : float :=
  PrimFloat.of_uint63 (Uint63.of_Z (Z.of_nat n)).

(** The binary64 nearest to [(-1)^neg * m * 10^e]. *)
Definition float_of_decimal (neg : bool) (m : Z) (e : Z) : float :=
  match m with
  | Zpos p =>
      match e with
      | Zneg k =>
          SF2Prim (SFdiv prec emax (S754_finite neg p 0)
                     (S754_finite false (Pos.pow 10 k) 0))
      | _ => SF2Prim (binary_normalize prec emax
                        (if neg then Z.opp (m * 10 ^ e) else m * 10 ^ e) 0 neg)
      end
  | _ => SF2Prim (S754_zero neg)
  end.

(** The blanks [float] strips from an ASCII string: tab, LF, VT, FF, CR
    and space. *)
Definition is_blank (c : ascii) : bool :=
  let n := nat_of_ascii c in
  ((9 <=? n)%nat && (n <=? 13)%nat) || (n =? 32)%nat.

Fixpoint lstrip (s : list ascii) : list ascii :=
  match s with
  | c :: s' => if is_blank c then lstrip s' else s
  | [] => []
  end.

Definition strip (s : list ascii) : list ascii := rev (lstrip (rev (lstrip s))).

(** Leading decimal digits: their value, their number, and the rest. *)
Fixpoint digits (s : list ascii) (acc : Z) (n : nat) : Z * nat * list ascii :=
  match s with
  | c :: s' => if is_digit c then digits s' (acc * 10 + digit_val c) (S n)
               else (acc, n, s)
  | [] => (acc, n, [])
  end.

Definition sign (s : list ascii) : bool * list ascii :=
  match s with
  | "-"%char :: s' => (true, s')
  | "+"%char :: s' => (false, s')
  | _ => (false, s)
  end.

(** Underscores may only stand between two digits; they are dropped. *)
Fixpoint underscores (prev : option ascii) (s : list ascii) : option (list ascii) :=
  match s with
  | [] => match prev with Some "_"%char => None | _ => Some [] end
  | c :: s' =>
      if Ascii.eqb c "_" then
        match prev with
        | Some p => if is_digit p then underscores (Some c) s' else None
        | None => None
        end
      else
        match prev with
        | Some "_"%char =>
            if is_digit c then option_map (cons c) (underscores (Some c) s') else None
        | _ => option_map (cons c) (underscores (Some c) s')
        end
  end.

Definition exponent (s : list ascii) : option Z :=
  match s with
  | [] => Some 0%Z
  | c :: s' =>
      if Ascii.eqb (lower_ascii c) "e" then
        let '(neg, s1) := sign s' in
        match digits s1 0 0 with
        | (_, O, _) => None
        | (v, _, []) => Some (if neg then Z.opp v else v)
        | _ => None
        end
      else None
  end.

(** [float(s)] for a [str]: optional blanks, sign, then [inf], [infinity],
    [nan] or a decimal number with optional fraction and exponent. *)
Definition float_of_string (s : string) : option float :=
  match underscores None (list_ascii_of_string s) with
  | None => None
  | Some cs =>
      let '(neg, body) := sign (strip cs) in
      let word := string_of_list_ascii (map lower_ascii body) in
      if String.eqb word "inf" || String.eqb word "infinity" then
        Some (if neg then neg_infinity else infinity)
      else if String.eqb word "nan" then Some nan
      else
        let '(ip, ni, r1) := digits body 0 0 in
        let '(fp, nf, r2) :=
          match r1 with
          | "."%char :: r => digits r ip 0
          | _ => (ip, O, r1)
          end in
        match (ni + nf)%nat with
        | O => None
        | _ =>
            match exponent r2 with
            | Some e => Some (float_of_decimal neg fp (e - Z.of_nat nf))
            | None => None
            end
        end
  end.

(** [float(v)] *)
Definition float_of (v : pyval) : result float :=
  match v with
  | PyNone => Raise TypeError
  | PyBool b => Ok (if b then 1%float else 0%float)
  | PyInt z => float_of_Z z
  | PyFloat f => Ok f
  | PyStr s =>
      match float_of_string s with
      | Some f => Ok f
      | None => Raise ValueError
      end
  | PyList _ | PyDict _ => Raise TypeError
  end.

(** [min(a, b)]: [b] when [b < a], otherwise [a]. *)
Definition min (a b : float) : float :=
  if PrimFloat.ltb b a then b else a.

End Py.

Notation "x <- m ;; k" := (Py.bind m (fun x => k))
  (at level 61, m at next level, right associativity).


(* ================================================================== *)
(** * Regular expressions: [re.search] on the patterns the code uses *)
(* ================================================================== *)

Module Re.

(** One position of a pattern: a literal character, [\s], or a bracketed
    class of those. *)
Inductive atom : Set :=
| Chr (c : ascii)
| White
| OneOf (l : list atom).

Inductive regex : Set :=
| Fail
| Eps
| Atom (a : atom)
| Cat (r1 r2 : regex)
| Alt (r1 r2 : regex)
| Star (r : regex).

(** [r+], [r?] *)
Definition Plus (r : regex) : regex := Cat r (Star r).
Definition Opt (r : regex) : regex := Alt r Eps.

(** A literal word. *)
Fixpoint Str (s : string) : regex :=
  match s with
  | EmptyString => Eps
  | String c EmptyString => Atom (Chr c)
  | String c s' => Cat (Atom (Chr c)) (Str s')
  end.

(** A sequence of parts, a choice of branches [(?:a|b|...)]. *)
Fixpoint Seq (l : list regex) : regex :=
  match l with
  | [] => Eps
  | [r] => r
  | r :: l' => Cat r (Seq l')
  end.

Fixpoint Any (l : list regex) : regex :=
  match l with
  | [] => Fail
  | [r] => r
  | r :: l' => Alt r (Any l')
  end.

(** [\s+] *)
Definition Ws : regex := Plus (Atom White).

(** Whether character [c] of the text is accepted at atom [a]; [ic] is
    [re.IGNORECASE]. *)
Fixpoint accepts (ic : bool) (a : atom) (c : ascii) : bool :=
  match a with
  | Chr x => if ic then Ascii.eqb (Py.lower_ascii c) (Py.lower_ascii x)
             else Ascii.eqb c x
  | White => Py.is_space c
  | OneOf l => existsb (fun a' => accepts ic a' c) l
  end.

(** The language of a pattern, as a relation on the text matched. *)
Inductive matches (ic : bool) : regex -> list ascii -> Prop :=
| MEps : matches ic Eps []
| MAtom a c : accepts ic a c = true -> matches ic (Atom a) [c]
| MCat r1 r2 s1 s2 :
    matches ic r1 s1 -> matches ic r2 s2 -> matches ic (Cat r1 r2) (s1 ++ s2)
| MAltL r1 r2 s : matches ic r1 s -> matches ic (Alt r1 r2) s
| MAltR r1 r2 s : matches ic r2 s -> matches ic (Alt r1 r2) s
| MStar0 r : matches ic (Star r) []
| MStarS r s1 s2 :
    matches ic r s1 -> matches ic (Star r) s2 -> matches ic (Star r) (s1 ++ s2).

Fixpoint nullable (r : regex) : bool :=
  match r with
  | Fail => false
  | Eps => true
  | Atom _ => false
  | Cat r1 r2 => nullable r1 && nullable r2
  | Alt r1 r2 => nullable r1 || nullable r2
  | Star _ => true
  end.

Definition cat (r1 r2 : regex) : regex :=
  match r1, r2 with
  | Fail, _ => Fail
  | _, Fail => Fail
  | Eps, _ => r2
  | _, _ => Cat r1 r2
  end.

Definition alt (r1 r2 : regex) : regex :=
  match r1, r2 with
  | Fail, _ => r2
  | _, Fail => r1
  | _, _ => Alt r1 r2
  end.

(** What remains of [r] to match after reading [c]. *)
Fixpoint deriv (ic : bool) (c : ascii) (r : regex) : regex :=
  match r with
  | Fail => Fail
  | Eps => Fail
  | Atom a => if accepts ic a c then Eps else Fail
  | Cat r1 r2 =>
      if nullable r1
      then alt (cat (deriv ic c r1) r2) (deriv ic c r2)
      else cat (deriv ic c r1) r2
  | Alt r1 r2 => alt (deriv ic c r1) (deriv ic c r2)
  | Star r1 => cat (deriv ic c r1) (Star r1)
  end.

(** Some prefix of [s] matches [r]. *)
Fixpoint match_prefix (ic : bool) (r : regex) (s : string) : bool :=
  nullable r ||
  match s with
  | EmptyString => false
  | String c s' => match_prefix ic (deriv ic c r) s'
  end.

(** [re.search(r, s)] is not [None]: a match starts somewhere in [s]. *)
Fixpoint search (ic : bool) (r : regex) (s : string) : bool :=
  match_prefix ic r s ||
  match s with
  | EmptyString => false
  | String _ s' => search ic r s'
  end.

End Re.

(* ================================================================== *)
(** * [cme_nlp_processor.py] *)
(* ================================================================== *)

Module Nlp.

Import Py Re.
Local Open Scope char_scope.
Local Open Scope string_scope.

Record test_config : Set := {
  keywords : list string;
  patterns : list regex
}.

(** [(?:the\s+)?] and its like *)
Definition opt_word (w : string) : regex := Opt (Seq [Str w; Ws]).

(** [[\'s]*] and [[-\s]] *)
Definition possessive : regex := Star (Atom (OneOf [Chr "'"; Chr "s"])).
Definition hyphen_or_space : regex := Atom (OneOf [Chr "-"; White]).

(** [TEST_TAXONOMY], in the order the dict is written (and iterated). *)
Definition TEST_TAXONOMY : list (string * test_config) := [
  ("spine", {|
     keywords := ["spine"; "spinal"; "vertebra"; "vertebrae"; "back"];
     patterns := [
       (* check\s+(?:the\s+)?spine *)
       Seq [Str "check"; Ws; opt_word "the"; Str "spine"];
       (* examine\s+(?:the\s+)?back *)
       Seq [Str "examine"; Ws; opt_word "the"; Str "back"];
       (* spinal\s+(?:examination|assessment) *)
       Seq [Str "spinal"; Ws; Any [Str "examination"; Str "assessment"]]
     ] |});
  ("lumbar_rom", {|
     keywords := ["lumbar"; "lower back"; "range of motion"; "rom"; "flexion";
                  "extension"; "bend forward"; "bend backward"];
     patterns := [
       (* (?:lumbar|lower\s+back)\s+range\s+of\s+motion *)
       Seq [Any [Str "lumbar"; Seq [Str "lower"; Ws; Str "back"]]; Ws;
            Str "range"; Ws; Str "of"; Ws; Str "motion"];
       (* (?:forward|backward)\s+(?:flexion|bending) *)
       Seq [Any [Str "forward"; Str "backward"]; Ws;
            Any [Str "flexion"; Str "bending"]];
       (* rom\s+test *)
       Seq [Str "rom"; Ws; Str "test"]
     ] |});
  ("straight_leg_raise", {|
     keywords := ["straight leg"; "slr"; "leg raise"; "lasegue"; "raise your leg"];
     patterns := [
       (* straight\s+leg\s+(?:raise|test) *)
       Seq [Str "straight"; Ws; Str "leg"; Ws; Any [Str "raise"; Str "test"]];
       (* slr\s+test *)
       Seq [Str "slr"; Ws; Str "test"];
       (* lasegue[\'s]*\s+(?:test|sign) *)
       Seq [Str "lasegue"; possessive; Ws; Any [Str "test"; Str "sign"]]
     ] |});
  ("waddells_signs", {|
     keywords := ["waddell"; "non-organic"; "behavioral"; "non organic"];
     patterns := [
       (* waddell[\'s]*\s+(?:signs|test) *)
       Seq [Str "waddell"; possessive; Ws; Any [Str "signs"; Str "test"]];
       (* non[-\s]organic\s+(?:signs|findings) *)
       Seq [Str "non"; hyphen_or_space; Str "organic"; Ws;
            Any [Str "signs"; Str "findings"]]
     ] |});
  ("cervical_rom", {|
     keywords := ["cervical"; "neck"; "rotation"; "lateral flexion";
                  "turn your head"; "neck movement"];
     patterns := [
       (* cervical\s+(?:range\s+of\s+motion|rom) *)
       Seq [Str "cervical"; Ws;
            Any [Seq [Str "range"; Ws; Str "of"; Ws; Str "motion"]; Str "rom"]];
       (* neck\s+(?:rotation|flexion|movement) *)
       Seq [Str "neck"; Ws; Any [Str "rotation"; Str "flexion"; Str "movement"]];
       (* turn\s+(?:your\s+)?head *)
       Seq [Str "turn"; Ws; opt_word "your"; Str "head"]
     ] |});
  ("gait", {|
     keywords := ["gait"; "walking"; "ambulation"; "mobility"; "walk";
                  "heel-to-toe"; "tandem"];
     patterns := [
       (* gait\s+(?:analysis|assessment|test) *)
       Seq [Str "gait"; Ws; Any [Str "analysis"; Str "assessment"; Str "test"]];
       (* (?:walk|walking)\s+(?:test|assessment) *)
       Seq [Any [Str "walk"; Str "walking"]; Ws; Any [Str "test"; Str "assessment"]];
       (* heel[-\s]to[-\s]toe *)
       Seq [Str "heel"; hyphen_or_space; Str "to"; hyphen_or_space; Str "toe"];
       (* tandem\s+(?:walk|gait) *)
       Seq [Str "tandem"; Ws; Any [Str "walk"; Str "gait"]]
     ] |});
  ("neurological", {|
     keywords := ["reflex"; "reflexes"; "sensation"; "sensory"; "motor";
                  "strength"; "muscle strength"; "patellar"; "achilles"];
     patterns := [
       (* (?:reflex|reflexes)\s+test *)
       Seq [Any [Str "reflex"; Str "reflexes"]; Ws; Str "test"];
       (* (?:sensory|sensation)\s+(?:test|examination) *)
       Seq [Any [Str "sensory"; Str "sensation"]; Ws;
            Any [Str "test"; Str "examination"]];
       (* motor\s+(?:strength|function) *)
       Seq [Str "motor"; Ws; Any [Str "strength"; Str "function"]];
       (* (?:patellar|achilles|bicep|tricep)\s+reflex *)
       Seq [Any [Str "patellar"; Str "achilles"; Str "bicep"; Str "tricep"]; Ws;
            Str "reflex"]
     ] |});
  ("palpation", {|
     keywords := ["palpate"; "palpating"; "feel"; "touch"; "tender";
                  "tenderness"; "press"];
     patterns := [
       (* (?:palpate|palpating)\s+(?:the\s+)?(?:spine|back|neck|area) *)
       Seq [Any [Str "palpate"; Str "palpating"]; Ws; opt_word "the";
            Any [Str "spine"; Str "back"; Str "neck"; Str "area"]];
       (* check\s+for\s+tenderness *)
       Seq [Str "check"; Ws; Str "for"; Ws; Str "tenderness"];
       (* feel\s+(?:the\s+)?(?:spine|muscles) *)
       Seq [Str "feel"; Ws; opt_word "the"; Any [Str "spine"; Str "muscles"]]
     ] |});
  ("orthopedic", {|
     keywords := ["orthopedic"; "musculoskeletal"; "joint"; "hip"; "knee";
                  "shoulder"; "ankle"];
     patterns := [
       (* orthopedic\s+(?:examination|assessment|test) *)
       Seq [Str "orthopedic"; Ws;
            Any [Str "examination"; Str "assessment"; Str "test"]];
       (* (?:hip|knee|shoulder|ankle)\s+(?:test|examination) *)
       Seq [Any [Str "hip"; Str "knee"; Str "shoulder"; Str "ankle"]; Ws;
            Any [Str "test"; Str "examination"]];
       (* joint\s+(?:mobility|function) *)
       Seq [Str "joint"; Ws; Any [Str "mobility"; Str "function"]]
     ] |});
  ("cognitive", {|
     keywords := ["memory"; "concentration"; "cognitive"; "mental status";
                  "orientation"; "recall"];
     patterns := [
       (* cognitive\s+(?:test|assessment|function) *)
       Seq [Str "cognitive"; Ws; Any [Str "test"; Str "assessment"; Str "function"]];
       (* mental\s+status\s+exam *)
       Seq [Str "mental"; Ws; Str "status"; Ws; Str "exam"];
       (* memory\s+test *)
       Seq [Str "memory"; Ws; Str "test"];
       (* orientation\s+(?:test|assessment) *)
       Seq [Str "orientation"; Ws; Any [Str "test"; Str "assessment"]]
     ] |})
].

Definition NEGATIVE_TONE_INDICATORS : list string := [
  "that's ridiculous"; "you're lying"; "i don't believe"; "that's impossible";
  "come on"; "really?"; "seriously?"; "you're exaggerating";
  "that doesn't make sense"
].

Definition INTERRUPTION_PATTERNS : list regex := [
  (* stop\s+(?:talking|speaking) *)
  Seq [Str "stop"; Ws; Any [Str "talking"; Str "speaking"]];
  (* let\s+me\s+(?:speak|talk) *)
  Seq [Str "let"; Ws; Str "me"; Ws; Any [Str "speak"; Str "talk"]];
  (* don\'t\s+(?:interrupt|talk) *)
  Seq [Str "don't"; Ws; Any [Str "interrupt"; Str "talk"]];
  (* be\s+quiet *)
  Seq [Str "be"; Ws; Str "quiet"];
  (* shut\s+up *)
  Seq [Str "shut"; Ws; Str "up"]
].

Definition DISMISSIVE_PATTERNS : list regex := [
  (* (?:doesn\'t|does\s+not)\s+matter *)
  Seq [Any [Str "doesn't"; Seq [Str "does"; Ws; Str "not"]]; Ws; Str "matter"];
  (* not\s+important *)
  Seq [Str "not"; Ws; Str "important"];
  (* (?:don\'t|do\s+not)\s+care\s+about *)
  Seq [Any [Str "don't"; Seq [Str "do"; Ws; Str "not"]]; Ws; Str "care"; Ws;
       Str "about"];
  (* that\'s\s+(?:irrelevant|not\s+relevant) *)
  Seq [Str "that's"; Ws; Any [Str "irrelevant"; Seq [Str "not"; Ws; Str "relevant"]]]
].

(** ** Events *)

(** An entry of [detected] in [_analyze_text_for_tests]. *)
Record detected_test : Set := {
  label : string;
  timestamp : float;
  confidence : float;
  matched_text : string
}.

(** The same dict once [detect_declared_tests] has set ['speaker'] and
    ['transcript_text'] on it. *)
Record declared_test : Type := {
  test : detected_test;
  speaker : pyval;
  transcript_text : string
}.

(** A demeanor flag.  ['sentiment_scores'] is only present on the flag of
    the sentiment pass. *)
Record demeanor_flag : Type := {
  flag_type : string;
  flag_timestamp : pyval;
  transcript_excerpt : string;
  severity : string;
  description : string;
  sentiment_scores : option (list (string * float))
}.

(** ** [_get_segment_text] *)

(** [float(d.get('start_time', 0))] and its like *)
Definition float_field (d : pyval) (key : string) : result float :=
  v <- get d key (PyInt 0) ;; float_of v.

(** The body of the loop over [items]: what one item appends to [words]. *)
Definition item_words (segment_start segment_end : float) (item : pyval)
  : result (list pyval) :=
  ty <- get item "type" PyNone ;;
  if eq_str ty "pronunciation" then
    item_start <- float_field item "start_time" ;;
    if PrimFloat.leb segment_start item_start && PrimFloat.leb item_start segment_end
    then
      alternatives <- get item "alternatives" (PyList [PyDict []]) ;;
      first <- index0 alternatives ;;
      content <- get first "content" (PyStr "") ;;
      Ok [content]
    else Ok []
  else Ok [].

Definition _get_segment_text (segment items : pyval) : result string :=
  segment_start <- float_field segment "start_time" ;;
  segment_end <- float_field segment "end_time" ;;
  its <- iter items ;;
  words <- foldM (fun words item =>
                    w <- item_words segment_start segment_end item ;;
                    Ok (words ++ w)%list) its [] ;;
  strs <- all_str words ;;
  Ok (join " " strs).

(** ** [_analyze_text_for_tests] *)

Definition declaration_phrases : list string := [
  "now we"; "let's"; "going to"; "want to"; "need to";
  "i'm going to"; "i'm checking"; "i need"; "we're going to"
].

Definition keyword_matches (test_config : test_config) (text_lower : string) : nat :=
  List.length (filter (fun kw => contains kw text_lower) (keywords test_config)).

Definition pattern_matches (test_config : test_config) (text_lower : string) : nat :=
  List.length (filter (fun pattern => search true pattern text_lower)
            (patterns test_config)).

Definition has_declaration (text_lower : string) : bool :=
  existsb (fun phrase => contains phrase text_lower) declaration_phrases.

(** The value of [confidence] when the threshold is tested, from the two
    counts and the declaration flag. *)
Definition confidence_of (n_keywords keyword_matches pattern_matches : nat)
  (has_declaration : bool) : float :=
  let confidence := 0%float in
  let confidence :=
    if (0 <? keyword_matches)%nat
    then (confidence +
          0.3 * Py.min (float_of_nat keyword_matches / float_of_nat n_keywords) 1)%float
    else confidence in
  let confidence :=
    if (0 <? pattern_matches)%nat then (confidence + 0.7)%float else confidence in
  let confidence :=
    if has_declaration && PrimFloat.ltb 0 confidence
    then (confidence + 0.2)%float else confidence in
  confidence.

Definition category_confidence (test_config : test_config) (text_lower : string)
  : float :=
  confidence_of (List.length (keywords test_config))
    (keyword_matches test_config text_lower)
    (pattern_matches test_config text_lower)
    (has_declaration text_lower).

(** One turn of the loop over the taxonomy: what it appends to [detected]. *)
Definition analyze_category (text : string) (timestamp : float)
  (entry : string * test_config) : list detected_test :=
  let '(test_label, test_config) := entry in
  let confidence := category_confidence test_config (lower text) in
  if PrimFloat.leb 0.5 confidence then
    [ {| label := test_label;
         timestamp := timestamp;
         confidence := Py.min confidence 1;
         matched_text := take 200 text |} ]
  else [].

Definition analyze_text_with (taxonomy : list (string * test_config))
  (text : string) (timestamp : float) : list detected_test :=
  flat_map (analyze_category text timestamp) taxonomy.

(** [self.test_taxonomy] is [TEST_TAXONOMY]. *)
Definition _analyze_text_for_tests (text : string) (timestamp : float)
  : list detected_test :=
  analyze_text_with TEST_TAXONOMY text timestamp.

(** ** [detect_declared_tests] *)

(** The body of the loop over [segments]: what one segment appends to
    [declared_tests]. *)
Definition segment_tests (items segment : pyval) : result (list declared_test) :=
  speaker <- get segment "speaker_label" (PyStr "unknown") ;;
  start_time <- float_field segment "start_time" ;;
  end_time <- float_field segment "end_time" ;;
  segment_text <- _get_segment_text segment items ;;
  let detected_tests := _analyze_text_for_tests segment_text start_time in
  Ok (map (fun t => {| test := t; speaker := speaker;
                       transcript_text := segment_text |}) detected_tests).

(** The [try] block. *)
Definition detect_declared_tests_try (transcript : pyval)
  : result (list declared_test) :=
  results <- get transcript "results" (PyDict []) ;;
  items <- get results "items" (PyList []) ;;
  speaker_labels <- get results "speaker_labels" (PyDict []) ;;
  segments <- get speaker_labels "segments" (PyList []) ;;
  segs <- iter segments ;;
  foldM (fun declared_tests segment =>
           ts <- segment_tests items segment ;;
           Ok (declared_tests ++ ts)%list) segs [].

Definition detect_declared_tests (transcript : pyval) : list declared_test :=
  match detect_declared_tests_try transcript with
  | Ok declared_tests => declared_tests
  | Raise _ => []
  end.

(** ** [_analyze_tone] *)

(** The double quote character. *)
Definition dquote : string := String (ascii_of_nat 34) EmptyString.

Definition tone_flag (flag_type severity description : string)
  (text : string) (timestamp : float) : demeanor_flag :=
  {| flag_type := flag_type;
     flag_timestamp := PyFloat timestamp;
     transcript_excerpt := take 200 text;
     severity := severity;
     description := description;
     sentiment_scores := None |}.

Definition negative_tone_flags (text : string) (timestamp : float)
  : list demeanor_flag :=
  flat_map (fun indicator =>
              if contains indicator (lower text)
              then [tone_flag "negative_tone" "high"
                      ("Negative language detected: " ++ dquote ++ indicator ++ dquote)
                      text timestamp]
              else []) NEGATIVE_TONE_INDICATORS.

Definition dismissive_flags (text : string) (timestamp : float)
  : list demeanor_flag :=
  flat_map (fun pattern =>
              if search false pattern (lower text)
              then [tone_flag "dismissive" "medium" "Dismissive language detected"
                      text timestamp]
              else []) DISMISSIVE_PATTERNS.

Definition aggressive_flags (text : string) (timestamp : float)
  : list demeanor_flag :=
  flat_map (fun pattern =>
              if search false pattern (lower text)
              then [tone_flag "aggressive" "high"
                      "Aggressive or controlling language detected" text timestamp]
              else []) INTERRUPTION_PATTERNS.

Definition _analyze_tone (text : string) (timestamp : float) : list demeanor_flag :=
  (negative_tone_flags text timestamp ++ dismissive_flags text timestamp
   ++ aggressive_flags text timestamp)%list.

(** ** [_analyze_sentiment_comprehend] *)

(** The answer of [comprehend_client.detect_sentiment], as the service
    declares it: a label and a score per polarity; either key may be
    absent. *)
Record sentiment_response : Set := {
  Sentiment : option string;
  SentimentScore : option (list (string * float))
}.

(** The external sentiment service: an answer or a failure, for a text. *)
Definition sentiment_oracle : Type := string -> result sentiment_response.

Definition str_of_Z (z : Z) : string :=
  NilZero.string_of_uint (N.to_uint (Z.to_N z)).

(** The integer nearest to [num / den], ties to even. *)
Definition round_half_even (num den : Z) : Z :=
  let '(q, r) := Z.div_eucl num den in
  if (den <? 2 * r)%Z || ((den =? 2 * r)%Z && Z.odd q) then (q + 1)%Z else q.

(** [f'{x:.2f}'] for a float *)
Definition format_2f (x : float) : string :=
  match Prim2SF x with
  | S754_nan => "nan"
  | S754_infinity s => if s then "-inf" else "inf"
  | S754_zero s => if s then "-0.00" else "0.00"
  | S754_finite s m e =>
      let hundredths :=
        match e with
        | Zneg k => round_half_even (Zpos m * 100) (Zpos (Pos.pow 2 k))
        | _ => (Zpos m * 100 * 2 ^ e)%Z
        end in
      let cents := (hundredths mod 100)%Z in
      (if s then "-" else "") ++ str_of_Z (hundredths / 100) ++ "."
      ++ (if (cents <? 10)%Z then "0" else "") ++ str_of_Z cents
  end.

Definition sentiment_try (detect_sentiment : sentiment_oracle) (text : string)
  (segments : list pyval) : result (list demeanor_flag) :=
  let text_sample := take 5000 text in
  response <- detect_sentiment text_sample ;;
  let sentiment := Sentiment response in
  let sentiment_score :=
    match SentimentScore response with Some d => d | None => [] end in
  let negative :=
    match assoc "Negative" sentiment_score with Some x => x | None => 0%float end in
  if match sentiment with Some l => String.eqb l "NEGATIVE" | None => false end
     && PrimFloat.ltb 0.6 negative
  then
    timestamp <- match segments with
                 | first :: _ => t <- float_field first "start_time" ;; Ok (PyFloat t)
                 | [] => Ok (PyInt 0)
                 end ;;
    Ok [ {| flag_type := "negative_sentiment";
            flag_timestamp := timestamp;
            transcript_excerpt := take 200 text_sample;
            severity := "medium";
            description := "Overall negative sentiment detected (score: "
                           ++ format_2f negative ++ ")";
            sentiment_scores := Some sentiment_score |} ]
  else Ok [].

Definition _analyze_sentiment_comprehend (detect_sentiment : sentiment_oracle)
  (text : string) (segments : list pyval) : list demeanor_flag :=
  match sentiment_try detect_sentiment text segments with
  | Ok flags => flags
  | Raise _ => []
  end.

(** ** [analyze_examiner_demeanor] *)

(** The variables the loop over [segments] updates: [consecutive_count],
    [last_speaker] and the list [demeanor_flags] built so far. *)
Record loop_state : Type := {
  consecutive_count : nat;
  last_speaker : pyval;
  flags : list demeanor_flag
}.

Definition interruption_flag (consecutive_count : nat) (segment_text : string)
  (start_time : float) : demeanor_flag :=
  tone_flag "interruption" "medium"
    ("Examiner spoke " ++ str_of_nat (consecutive_count + 1) ++ " times consecutively")
    segment_text start_time.

(** One turn of the loop. *)
Definition demeanor_step (examiner_speaker_label : string) (items : pyval)
  (st : loop_state) (segment : pyval) : result loop_state :=
  speaker <- get segment "speaker_label" PyNone ;;
  start_time <- float_field segment "start_time" ;;
  segment_text <- _get_segment_text segment items ;;
  if eq_str speaker examiner_speaker_label then
    let '(count, fl) :=
      if eq_str (last_speaker st) examiner_speaker_label then
        let count := (consecutive_count st + 1)%nat in
        (count,
         if (2 <=? count)%nat
         then (flags st ++ [interruption_flag count segment_text start_time])%list
         else flags st)
      else (O, flags st) in
    Ok {| consecutive_count := count;
          last_speaker := speaker;
          flags := (fl ++ _analyze_tone segment_text start_time)%list |}
  else
    Ok {| consecutive_count := consecutive_count st;
          last_speaker := speaker;
          flags := flags st |}.

Definition initial_state : loop_state :=
  {| consecutive_count := 0; last_speaker := PyNone; flags := [] |}.

Definition is_examiner (examiner_speaker_label : string) (s : pyval) : result bool :=
  speaker <- get s "speaker_label" PyNone ;;
  Ok (eq_str speaker examiner_speaker_label).

(** The [try] block. *)
Definition analyze_examiner_demeanor_try (detect_sentiment : sentiment_oracle)
  (transcript : pyval) (examiner_speaker_label : string)
  : result (list demeanor_flag) :=
  results <- get transcript "results" (PyDict []) ;;
  speaker_labels <- get results "speaker_labels" (PyDict []) ;;
  segments <- get speaker_labels "segments" (PyList []) ;;
  items <- get results "items" (PyList []) ;;
  segs <- iter segments ;;
  examiner_segments <- filterM (is_examiner examiner_speaker_label) segs ;;
  st <- foldM (demeanor_step examiner_speaker_label items) segs initial_state ;;
  texts <- mapM (fun s => _get_segment_text s items) (firstn 10 examiner_segments) ;;
  let examiner_text := join " " texts in
  let sentiment_flags :=
    match examiner_text with
    | EmptyString => []
    | _ => _analyze_sentiment_comprehend detect_sentiment examiner_text
             examiner_segments
    end in
  Ok (flags st ++ sentiment_flags)%list.

Definition analyze_examiner_demeanor (detect_sentiment : sentiment_oracle)
  (transcript : pyval) (examiner_speaker_label : string) : list demeanor_flag :=
  match analyze_examiner_demeanor_try detect_sentiment transcript
          examiner_speaker_label with
  | Ok demeanor_flags => demeanor_flags
  | Raise _ => []
  end.

(** ** [process_transcript_for_cme_analysis] *)

Record analysis : Type := {
  session_id : string;
  declared_tests : list declared_test;
  demeanor_flags : list demeanor_flag;
  processing_timestamp : Z;
  status : string
}.

(** The environment of a run is the sentiment service and the clock
    ([now] is [int(time.time())]). *)
Definition process_transcript_for_cme_analysis
  (detect_sentiment : sentiment_oracle) (now : Z)
  (session_id : string) (transcript_data : pyval) : analysis :=
  let declared_tests := detect_declared_tests transcript_data in
  let demeanor_flags :=
    analyze_examiner_demeanor detect_sentiment transcript_data "speaker_0" in
  {| session_id := session_id;
     declared_tests := declared_tests;
     demeanor_flags := demeanor_flags;
     processing_timestamp := now;
     status := "completed" |}.

End Nlp.

(* ================================================================== *)
(** * [cme_report_generator.py]: statistics and timeline of
      [_generate_html_report] *)
(* ================================================================== *)

Module Report.

Import Py.
Local Open Scope string_scope.

(** [step_actions]: the observed action (an item of the actions table)
    recorded for a declared step id, when there is one. *)
Definition actions : Type := list (string * pyval).

(** [step_actions.get(step_id, {})] *)
Definition action_of (step_actions : actions) (step_id : string) : pyval :=
  match assoc step_id step_actions with
  | Some action => action
  | None => PyDict []
  end.

(** The conditions of the two sums of the executive summary. *)
Definition is_performed (step_actions : actions) (step_id : string) : result bool :=
  m <- get (action_of step_actions step_id) "motion_present" PyNone ;;
  Ok (eq_str m "performed").

Definition is_not_observed (step_actions : actions) (step_id : string)
  : result bool :=
  m <- get (action_of step_actions step_id) "motion_present" PyNone ;;
  Ok (eq_str m "not_observed").

(** [sum(1 for step in declared_steps if ...)], over the ids of the steps *)
Definition count_steps (cond : string -> result bool) (declared_steps : list string)
  : result nat :=
  kept <- filterM cond declared_steps ;; Ok (List.length kept).

Definition tests_performed (step_actions : actions) (declared_steps : list string)
  : result nat :=
  count_steps (is_performed step_actions) declared_steps.

Definition tests_not_performed (step_actions : actions)
  (declared_steps : list string) : result nat :=
  count_steps (is_not_observed step_actions) declared_steps.

(** [motion_present in ['not_observed', 'brief']] *)
Definition is_discrepancy (motion_present : pyval) : bool :=
  eq_str motion_present "not_observed" || eq_str motion_present "brief".

Definition is_lower (c : ascii) : bool :=
  let n := nat_of_ascii c in (97 <=? n)%nat && (n <=? 122)%nat.

Definition upper_ascii (c : ascii) : ascii :=
  if is_lower c then ascii_of_nat (nat_of_ascii c - 32) else c.

(** [s.replace('_', ' ')] *)
Fixpoint replace_underscores (s : string) : string :=
  match s with
  | EmptyString => EmptyString
  | String c s' =>
      String (if Ascii.eqb c "_" then " "%char else c) (replace_underscores s')
  end.

(** [s.title()]: a letter is upper case after a non-letter, lower case
    after a letter. *)
Fixpoint title_from (after_letter : bool) (s : string) : string :=
  match s with
  | EmptyString => EmptyString
  | String c s' =>
      if is_upper c || is_lower c
      then String (if after_letter then lower_ascii c else upper_ascii c)
             (title_from true s')
      else String c (title_from false s')
  end.

Definition title (s : string) : string := title_from false s.

(** What the timeline shows of one declared step. *)
Record timeline_item : Type := {
  motion_present : pyval;
  discrepancy : bool;
  discrepancy_class : string;
  observed_action : string
}.

Definition timeline_item_of (step_actions : actions) (step_id : string)
  : result timeline_item :=
  let action := action_of step_actions step_id in
  motion_present <- get action "motion_present" (PyStr "unknown") ;;
  let is_discrepancy := is_discrepancy motion_present in
  let discrepancy_class := if is_discrepancy then "discrepancy" else "" in
  shown <- match motion_present with
           | PyStr m => Ok (title (replace_underscores m))
           | _ => Raise AttributeError
           end ;;
  Ok {| motion_present := motion_present;
        discrepancy := is_discrepancy;
        discrepancy_class := discrepancy_class;
        observed_action := shown |}.

End Report.

(* ================================================================== *)
(** * [cme_report_generator.py]: the data of a report *)
(* ================================================================== *)

Module ReportData.

Import Py Report.
Local Open Scope string_scope.

(** [bool(v)] *)
Definition truthy (v : pyval) : bool :=
  match v with
  | PyNone => false
  | PyBool b => b
  | PyInt z => negb (Z.eqb z 0)
  | PyFloat f => negb (PrimFloat.eqb f 0)
  | PyStr s => negb (String.eqb s "")
  | PyList l => match l with [] => false | _ => true end
  | PyDict d => match d with [] => false | _ => true end
  end.

(** [d[key] = v] on a dict with string keys: the entry of an existing key
    is replaced in place, a new key is added at the end. *)
Fixpoint dict_set {A : Type} (key : string) (v : A) (d : list (string * A))
  : list (string * A) :=
  match d with
  | [] => [(key, v)]
  | (k, x) :: d' =>
      if String.eqb key k then (k, v) :: d' else (k, x) :: dict_set key v d'
  end.

(** One turn of the loop of [_gather_session_data] that maps actions to
    steps.  Only the entries under string keys are kept in the model: the
    ids of declared steps are strings, and a key of another type is equal
    to none of them.  A list or a dict is not hashable. *)
Definition record_action (step_actions : actions) (action : pyval)
  : result actions :=
  step_id <- get action "declared_step_id" PyNone ;;
  if truthy step_id then
    match step_id with
    | PyStr s => Ok (dict_set s action step_actions)
    | PyList _ | PyDict _ => Raise TypeError
    | _ => Ok step_actions
    end
  else Ok step_actions.

(** [step_actions], from the scan of the actions table. *)
Definition build_step_actions (all_actions : list pyval) : result actions :=
  foldM record_action all_actions [].

(** [len(s)] *)
Definition len (s : string) : nat := String.length s.

(** [f"{s[:limit]}{'...' if len(s) > limit else ''}"]: the quotation of a
    transcript (limit 200) or of an excerpt (limit 300) in the report. *)
Definition quoted (limit : nat) (s : string) : string :=
  take limit s ++ (if (limit <? len s)%nat then "..." else "").

End ReportData.

(* ================================================================== *)
(** * [cme_video_processor.py]: the comparison with the expectations *)
(* ================================================================== *)

Module Video.

Import Py.
Local Open Scope string_scope.

(** [_compare_with_expectations]: the dict it returns, key by key. *)
Definition _compare_with_expectations (motion_analysis pose_analysis
  expectations : pyval) : result pyval :=
  motion_status <- get motion_analysis "status" PyNone ;;
  completed <-
    (if eq_str motion_status "COMPLETED"
     then pose_status <- get pose_analysis "status" PyNone ;;
          Ok (eq_str pose_status "COMPLETED")
     else Ok false) ;;
  let motion_present := if completed then "performed" else "unknown" in
  let pose_match := if completed then "full_match" else "unknown" in
  let confidence := if completed then 0.75%float else 0.5%float in
  expected_movements <- get expectations "expected_movements" (PyList []) ;;
  patient_motion_required <-
    get expectations "patient_motion_required" (PyBool false) ;;
  examiner_touch <- get expectations "examiner_touch" (PyBool false) ;;
  motion_status' <- get motion_analysis "status" PyNone ;;
  Ok (PyDict [
    ("motion_present", PyStr motion_present);
    ("pose_match", PyStr pose_match);
    ("confidence_score", PyFloat confidence);
    ("expected_movements", expected_movements);
    ("patient_motion_required", patient_motion_required);
    ("examiner_touch_required", examiner_touch);
    ("analysis_status",
     PyStr (if eq_str motion_status' "IN_PROGRESS" then "pending" else "completed"))
  ]).

End Video.

(* ================================================================== *)
(** * [cme_video_processor.py]: the analysis of a video segment *)
(* ================================================================== *)

Module VideoSegment.

Import Py Video.
Local Open Scope string_scope.

(** The outcome of a call to an external service: what it returned, or
    the text [str(e)] of the exception it raised. *)
Inductive outcome (A : Type) : Type :=
| Returned (a : A)
| Failed (message : string).
Arguments Returned {A} a.
Arguments Failed {A} message.

(** A job-starting call of the video service, for a bucket and a key: the
    response dict or a failure. *)
Definition start_job : Type := string -> string -> outcome (list (string * pyval)).

Definition expectation (expected_movements : list string)
  (patient_motion_required examiner_touch : bool) (description : string) : pyval :=
  PyDict [("expected_movements", PyList (map PyStr expected_movements));
          ("patient_motion_required", PyBool patient_motion_required);
          ("examiner_touch", PyBool examiner_touch);
          ("description", PyStr description)].

Definition TEST_MOTION_EXPECTATIONS : list (string * pyval) := [
  ("lumbar_rom",
   expectation ["forward_bend"; "backward_bend"; "lateral_bend"; "rotation"]
     true false "Patient should bend forward, backward, and side-to-side");
  ("straight_leg_raise",
   expectation ["leg_raise"; "hip_flexion"]
     true true "Examiner raises patient's leg while patient lies supine");
  ("cervical_rom",
   expectation ["head_rotation"; "head_flexion"; "head_extension"]
     true false "Patient rotates and flexes neck in various directions");
  ("gait",
   expectation ["walking"; "heel_to_toe"; "standing"]
     true false "Patient walks normally and performs heel-to-toe walking");
  ("neurological",
   expectation ["limb_movement"; "reflex_test"]
     false true "Examiner tests reflexes using reflex hammer");
  ("palpation",
   expectation ["examiner_hand_movement"]
     false true "Examiner presses along spine or affected area");
  ("spine",
   expectation ["examiner_hand_movement"; "visual_inspection"]
     false true "Examiner inspects and palpates spine")
].

(** [_analyze_motion_rekognition] and [_detect_poses_rekognition]: start
    the job and return its handle with status IN_PROGRESS; any exception
    (of the call, or the [KeyError] of [response['JobId']]) becomes an
    ['error'] dict. *)
Definition start_analysis (start : start_job) (job_type : string)
  (s3_bucket video_s3_key : string) : pyval :=
  match start s3_bucket video_s3_key with
  | Returned response =>
      match assoc "JobId" response with
      | Some job_id =>
          PyDict [("job_id", job_id);
                  ("status", PyStr "IN_PROGRESS");
                  ("type", PyStr job_type)]
      | None => PyDict [("error", PyStr "'JobId'")]
      end
  | Failed message => PyDict [("error", PyStr message)]
  end.

Definition _analyze_motion_rekognition (start_label_detection : start_job)
  (s3_bucket video_s3_key : string) : pyval :=
  start_analysis start_label_detection "motion_analysis" s3_bucket video_s3_key.

Definition _detect_poses_rekognition (start_person_tracking : start_job)
  (s3_bucket video_s3_key : string) : pyval :=
  start_analysis start_person_tracking "pose_detection" s3_bucket video_s3_key.

(** The name of an exception, standing for [str(e)] in a handler. *)
Definition exn_text (e : exn) : string :=
  match e with
  | AttributeError => "AttributeError"
  | TypeError => "TypeError"
  | ValueError => "ValueError"
  | IndexError => "IndexError"
  | KeyError => "KeyError"
  | OverflowError => "OverflowError"
  | ClientError => "ClientError"
  end.

(** [analyze_video_segment] *)
Definition analyze_video_segment (start_label_detection start_person_tracking
  : start_job) (s3_bucket segment_s3_key test_type : string) : pyval :=
  let expectations :=
    match assoc test_type TEST_MOTION_EXPECTATIONS with
    | Some e => e
    | None => PyDict []
    end in
  let motion_analysis :=
    _analyze_motion_rekognition start_label_detection s3_bucket segment_s3_key in
  let pose_analysis :=
    _detect_poses_rekognition start_person_tracking s3_bucket segment_s3_key in
  match _compare_with_expectations motion_analysis pose_analysis expectations with
  | Ok comparison =>
      PyDict [("segment_key", PyStr segment_s3_key);
              ("test_type", PyStr test_type);
              ("motion_detected", motion_analysis);
              ("poses_detected", pose_analysis);
              ("comparison", comparison);
              ("expectations", expectations)]
  | Raise e =>
      PyDict [("error", PyStr (exn_text e));
              ("segment_key", PyStr segment_s3_key);
              ("test_type", PyStr test_type)]
  end.

End VideoSegment.

(* ================================================================== *)
(** * [cme_handler.py]: recording rules and recording locations *)
(* ================================================================== *)

Module Handler.

Import Py.
Local Open Scope string_scope.

Record recording_rules : Set := {
  video : bool;
  audio : bool;
  mode : string;
  rule : string
}.

Definition DEFAULT_RULES : recording_rules :=
  {| video := false; audio := false; mode := "Ephemeral";
     rule := "Jurisdictional rules apply" |}.

Definition STATE_RECORDING_RULES : list (string * recording_rules) := [
  ("FL", {| video := true; audio := true; mode := "Full Record";
            rule := "Rule 1.360" |});
  ("PA", {| video := false; audio := true; mode := "Audio Only";
            rule := "Pennsylvania law" |});
  ("CA", {| video := true; audio := true; mode := "Full Record";
            rule := "CCP §2032.320" |});
  ("TX", {| video := false; audio := false; mode := "Ephemeral";
            rule := "Texas Civil Practice" |});
  ("DEFAULT", DEFAULT_RULES)
].

Definition is_lower (c : ascii) : bool :=
  let n := nat_of_ascii c in (97 <=? n)%nat && (n <=? 122)%nat.

Definition upper_ascii (c : ascii) : ascii :=
  if is_lower c then ascii_of_nat (nat_of_ascii c - 32) else c.

(** [s.upper()] *)
Fixpoint upper (s : string) : string :=
  match s with
  | EmptyString => EmptyString
  | String c s' => String (upper_ascii c) (upper s')
  end.

(** [STATE_RECORDING_RULES.get(state.upper(), STATE_RECORDING_RULES['DEFAULT'])] *)
Definition rules_for (state : string) : recording_rules :=
  match assoc (upper state) STATE_RECORDING_RULES with
  | Some rules => rules
  | None =>
      match assoc "DEFAULT" STATE_RECORDING_RULES with
      | Some rules => rules
      | None => DEFAULT_RULES
      end
  end.

(** The dict [create_exam_session] returns. *)
Record exam_session : Set := {
  session_id : string;
  patient_id : string;
  doctor_name : string;
  state : string;
  session_mode : string;
  recording_allowed : recording_rules;
  video_uri : string;
  transcript_uri : string;
  consent_hash : string;
  status : string;
  created_at : Z;
  updated_at : Z;
  processing_stage : string
}.

(** [x or ''] for an optional string *)
Definition or_empty (x : option string) : string :=
  match x with
  | Some s => s
  | None => ""
  end.

(** [create_exam_session]; [uuid_hex] is [uuid.uuid4().hex] and [now] is
    [int(time.time())]. *)
Definition create_exam_session (uuid_hex : string) (now : Z)
  (patient_id doctor_name state : string) (video_uri consent_hash : option string)
  : exam_session :=
  let session_id := "cme_" ++ take 12 uuid_hex in
  let timestamp := now in
  let recording_rules := rules_for state in
  {| session_id := session_id;
     patient_id := patient_id;
     doctor_name := doctor_name;
     state := upper state;
     session_mode := mode recording_rules;
     recording_allowed := recording_rules;
     video_uri := or_empty video_uri;
     transcript_uri := "";
     consent_hash := or_empty consent_hash;
     status := "created";
     created_at := timestamp;
     updated_at := timestamp;
     processing_stage := "session_setup" |}.

(** ** The location of a recording *)

(** [c in s] for a character *)
Fixpoint has_char (c : ascii) (s : string) : bool :=
  match s with
  | EmptyString => false
  | String x s' => Ascii.eqb x c || has_char c s'
  end.

(** [s.split(sep)[-1]]: what follows the last separator, the whole
    string when there is none. *)
Fixpoint last_part (sep : ascii) (s : string) : string :=
  match s with
  | EmptyString => EmptyString
  | String c s' =>
      if has_char sep s' then last_part sep s'
      else if Ascii.eqb c sep then s' else s
  end.

(** [filename.split('.')[-1] if '.' in filename else 'mp4'] *)
Definition file_extension (filename : string) : string :=
  if has_char "." filename then last_part "." filename else "mp4".

(** [f"cme-recordings/{session_id}/recording.{file_extension}"] *)
Definition recording_key (session_id filename : string) : string :=
  "cme-recordings/" ++ session_id ++ "/recording." ++ file_extension filename.

(** [f"s3://{S3_BUCKET}/{s3_key}"], the [video_uri] the upload handler
    stores in the session. *)
Definition recording_uri (S3_BUCKET s3_key : string) : string :=
  "s3://" ++ S3_BUCKET ++ "/" ++ s3_key.

(** [s.replace(old, '')] for a non-empty [old]: the occurrences of [old]
    are removed from left to right; [skip] characters of an occurrence
    remain to be dropped. *)
Fixpoint remove_from (skip : nat) (old s : string) : string :=
  match s with
  | EmptyString => EmptyString
  | String c s' =>
      match skip with
      | S k => remove_from k old s'
      | O =>
          if String.prefix old s
          then remove_from (String.length old - 1) old s'
          else String c (remove_from 0 old s')
      end
  end.

Definition remove_all (old s : string) : string := remove_from 0 old s.

(** [s.split(sep, 1)] when it has two parts. *)
Fixpoint split_once (sep : ascii) (s : string) : option (string * string) :=
  match s with
  | EmptyString => None
  | String c s' =>
      if Ascii.eqb c sep then Some (EmptyString, s')
      else match split_once sep s' with
           | Some (a, b) => Some (String c a, b)
           | None => None
           end
  end.

(** The bucket and key [start_transcription_job] reads off the
    [video_uri] of a session; unpacking a split without ['/'] raises
    [ValueError]. *)
Definition media_location (S3_BUCKET video_uri : string) : result (string * string) :=
  if String.prefix "s3://" video_uri then
    let s3_path := remove_all "s3://" video_uri in
    match split_once "/" s3_path with
    | Some (bucket, key) => Ok (bucket, key)
    | None => Raise ValueError
    end
  else Ok (S3_BUCKET, video_uri).

(** [f"s3://{bucket}/{key}"], the [MediaFileUri] of the job. *)
Definition media_file_uri (location : string * string) : string :=
  "s3://" ++ fst location ++ "/" ++ snd location.

End Handler.

(* ================================================================== *)
(** * Definitions used to state the properties *)
(* ================================================================== *)

Module Spec.

Import Py Re Nlp.
Local Open Scope string_scope.

(** For a category of [n] keywords, over every possible number of keyword
    hits, declaration flag and presence of a pattern hit: a pattern hit
    clears the threshold, and a score that clears it is stored in [0, 1]. *)
Definition scores_ok (n : nat) : bool :=
  forallb (fun k =>
    forallb (fun d =>
      PrimFloat.leb 0.5 (confidence_of n k 1 d) &&
      forallb (fun p =>
        let c := confidence_of n k p d in
        negb (PrimFloat.leb 0.5 c) ||
        (PrimFloat.leb 0 (Py.min c 1) && PrimFloat.leb (Py.min c 1) 1))
        [0; 1]%nat)
      [true; false]) (seq 0 (S n)).

(** ** Segment text: the words of a window *)

(** The item is a spoken word (type ['pronunciation']). *)
Definition is_lexical (item : pyval) : bool :=
  match get item "type" PyNone with
  | Ok ty => eq_str ty "pronunciation"
  | Raise _ => false
  end.

(** The start time of an item (0 when it has none). *)
Definition item_start (item : pyval) : float :=
  match float_field item "start_time" with
  | Ok t => t
  | Raise _ => 0%float
  end.

(** [item.get('alternatives', [{}])[0].get('content', '')] *)
Definition content_lookup (item : pyval) : result pyval :=
  alternatives <- get item "alternatives" (PyList [PyDict []]) ;;
  first <- index0 alternatives ;;
  get first "content" (PyStr "").

(** The text of an item (empty when it has none). *)
Definition item_content (item : pyval) : string :=
  match content_lookup item with
  | Ok (PyStr s) => s
  | _ => ""
  end.

(** The item is a word whose start time [t] satisfies
    [start_time <= t <= end_time]. *)
Definition in_window (start_time end_time : float) (item : pyval) : bool :=
  is_lexical item
  && PrimFloat.leb start_time (item_start item)
  && PrimFloat.leb (item_start item) end_time.

(** The texts of the words of the window, in item-list order. *)
Definition segment_words (start_time end_time : float) (items : list pyval)
  : list string :=
  map item_content (filter (in_window start_time end_time) items).

(** An item as the transcript data model has it: a dict; when it is a
    word, its start time converts to a float and, if it falls in the
    window, its text is a string. *)
Definition well_formed_item (start_time end_time : float) (item : pyval) : bool :=
  match get item "type" PyNone with
  | Raise _ => false
  | Ok ty =>
      if eq_str ty "pronunciation" then
        match float_field item "start_time" with
        | Raise _ => false
        | Ok t =>
            if PrimFloat.leb start_time t && PrimFloat.leb t end_time then
              match content_lookup item with
              | Ok (PyStr _) => true
              | _ => false
              end
            else true
        end
      else true
  end.

(** The value is a string, as [str.join] requires of each word. *)
Definition is_text (v : pyval) : bool :=
  match v with
  | PyStr _ => true
  | _ => false
  end.

(** ** Transcripts *)

(** The item list and the segments both passes read off a transcript. *)
Definition transcript_parts (transcript : pyval) : result (pyval * list pyval) :=
  results <- get transcript "results" (PyDict []) ;;
  items <- get results "items" (PyList []) ;;
  speaker_labels <- get results "speaker_labels" (PyDict []) ;;
  segments <- get speaker_labels "segments" (PyList []) ;;
  segs <- iter segments ;;
  Ok (items, segs).

(** The declared-test events of one segment (none when it cannot be
    analysed). *)
Definition segment_events (items segment : pyval) : list declared_test :=
  match segment_tests items segment with
  | Ok events => events
  | Raise _ => []
  end.

(** ** Runs of consecutive examiner segments *)

(** The segment is attributed to the examiner. *)
Definition attributed_to (examiner : string) (segment : pyval) : bool :=
  match get segment "speaker_label" PyNone with
  | Ok speaker => eq_str speaker examiner
  | Raise _ => false
  end.

Fixpoint leading_run {A : Type} (p : A -> bool) (l : list A) : nat :=
  match l with
  | a :: l' => if p a then S (leading_run p l') else 0
  | [] => 0
  end.

(** How many elements in a row satisfy [p] at the end of [l]. *)
Definition trailing_run {A : Type} (p : A -> bool) (l : list A) : nat :=
  leading_run p (rev l).

(** Each element of a list with the elements before it. *)
Fixpoint with_history_from {A : Type} (before l : list A) : list (list A * A) :=
  match l with
  | [] => []
  | a :: l' => (before, a) :: with_history_from (before ++ [a]) l'
  end.

Definition with_history {A : Type} (l : list A) : list (list A * A) :=
  with_history_from [] l.

(** The rank of an examiner segment in its run of consecutive examiner
    segments: 1 when the segment before it is of another speaker (or there
    is none), one more than the rank of the segment before it otherwise. *)
Definition run_position (examiner : string) (before : list pyval) : nat :=
  S (trailing_run (attributed_to examiner) before).

(** The interruption flag of a segment, given the segments before it: one
    flag of severity medium at the segment's start time when the segment
    is the third or a later one of its run, none otherwise. *)
Definition expected_interruption (examiner : string) (items : pyval)
  (entry : list pyval * pyval) : list demeanor_flag :=
  let '(before, segment) := entry in
  if attributed_to examiner segment && (3 <=? run_position examiner before)%nat
  then
    match float_field segment "start_time", _get_segment_text segment items with
    | Ok start_time, Ok segment_text =>
        [ {| flag_type := "interruption";
             flag_timestamp := PyFloat start_time;
             transcript_excerpt := take 200 segment_text;
             severity := "medium";
             description := "Examiner spoke "
                            ++ str_of_nat (run_position examiner before)
                            ++ " times consecutively";
             sentiment_scores := None |} ]
    | _, _ => []
    end
  else [].

Definition is_interruption (f : demeanor_flag) : bool :=
  String.eqb (flag_type f) "interruption".

(** The flag is the contribution of the sentiment service. *)
Definition is_negative_sentiment (f : demeanor_flag) : bool :=
  String.eqb (flag_type f) "negative_sentiment".

(** The severity the kind of a flag calls for: medium for interruption,
    dismissive and negative_sentiment, high for negative_tone and
    aggressive; no other kind. *)
Definition severity_matches_kind (f : demeanor_flag) : bool :=
  let kind := flag_type f in
  if String.eqb kind "interruption" || String.eqb kind "dismissive"
     || String.eqb kind "negative_sentiment"
  then String.eqb (severity f) "medium"
  else if String.eqb kind "negative_tone" || String.eqb kind "aggressive"
  then String.eqb (severity f) "high"
  else false.

(** What a turn of the demeanor loop reads off its segment. *)
Definition segment_view (items segment : pyval) : result (pyval * float * string) :=
  speaker <- get segment "speaker_label" PyNone ;;
  start_time <- float_field segment "start_time" ;;
  segment_text <- _get_segment_text segment items ;;
  Ok (speaker, start_time, segment_text).

(** What the demeanor pass computes before it turns to the sentiment
    service: the flags of the loop, and the text and the examiner
    segments it hands to [_analyze_sentiment_comprehend]. *)
Definition demeanor_core (transcript : pyval) (examiner_speaker_label : string)
  : result (list demeanor_flag * string * list pyval) :=
  results <- get transcript "results" (PyDict []) ;;
  speaker_labels <- get results "speaker_labels" (PyDict []) ;;
  segments <- get speaker_labels "segments" (PyList []) ;;
  items <- get results "items" (PyList []) ;;
  segs <- iter segments ;;
  examiner_segments <- filterM (is_examiner examiner_speaker_label) segs ;;
  st <- foldM (demeanor_step examiner_speaker_label items) segs initial_state ;;
  texts <- mapM (fun s => _get_segment_text s items) (firstn 10 examiner_segments) ;;
  Ok (flags st, join " " texts, examiner_segments).

(** ** Sample transcripts, in the shape of the transcription service *)

Definition word (start_time content : string) : pyval :=
  PyDict [("type", PyStr "pronunciation");
          ("start_time", PyStr start_time);
          ("end_time", PyStr start_time);
          ("alternatives",
           PyList [PyDict [("confidence", PyStr "0.99"); ("content", PyStr content)]])].

Definition punctuation (content : string) : pyval :=
  PyDict [("type", PyStr "punctuation");
          ("alternatives",
           PyList [PyDict [("confidence", PyStr "0.0"); ("content", PyStr content)]])].

(** A punctuation mark that carries a start time of its own. *)
Definition timed_punctuation (start_time content : string) : pyval :=
  PyDict [("type", PyStr "punctuation");
          ("start_time", PyStr start_time);
          ("alternatives",
           PyList [PyDict [("confidence", PyStr "0.0"); ("content", PyStr content)]])].

(** A word whose list of alternatives is empty. *)
Definition silent_word (start_time : string) : pyval :=
  PyDict [("type", PyStr "pronunciation");
          ("start_time", PyStr start_time);
          ("alternatives", PyList [])].

Definition segment_of (speaker_label : string) (start_time end_time : pyval) : pyval :=
  PyDict [("start_time", start_time);
          ("speaker_label", PyStr speaker_label);
          ("end_time", end_time)].

Definition transcript_of (items segments : list pyval) : pyval :=
  PyDict [("jobName", PyStr "cme-session");
          ("results",
           PyDict [("items", PyList items);
                   ("speaker_labels", PyDict [("segments", PyList segments)])])].

(** The sentiment service is unreachable. *)
Definition no_service : sentiment_oracle := fun _ => Raise ClientError.

(** An examination of five segments: the examiner ([spk_0]) speaks four
    times in a row, then the patient answers. *)
Definition sample_items : list pyval := [
  word "0.5" "Let's"; word "0.8" "do"; word "1.1" "the"; word "1.4" "SLR";
  word "1.7" "test"; punctuation ".";
  word "3.0" "Be"; word "3.4" "quiet"; punctuation ".";
  word "5.0" "Lie"; word "5.3" "back"; punctuation ".";
  word "7.0" "That"; word "7.3" "doesn't"; word "7.6" "matter"; punctuation ".";
  word "9.0" "Okay"
].

Definition sample_segments : list pyval := [
  segment_of "spk_0" (PyStr "0.5") (PyStr "2.0");
  segment_of "spk_0" (PyStr "3.0") (PyStr "4.0");
  segment_of "spk_0" (PyStr "5.0") (PyStr "6.0");
  segment_of "spk_0" (PyStr "7.0") (PyStr "8.0");
  segment_of "spk_1" (PyStr "9.0") (PyStr "9.5")
].

Definition sample_transcript : pyval := transcript_of sample_items sample_segments.

(** A segment whose timestamp is not a number. *)
Definition malformed_segment : pyval :=
  segment_of "spk_1" (PyStr "n/a") (PyStr "10.5").

(** The same examination with the malformed segment at its end. *)
Definition damaged_transcript : pyval :=
  transcript_of sample_items (sample_segments ++ [malformed_segment]).

End Spec.

(* ================================================================== *)
(** * Definitions used to state further properties of the NLP passes *)
(* ================================================================== *)

Module SpecNlp.

Import Py Re Nlp Spec.
Local Open Scope string_scope.

(** What a candidate says of the text, apart from the quoted text. *)
Definition verdict (e : detected_test) : string * float * float :=
  (label e, timestamp e, confidence e).

(** The kind, severity and description of a flag. *)
Definition finding (f : demeanor_flag) : string * string * string :=
  (flag_type f, severity f, description f).

(** The score the classifier gives a category of the taxonomy clears the
    threshold. *)
Definition clears_threshold (text : string) (entry : string * test_config) : bool :=
  PrimFloat.leb 0.5 (category_confidence (snd entry) (lower text)).

(** Every keyword of the category occurs in the lowercased text. *)
Definition all_keywords (test_config : test_config) (text_lower : string) : bool :=
  forallb (fun kw => contains kw text_lower) (keywords test_config).

Definition any_pattern (test_config : test_config) (text_lower : string) : bool :=
  existsb (fun pattern => search true pattern text_lower) (patterns test_config).

(** A sentiment service that refuses texts of more than 5000 characters
    and otherwise answers as [oracle] does. *)
Definition at_most_5000 (oracle : sentiment_oracle) : sentiment_oracle :=
  fun text =>
    if (String.length text <=? 5000)%nat then oracle text else Raise ClientError.

(** The score of the 'Negative' polarity in an answer (0 when absent). *)
Definition negative_score (response : sentiment_response) : float :=
  match SentimentScore response with
  | Some scores =>
      match assoc "Negative" scores with Some x => x | None => 0%float end
  | None => 0%float
  end.

(** The answer calls for a flag: label NEGATIVE and a negative score
    strictly above 0.6. *)
Definition is_negative (response : sentiment_response) : bool :=
  match Sentiment response with
  | Some l => String.eqb l "NEGATIVE"
  | None => false
  end && PrimFloat.ltb 0.6 (negative_score response).

(** The timestamp of the sentiment flag can be computed: there is no
    examiner segment, or the start time of the first one is a number. *)
Definition first_start_ok (segments : list pyval) : bool :=
  match segments with
  | [] => true
  | first :: _ => succeeds (float_field first "start_time")
  end.

Definition is_negative_tone (f : demeanor_flag) : bool :=
  String.eqb (flag_type f) "negative_tone".

(** Without a pattern hit a score clears the threshold only when every
    keyword is hit and a declaration phrase is present. *)
Definition keyword_only_ok (n : nat) : bool :=
  forallb (fun k =>
    forallb (fun d =>
      Bool.eqb (PrimFloat.leb 0.5 (confidence_of n k 0 d)) ((k =? n)%nat && d))
      [true; false]) (seq 0 (S n)).

(** A sentiment service that finds every text negative. *)
Definition always_negative : sentiment_oracle :=
  fun _ => Ok {| Sentiment := Some "NEGATIVE";
                 SentimentScore := Some [("Positive", 0.01%float);
                                         ("Negative", 0.97%float);
                                         ("Neutral", 0.01%float);
                                         ("Mixed", 0.01%float)] |}.

End SpecNlp.

(* ================================================================== *)
(** * Definitions used to state further properties of the report *)
(* ================================================================== *)

Module SpecReport.

Import Py Report ReportData.
Local Open Scope string_scope.

(** The action refers to the declared step [step_id]. *)
Definition refers_to (step_id : string) (action : pyval) : bool :=
  match get action "declared_step_id" PyNone with
  | Ok v => eq_str v step_id
  | Raise _ => false
  end.

(** The last element of a list that satisfies [p]. *)
Definition find_last {A : Type} (p : A -> bool) (l : list A) : option A :=
  find p (rev l).

(** An observed action with the given verdict for a step. *)
Definition action_with (step_id motion_present pose_match : string) : pyval :=
  PyDict [("observed_action_id", PyStr ("action_" ++ step_id));
          ("declared_step_id", PyStr step_id);
          ("motion_present", PyStr motion_present);
          ("pose_match", PyStr pose_match)].

End SpecReport.

(* ================================================================== *)
(** * Properties *)
(* ================================================================== *)

(** ** Association lists and strings *)

Section Assoc.

Context {A : Type}.

Lemma assoc_In (key : string) (d : list (string * A)) (v : A) :
  Py.assoc key d = Some v -> In (key, v) d.
Proof.
  induction d as [|[k x] d IH]; simpl; [discriminate|].
  destruct (String.eqb key k) eqn:E.
  - intros [= ->]. apply String.eqb_eq in E. subst. now left.
  - intros H. right. now apply IH.
Qed.

Lemma In_assoc_NoDup (key : string) (d : list (string * A)) (v : A) :
  NoDup (map fst d) -> In (key, v) d -> Py.assoc key d = Some v.
Proof.
  induction d as [|[k x] d IH]; simpl; [tauto|].
  intros Hnd [H|H].
  - injection H as -> ->. now rewrite String.eqb_refl.
  - inversion Hnd as [|? ? Hk Hd]; subst.
    destruct (String.eqb key k) eqn:E.
    + apply String.eqb_eq in E. subst.
      exfalso. apply Hk. change k with (fst (k, v)). now apply in_map.
    + now apply IH.
Qed.

End Assoc.

Lemma take_length (n : nat) (s : string) : String.length (Py.take n s) <= n.
Proof.
  unfold Py.take. revert s.
  induction n as [|n IH]; intros [|c s]; simpl; try lia.
  specialize (IH s). lia.
Qed.

Lemma take_prefix (n : nat) (s : string) : String.prefix (Py.take n s) s = true.
Proof.
  unfold Py.take. revert s.
  induction n as [|n IH]; intros [|c s]; simpl; try reflexivity.
  destruct (ascii_dec c c); [apply IH | congruence].
Qed.

Lemma take_short (n : nat) (s : string) :
  String.length s <= n -> Py.take n s = s.
Proof.
  unfold Py.take. revert s.
  induction n as [|n IH]; intros [|c s]; simpl; intros H; try reflexivity; try lia.
  f_equal. apply IH. lia.
Qed.

(** ** The test intent classifier *)

Section Classifier.

Import Spec.

Import Py Re Nlp.

(** The structural term is flat: any positive number of pattern hits
    gives the score of a single hit. *)
Lemma confidence_of_pattern_flat (n k p : nat) (d : bool) :
  confidence_of n k (S p) d = confidence_of n k 1 d.
Proof. reflexivity. Qed.

Lemma taxonomy_scores_ok :
  forallb (fun e => scores_ok (List.length (keywords (snd e)))) TEST_TAXONOMY = true.
Proof. vm_compute. reflexivity. Qed.

Lemma taxonomy_labels_NoDup : NoDup (map fst TEST_TAXONOMY).
Proof.
  apply (NoDup_count_occ' string_dec).
  intros x Hx. simpl in Hx.
  repeat (destruct Hx as [<-|Hx]; [vm_compute; reflexivity|]).
  contradiction.
Qed.

Lemma scores_ok_inv (n k p : nat) (d : bool) :
  scores_ok n = true -> k <= n ->
  PrimFloat.leb 0.5 (confidence_of n k (S p) d) = true /\
  (PrimFloat.leb 0.5 (confidence_of n k p d) = true ->
   PrimFloat.leb 0 (Py.min (confidence_of n k p d) 1) = true /\
   PrimFloat.leb (Py.min (confidence_of n k p d) 1) 1 = true).
Proof.
  unfold scores_ok. intros H Hk.
  rewrite forallb_forall in H.
  specialize (H k). rewrite in_seq in H.
  assert (Hk' : 0 <= k < 0 + S n) by lia.
  specialize (H Hk'). rewrite forallb_forall in H.
  assert (Hd : In d [true; false]) by (destruct d; simpl; auto).
  specialize (H d Hd).
  apply andb_true_iff in H as [H1 H2].
  split; [exact H1|].
  rewrite forallb_forall in H2.
  assert (Hp : confidence_of n k p d = confidence_of n k (if (0 <? p)%nat then 1 else 0) d)
    by (destruct p; reflexivity).
  rewrite Hp. intros Hc.
  assert (Hin : In (if (0 <? p)%nat then 1 else 0) [0; 1])
    by (destruct p; simpl; auto).
  specialize (H2 _ Hin). cbv zeta in H2.
  rewrite Hc in H2. simpl in H2.
  now apply andb_true_iff in H2.
Qed.

Lemma taxonomy_entry_scores_ok (test_label : string) (test_config : test_config) :
  In (test_label, test_config) TEST_TAXONOMY ->
  scores_ok (List.length (keywords test_config)) = true.
Proof.
  intros H. pose proof taxonomy_scores_ok as T.
  rewrite forallb_forall in T. exact (T _ H).
Qed.

Lemma keyword_matches_le (test_config : test_config) (text_lower : string) :
  keyword_matches test_config text_lower <= List.length (keywords test_config).
Proof. apply filter_length_le. Qed.

Lemma filter_nil_existsb {A : Type} (f : A -> bool) (l : list A) :
  existsb f l = false -> filter f l = [].
Proof.
  induction l as [|a l IH]; simpl; [reflexivity|].
  intros H. apply orb_false_iff in H as [-> H]. now apply IH.
Qed.

Lemma filter_length_existsb {A : Type} (f : A -> bool) (l : list A) :
  existsb f l = true -> exists n, List.length (filter f l) = S n.
Proof.
  induction l as [|a l IH]; simpl; [discriminate|].
  destruct (f a); simpl; [eauto|]. exact IH.
Qed.

(** Every candidate comes from the turn of the loop of its own label. *)
Lemma analyze_text_with_In (taxonomy : list (string * test_config))
  (text : string) (timestamp : float) (e : detected_test) :
  In e (analyze_text_with taxonomy text timestamp) ->
  exists test_config,
    In (label e, test_config) taxonomy /\
    PrimFloat.leb 0.5 (category_confidence test_config (lower text)) = true /\
    e = {| label := label e;
           timestamp := timestamp;
           confidence := Py.min (category_confidence test_config (lower text)) 1;
           matched_text := take 200 text |}.
Proof.
  unfold analyze_text_with. rewrite in_flat_map.
  intros [[l cfg] [Hin He]]. unfold analyze_category in He.
  destruct (PrimFloat.leb 0.5 (category_confidence cfg (lower text))) eqn:E;
    [|contradiction].
  destruct He as [<-|[]]. simpl. eauto.
Qed.

Lemma category_confidence_pattern_hit (test_config : test_config)
  (text_lower : string) :
  existsb (fun pattern => search true pattern text_lower) (patterns test_config)
    = true ->
  category_confidence test_config text_lower =
  confidence_of (List.length (keywords test_config))
    (keyword_matches test_config text_lower) 1 (has_declaration text_lower).
Proof.
  intros H. unfold category_confidence, pattern_matches.
  destruct (filter_length_existsb _ _ H) as [n ->].
  apply confidence_of_pattern_flat.
Qed.

(** C2: a category of the taxonomy one of whose pattern rules matches the
    lowercased text (case-insensitive search) yields a candidate for that
    category, whatever the text and the timestamp.  The candidate carries
    the score of a single pattern hit (the 0.7 is added once, however many
    rules match), and that score already meets the 0.5 threshold. *)
Theorem pattern_match_emits_candidate (text : string) (timestamp : float)
  (test_label : string) (test_config : test_config) :
  assoc test_label TEST_TAXONOMY = Some test_config ->
  existsb (fun pattern => search true pattern (lower text)) (patterns test_config)
    = true ->
  let score :=
    confidence_of (List.length (keywords test_config))
      (keyword_matches test_config (lower text)) 1 (has_declaration (lower text)) in
  PrimFloat.leb 0.5 score = true /\
  In {| label := test_label;
        timestamp := timestamp;
        confidence := Py.min score 1;
        matched_text := take 200 text |}
     (_analyze_text_for_tests text timestamp).
Proof.
  intros Hcfg Hpat score. subst score.
  apply assoc_In in Hcfg.
  pose proof (taxonomy_entry_scores_ok _ _ Hcfg) as Hok.
  destruct (scores_ok_inv _ _ 0 (has_declaration (lower text)) Hok
              (keyword_matches_le test_config (lower text))) as [Hge _].
  split; [exact Hge|].
  unfold _analyze_text_for_tests, analyze_text_with.
  apply in_flat_map. exists (test_label, test_config). split; [exact Hcfg|].
  unfold analyze_category.
  rewrite (category_confidence_pattern_hit _ _ Hpat).
  rewrite Hge. now left.
Qed.

Lemma pattern_match_emits_candidate_witness :
  let text := "Please turn your head to the left" in
  let entry := nth 4 TEST_TAXONOMY ("", {| keywords := []; patterns := [] |}) in
  assoc "cervical_rom" TEST_TAXONOMY = Some (snd entry) /\
  existsb (fun pattern => search true pattern (lower text)) (patterns (snd entry))
    = true /\
  In {| label := "cervical_rom";
        timestamp := 7.5;
        confidence := 0.75;
        matched_text := text |}
     (_analyze_text_for_tests text 7.5).
Proof.
  set (text := "Please turn your head to the left").
  set (entry := nth 4 TEST_TAXONOMY ("", {| keywords := []; patterns := [] |})).
  assert (H1 : assoc "cervical_rom" TEST_TAXONOMY = Some (snd entry))
    by (vm_compute; reflexivity).
  assert (H2 : existsb (fun pattern => search true pattern (lower text))
                 (patterns (snd entry)) = true) by (vm_compute; reflexivity).
  split; [exact H1|]. split; [exact H2|].
  destruct (pattern_match_emits_candidate text 7.5 _ _ H1 H2) as [_ H].
  assert (E : Py.min (confidence_of (List.length (keywords (snd entry)))
                        (keyword_matches (snd entry) (lower text)) 1
                        (has_declaration (lower text))) 1 = 0.75%float)
    by (vm_compute; reflexivity).
  assert (T : take 200 text = text) by (vm_compute; reflexivity).
  rewrite E, T in H. exact H.
Defined.

Lemma category_confidence_no_signal (test_config : test_config)
  (text_lower : string) :
  existsb (fun kw => contains kw text_lower) (keywords test_config) = false ->
  existsb (fun pattern => search true pattern text_lower) (patterns test_config)
    = false ->
  category_confidence test_config text_lower = 0%float.
Proof.
  intros Hk Hp. unfold category_confidence, keyword_matches, pattern_matches.
  rewrite (filter_nil_existsb _ _ Hk), (filter_nil_existsb _ _ Hp).
  destruct (has_declaration text_lower); reflexivity.
Qed.

(** C3: a category none of whose keywords occurs in the lowercased text and
    none of whose pattern rules matches it has score exactly 0, with or
    without declaration phrases in the text, and no candidate of the
    classifier carries its label. *)
Theorem no_signal_no_candidate (text : string) (timestamp : float)
  (test_label : string) (test_config : test_config) :
  assoc test_label TEST_TAXONOMY = Some test_config ->
  existsb (fun kw => contains kw (lower text)) (keywords test_config) = false ->
  existsb (fun pattern => search true pattern (lower text)) (patterns test_config)
    = false ->
  category_confidence test_config (lower text) = 0%float /\
  forall e, In e (_analyze_text_for_tests text timestamp) -> label e <> test_label.
Proof.
  intros Hcfg Hk Hp.
  pose proof (category_confidence_no_signal _ _ Hk Hp) as Hz.
  split; [exact Hz|].
  intros e He Hl.
  apply analyze_text_with_In in He as [cfg [Hin [Hge _]]].
  rewrite Hl in Hin.
  apply (In_assoc_NoDup _ _ _ taxonomy_labels_NoDup) in Hin.
  rewrite Hcfg in Hin. injection Hin as <-.
  rewrite Hz in Hge. discriminate Hge.
Qed.

Lemma no_signal_no_candidate_witness :
  let text := "Now we are going to sit down, let's talk; I need to ask first" in
  let entry := nth 5 TEST_TAXONOMY ("", {| keywords := []; patterns := [] |}) in
  has_declaration (lower text) = true /\
  category_confidence (snd entry) (lower text) = 0%float /\
  forall e, In e (_analyze_text_for_tests text 3) -> label e <> "gait".
Proof.
  set (text := "Now we are going to sit down, let's talk; I need to ask first").
  set (entry := nth 5 TEST_TAXONOMY ("", {| keywords := []; patterns := [] |})).
  assert (H1 : assoc "gait" TEST_TAXONOMY = Some (snd entry))
    by (vm_compute; reflexivity).
  assert (H2 : existsb (fun kw => contains kw (lower text)) (keywords (snd entry))
               = false) by (vm_compute; reflexivity).
  assert (H3 : existsb (fun pattern => search true pattern (lower text))
                 (patterns (snd entry)) = false) by (vm_compute; reflexivity).
  split; [vm_compute; reflexivity|].
  exact (no_signal_no_candidate text 3 "gait" (snd entry) H1 H2 H3).
Defined.

(** C4: every candidate the classifier emits stores a confidence in
    [0, 1] (the raw sum is clamped by [min(confidence, 1.0)]), and its
    matched text is the original text cut to its first 200 characters. *)
Theorem candidate_confidence_clamped (text : string) (timestamp : float)
  (e : detected_test) :
  In e (_analyze_text_for_tests text timestamp) ->
  PrimFloat.leb 0 (confidence e) = true /\
  PrimFloat.leb (confidence e) 1 = true /\
  matched_text e = take 200 text /\
  String.length (matched_text e) <= 200 /\
  String.prefix (matched_text e) text = true.
Proof.
  intros He.
  apply analyze_text_with_In in He as [cfg [Hin [Hge ->]]].
  cbn [confidence matched_text].
  pose proof (taxonomy_entry_scores_ok _ _ Hin) as Hok.
  destruct (scores_ok_inv _ _ (pattern_matches cfg (lower text))
              (has_declaration (lower text)) Hok
              (keyword_matches_le cfg (lower text))) as [_ Hb].
  destruct (Hb Hge) as [H0 H1].
  repeat split; auto using take_length, take_prefix.
Qed.

Lemma candidate_confidence_clamped_witness :
  let text := "Now let's check your straight leg raise, please lie back" in
  let e := {| label := "straight_leg_raise"; timestamp := 42;
              confidence := 1; matched_text := text |} in
  In e (_analyze_text_for_tests text 42) /\
  category_confidence
    (snd (nth 2 TEST_TAXONOMY ("", {| keywords := []; patterns := [] |})))
    (lower text) = 1.02%float /\
  PrimFloat.leb 0 (confidence e) = true /\
  PrimFloat.leb (confidence e) 1 = true /\
  matched_text e = take 200 text.
Proof.
  assert (H : In {| label := "straight_leg_raise"; timestamp := 42;
                    confidence := 1;
                    matched_text :=
                      "Now let's check your straight leg raise, please lie back" |}
                (_analyze_text_for_tests
                   "Now let's check your straight leg raise, please lie back" 42))
    by (vm_compute; left; reflexivity).
  split; [exact H|]. split; [vm_compute; reflexivity|].
  destruct (candidate_confidence_clamped _ _ _ H) as [H0 [H1 [H2 _]]].
  exact (conj H0 (conj H1 H2)).
Defined.

(** C9: the text "Now let's check your straight leg raise, please lie back"
    at timestamp 42.0 yields one candidate, for [straight_leg_raise], with
    confidence 1.0 (at least 0.5): the keyword "straight leg" occurs in the
    lowercased text, the pattern [straight\s+leg\s+(?:raise|test)] matches
    it, and the declaration phrase "let's" is present. *)
Theorem straight_leg_raise_scenario :
  let text := "Now let's check your straight leg raise, please lie back" in
  _analyze_text_for_tests text 42 =
    [ {| label := "straight_leg_raise"; timestamp := 42;
         confidence := 1; matched_text := text |} ] /\
  PrimFloat.leb 0.5 1 = true /\
  assoc "straight_leg_raise" TEST_TAXONOMY =
    Some {| keywords := ["straight leg"; "slr"; "leg raise"; "lasegue";
                         "raise your leg"];
            patterns := [
              Seq [Str "straight"; Ws; Str "leg"; Ws; Any [Str "raise"; Str "test"]];
              Seq [Str "slr"; Ws; Str "test"];
              Seq [Str "lasegue"; possessive; Ws; Any [Str "test"; Str "sign"]] ] |} /\
  contains "straight leg" (lower text) = true /\
  search true (Seq [Str "straight"; Ws; Str "leg"; Ws; Any [Str "raise"; Str "test"]])
    (lower text) = true /\
  contains "let's" (lower text) = true /\
  In "let's" declaration_phrases.
Proof.
  cbv zeta. repeat split; try (vm_compute; reflexivity).
  simpl. auto.
Qed.

End Classifier.

(** ** The segment text extractor *)

Section SegmentText.

Import Py Re Nlp Spec.

Lemma foldM_app {S A : Type} (f : S -> A -> result S) (l1 l2 : list A) (s : S) :
  foldM f (l1 ++ l2) s = (s' <- foldM f l1 s ;; foldM f l2 s').
Proof.
  revert s. induction l1 as [|a l1 IH]; intros s; simpl; [reflexivity|].
  destruct (f s a); simpl; [apply IH | reflexivity].
Qed.

(** A loop stops at the first turn that raises. *)
Lemma foldM_raise {S A : Type} (f : S -> A -> result S) (l : list A) (a : A)
  (s : S) :
  In a l -> (forall s', succeeds (f s' a) = false) -> succeeds (foldM f l s) = false.
Proof.
  intros Hin Hf. revert s.
  induction l as [|b l IH]; intros s; simpl; [contradiction|].
  destruct Hin as [->|Hin].
  - specialize (Hf s). destruct (f s a); [discriminate | reflexivity].
  - destruct (f s b); simpl; [now apply IH | reflexivity].
Qed.

Lemma all_str_PyStr (l : list string) : all_str (map PyStr l) = Ok l.
Proof.
  induction l as [|s l IH]; simpl; [reflexivity|]. now rewrite IH.
Qed.

Lemma item_words_well_formed (s e : float) (item : pyval) :
  well_formed_item s e item = true ->
  item_words s e item =
  Ok (if in_window s e item then [PyStr (item_content item)] else []).
Proof.
  unfold well_formed_item, item_words, in_window, is_lexical, item_start,
    item_content.
  destruct (get item "type" PyNone) as [ty|]; simpl; [|discriminate].
  destruct (eq_str ty "pronunciation"); simpl; [|reflexivity].
  destruct (float_field item "start_time") as [t|]; simpl; [|discriminate].
  destruct (PrimFloat.leb s t && PrimFloat.leb t e); simpl; [|reflexivity].
  unfold content_lookup.
  destruct (get item "alternatives" (PyList [PyDict []])) as [alts|]; simpl;
    [|discriminate].
  destruct (index0 alts) as [first|]; simpl; [|discriminate].
  destruct (get first "content" (PyStr "")) as [[| | | |c| |]|]; simpl;
    try discriminate.
  reflexivity.
Qed.

Lemma words_loop (s e : float) (items words : list pyval) :
  forallb (well_formed_item s e) items = true ->
  foldM (fun words item => w <- item_words s e item ;; Ok (words ++ w)) items words
  = Ok (words ++ map PyStr (segment_words s e items)).
Proof.
  unfold segment_words. revert words.
  induction items as [|item items IH]; intros words H; simpl.
  - now rewrite app_nil_r.
  - simpl in H. apply andb_true_iff in H as [Hi H].
    rewrite (item_words_well_formed _ _ _ Hi). simpl.
    rewrite (IH _ H).
    destruct (in_window s e item); simpl.
    + now rewrite <- app_assoc.
    + now rewrite app_nil_r.
Qed.

Lemma all_str_succeeds (l : list pyval) :
  succeeds (all_str l) = forallb is_text l.
Proof.
  induction l as [|v l IH]; [reflexivity|].
  destruct v; try reflexivity.
  cbn [all_str forallb is_text andb]. rewrite <- IH.
  now destruct (all_str l).
Qed.

(** The loop only ever appends to [words]. *)
Lemma words_loop_extends (s e : float) (items words ws : list pyval) :
  foldM (fun words item => w <- item_words s e item ;; Ok (words ++ w)) items words
  = Ok ws ->
  exists extra, ws = words ++ extra.
Proof.
  revert words. induction items as [|item items IH]; intros words; simpl.
  - intros [= <-]. exists []. now rewrite app_nil_r.
  - destruct (item_words s e item) as [w|]; simpl; [|discriminate].
    intros H. apply IH in H as [extra ->].
    exists (w ++ extra). now rewrite app_assoc.
Qed.

(** An item outside the data model either stops the loop or leaves
    something that is not a string among the words. *)
Lemma item_words_ill_formed (s e : float) (item : pyval) :
  well_formed_item s e item = false ->
  match item_words s e item with
  | Ok w => forallb is_text w = false
  | Raise _ => True
  end.
Proof.
  unfold well_formed_item, item_words.
  destruct (get item "type" PyNone) as [ty|]; simpl; [|trivial].
  destruct (eq_str ty "pronunciation"); simpl; [|discriminate].
  destruct (float_field item "start_time") as [t|]; simpl; [|trivial].
  destruct (PrimFloat.leb s t && PrimFloat.leb t e); simpl; [|discriminate].
  unfold content_lookup.
  destruct (get item "alternatives" (PyList [PyDict []])) as [alts|]; simpl;
    [|trivial].
  destruct (index0 alts) as [first|]; simpl; [|trivial].
  destruct (get first "content" (PyStr "")) as [[| | | |c| |]|]; simpl;
    trivial; discriminate.
Qed.

Lemma words_loop_ill_formed (s e : float) (items words : list pyval) :
  forallb (well_formed_item s e) items = false ->
  succeeds (ws <- foldM (fun words item =>
                           w <- item_words s e item ;; Ok (words ++ w))
                  items words ;;
            all_str ws) = false.
Proof.
  revert words. induction items as [|item items IH]; intros words H;
    [discriminate|].
  cbn [forallb] in H. cbn [foldM].
  destruct (well_formed_item s e item) eqn:Hi.
  - rewrite (item_words_well_formed _ _ _ Hi). cbn [bind].
    apply IH. exact H.
  - pose proof (item_words_ill_formed _ _ _ Hi) as Hw.
    destruct (item_words s e item) as [w|]; cbn [bind]; [|reflexivity].
    destruct (foldM (fun words item =>
                       w <- item_words s e item ;; Ok (words ++ w))
                items (words ++ w)) as [ws|] eqn:Hl; cbn [bind]; [|reflexivity].
    apply words_loop_extends in Hl as [extra ->].
    rewrite all_str_succeeds, !forallb_app, Hw, andb_false_r. reflexivity.
Qed.

(** C7 (amended): for a segment whose start and end times convert to
    floats, the extractor returns a text exactly when every item of the
    list belongs to the transcript data model (a dict; a word has a start
    time that converts to a float and, inside the window, a string content
    in a non-empty list of alternatives).  The text is then made of the
    contents, joined by single spaces and in item-list order, of exactly
    the items of type 'pronunciation' whose start time [t] satisfies
    [start_time <= t <= end_time]; items of another type are never among
    them; and with no such item (in particular for an empty item list) it
    is the empty string.  On any other item list the extractor raises, even
    when no word lies in the window. *)
Theorem segment_text_is_window_words (segment : pyval) (items : list pyval)
  (start_time end_time : float) :
  float_field segment "start_time" = Ok start_time ->
  float_field segment "end_time" = Ok end_time ->
  (forallb (well_formed_item start_time end_time) items = true ->
   _get_segment_text segment (PyList items)
     = Ok (join " " (segment_words start_time end_time items)) /\
   (filter (in_window start_time end_time) items = [] ->
    _get_segment_text segment (PyList items) = Ok "")) /\
  (forallb (well_formed_item start_time end_time) items = false ->
   succeeds (_get_segment_text segment (PyList items)) = false) /\
  (forall item,
      In item (filter (in_window start_time end_time) items) <->
      In item items /\
      is_lexical item = true /\
      PrimFloat.leb start_time (item_start item) = true /\
      PrimFloat.leb (item_start item) end_time = true) /\
  _get_segment_text segment (PyList []) = Ok "".
Proof.
  intros Hs He. split; [|split; [|split]].
  - intros Hwf.
    assert (Hres : _get_segment_text segment (PyList items)
                   = Ok (join " " (segment_words start_time end_time items))).
    { unfold _get_segment_text. rewrite Hs, He. simpl.
      rewrite (words_loop _ _ _ [] Hwf). simpl.
      now rewrite all_str_PyStr. }
    split; [exact Hres|].
    intros Hnone. rewrite Hres. unfold segment_words. now rewrite Hnone.
  - intros Hbad. unfold _get_segment_text. rewrite Hs, He. cbn [bind iter].
    pose proof (words_loop_ill_formed start_time end_time items [] Hbad) as H.
    destruct (foldM _ items []) as [ws|]; cbn [bind] in *; [|reflexivity].
    destruct (all_str ws); [discriminate H | reflexivity].
  - intros item. rewrite filter_In. unfold in_window.
    rewrite !andb_true_iff. tauto.
  - unfold _get_segment_text. rewrite Hs, He. reflexivity.
Qed.

Lemma segment_text_is_window_words_witness :
  float_field (segment_of "spk_0" (PyStr "1.0") (PyStr "2.5")) "start_time"
    = Ok 1%float /\
  float_field (segment_of "spk_0" (PyStr "1.0") (PyStr "2.5")) "end_time"
    = Ok 2.5%float /\
  forallb (well_formed_item 1 2.5)
    [word "0.5" "Hello"; punctuation "."; word "1.0" "Bend";
     timed_punctuation "1.2" ","; word "1.7" "forward"; word "2.5" "please";
     punctuation "."; word "2.6" "Thanks"] = true /\
  _get_segment_text (segment_of "spk_0" (PyStr "1.0") (PyStr "2.5"))
    (PyList [word "0.5" "Hello"; punctuation "."; word "1.0" "Bend";
             timed_punctuation "1.2" ","; word "1.7" "forward";
             word "2.5" "please"; punctuation "."; word "2.6" "Thanks"])
    = Ok "Bend forward please" /\
  forallb (well_formed_item 1 2.5) [word "0.5" "Hello"; word "n/a" "Bend"] = false /\
  succeeds (_get_segment_text (segment_of "spk_0" (PyStr "1.0") (PyStr "2.5"))
              (PyList [word "0.5" "Hello"; word "n/a" "Bend"])) = false.
Proof.
  assert (Hs : float_field (segment_of "spk_0" (PyStr "1.0") (PyStr "2.5"))
                 "start_time" = Ok 1%float) by (vm_compute; reflexivity).
  assert (He : float_field (segment_of "spk_0" (PyStr "1.0") (PyStr "2.5"))
                 "end_time" = Ok 2.5%float) by (vm_compute; reflexivity).
  assert (Hw : forallb (well_formed_item 1 2.5)
                 [word "0.5" "Hello"; punctuation "."; word "1.0" "Bend";
                  timed_punctuation "1.2" ","; word "1.7" "forward";
                  word "2.5" "please"; punctuation "."; word "2.6" "Thanks"]
               = true)
    by (vm_compute; reflexivity).
  assert (Hb : forallb (well_formed_item 1 2.5)
                 [word "0.5" "Hello"; word "n/a" "Bend"] = false)
    by (vm_compute; reflexivity).
  split; [exact Hs|]. split; [exact He|]. split; [exact Hw|]. split.
  - rewrite (proj1 (proj1 (segment_text_is_window_words _ _ _ _ Hs He) Hw)).
    vm_compute. reflexivity.
  - split; [exact Hb|].
    exact (proj1 (proj2 (segment_text_is_window_words _ _ _ _ Hs He)) Hb).
Defined.

(** C7 fails as stated: in the window from 1.0 to 2.0 a list made of one
    word whose start time is not a number holds no word of the window, yet
    the extractor raises [ValueError] instead of returning the empty
    string; and a word of the window whose list of alternatives is empty
    makes it raise [IndexError] instead of returning the words. *)
Lemma unreadable_word_raises :
  float_field (segment_of "spk_0" (PyStr "1.0") (PyStr "2.0")) "start_time"
    = Ok 1%float /\
  float_field (segment_of "spk_0" (PyStr "1.0") (PyStr "2.0")) "end_time"
    = Ok 2%float /\
  filter (in_window 1 2) [word "n/a" "Bend"] = [] /\
  _get_segment_text (segment_of "spk_0" (PyStr "1.0") (PyStr "2.0"))
    (PyList [word "n/a" "Bend"]) = Raise ValueError /\
  _get_segment_text (segment_of "spk_0" (PyStr "1.0") (PyStr "2.0"))
    (PyList [word "1.0" "Bend"; silent_word "1.5"; word "1.8" "now"])
    = Raise IndexError /\
  _get_segment_text (segment_of "spk_0" (PyStr "1.0") (PyStr "2.0"))
    (PyList [word "1.0" "Bend"; word "1.8" "now"]) = Ok "Bend now".
Proof.
  repeat split; vm_compute; reflexivity.
Qed.

End SegmentText.

(** ** The demeanor analyzer *)

Section Demeanor.

Import Py Re Nlp Spec.

Variable detect_sentiment : sentiment_oracle.
Variable examiner : string.

Local Opaque firstn.

(** The kinds and severities of the flags of the lexical tone scan. *)
Lemma analyze_tone_kinds (text : string) (timestamp : float) (f : demeanor_flag) :
  In f (_analyze_tone text timestamp) ->
  (flag_type f = "negative_tone" /\ severity f = "high") \/
  (flag_type f = "dismissive" /\ severity f = "medium") \/
  (flag_type f = "aggressive" /\ severity f = "high").
Proof.
  unfold _analyze_tone, negative_tone_flags, dismissive_flags, aggressive_flags.
  rewrite !in_app_iff, !in_flat_map.
  intros [[x [_ H]]|[[x [_ H]]|[x [_ H]]]];
    match type of H with
    | In _ (if ?c then _ else _) => destruct c
    end; try contradiction; destruct H as [<-|[]]; simpl; auto.
Qed.

Lemma sentiment_flags_kind (text : string) (segments : list pyval)
  (f : demeanor_flag) :
  In f (_analyze_sentiment_comprehend detect_sentiment text segments) ->
  flag_type f = "negative_sentiment" /\ severity f = "medium".
Proof.
  unfold _analyze_sentiment_comprehend, sentiment_try.
  destruct (detect_sentiment (take 5000 text)) as [response|]; simpl;
    [|contradiction].
  match goal with
  | |- In _ (match (if ?c then _ else _) with _ => _ end) -> _ => destruct c
  end; [|contradiction].
  destruct segments as [|first rest]; simpl.
  - intros [<-|[]]. simpl. auto.
  - destruct (float_field first "start_time"); simpl; [|contradiction].
    intros [<-|[]]. simpl. auto.
Qed.

Lemma filter_none {A : Type} (p : A -> bool) (l : list A) :
  (forall x, In x l -> p x = false) -> filter p l = [].
Proof.
  induction l as [|a l IH]; intros H; simpl; [reflexivity|].
  rewrite (H a (or_introl eq_refl)). apply IH. intros x Hx. apply H. now right.
Qed.

Lemma analyze_tone_no_interruption (text : string) (timestamp : float) :
  filter is_interruption (_analyze_tone text timestamp) = [].
Proof.
  apply filter_none. intros f Hf. unfold is_interruption.
  destruct (analyze_tone_kinds _ _ _ Hf) as [[-> _]|[[-> _]|[-> _]]]; reflexivity.
Qed.

Lemma sentiment_no_interruption (text : string) (segments : list pyval) :
  filter is_interruption
    (_analyze_sentiment_comprehend detect_sentiment text segments) = [].
Proof.
  apply filter_none. intros f Hf. unfold is_interruption.
  destruct (sentiment_flags_kind _ _ _ Hf) as [-> _]. reflexivity.
Qed.

Lemma segment_text_raises_view (items segment : pyval) :
  succeeds (_get_segment_text segment items) = false ->
  succeeds (segment_view items segment) = false.
Proof.
  unfold segment_view. intros H.
  destruct (get segment "speaker_label" PyNone); simpl; [|reflexivity].
  destruct (float_field segment "start_time"); simpl; [|reflexivity].
  destruct (_get_segment_text segment items); [discriminate | reflexivity].
Qed.

(** A turn of the loop, from what it reads. *)
Lemma demeanor_step_view (items : pyval) (st : loop_state) (segment : pyval) :
  demeanor_step examiner items st segment =
  (v <- segment_view items segment ;;
   let '(speaker, start_time, segment_text) := v in
   Ok (if eq_str speaker examiner then
         {| consecutive_count :=
              if eq_str (last_speaker st) examiner
              then consecutive_count st + 1 else 0;
            last_speaker := speaker;
            flags :=
              (if eq_str (last_speaker st) examiner
                  && (2 <=? consecutive_count st + 1)%nat
               then flags st ++ [interruption_flag (consecutive_count st + 1)
                                   segment_text start_time]
               else flags st) ++ _analyze_tone segment_text start_time |}
       else
         {| consecutive_count := consecutive_count st;
            last_speaker := speaker;
            flags := flags st |})).
Proof.
  unfold demeanor_step, segment_view.
  destruct (get segment "speaker_label" PyNone) as [speaker|]; simpl; [|reflexivity].
  destruct (float_field segment "start_time") as [t|]; simpl; [|reflexivity].
  destruct (_get_segment_text segment items) as [text|]; simpl; [|reflexivity].
  destruct (eq_str speaker examiner); [|reflexivity].
  destruct (eq_str (last_speaker st) examiner); simpl; [|reflexivity].
  destruct (2 <=? consecutive_count st + 1)%nat; reflexivity.
Qed.

(** Both passes read the same parts of the transcript. *)
Lemma detect_declared_tests_try_parts (transcript : pyval) :
  detect_declared_tests_try transcript =
  (p <- transcript_parts transcript ;;
   foldM (fun declared_tests segment =>
            ts <- segment_tests (fst p) segment ;;
            Ok (declared_tests ++ ts)) (snd p) []).
Proof.
  unfold detect_declared_tests_try, transcript_parts.
  destruct (get transcript "results" (PyDict [])) as [results|]; simpl;
    [|reflexivity].
  destruct (get results "items" (PyList [])) as [items|]; simpl; [|reflexivity].
  destruct (get results "speaker_labels" (PyDict [])) as [labels|]; simpl;
    [|reflexivity].
  destruct (get labels "segments" (PyList [])) as [segments|]; simpl;
    [|reflexivity].
  destruct (iter segments); reflexivity.
Qed.

(** The pass is its oracle-free core followed by the sentiment flags. *)
Lemma analyze_examiner_demeanor_try_core (transcript : pyval) :
  analyze_examiner_demeanor_try detect_sentiment transcript examiner =
  (c <- demeanor_core transcript examiner ;;
   let '(loop_flags, examiner_text, examiner_segments) := c in
   Ok (loop_flags ++
       match examiner_text with
       | EmptyString => []
       | _ => _analyze_sentiment_comprehend detect_sentiment examiner_text
                examiner_segments
       end)).
Proof.
  unfold analyze_examiner_demeanor_try, demeanor_core.
  destruct (get transcript "results" (PyDict [])) as [results|]; simpl;
    [|reflexivity].
  destruct (get results "speaker_labels" (PyDict [])) as [labels|]; simpl;
    [|reflexivity].
  destruct (get labels "segments" (PyList [])) as [segments|]; simpl;
    [|reflexivity].
  destruct (get results "items" (PyList [])) as [items|]; simpl; [|reflexivity].
  destruct (iter segments) as [segs|]; simpl; [|reflexivity].
  destruct (filterM (is_examiner examiner) segs) as [es|]; simpl; [|reflexivity].
  destruct (foldM (demeanor_step examiner items) segs initial_state) as [st|];
    simpl; [|reflexivity].
  destruct (mapM (fun s => _get_segment_text s items) (firstn 10 es)); reflexivity.
Qed.

Lemma demeanor_core_parts (transcript items : pyval) (segs : list pyval) :
  transcript_parts transcript = Ok (items, segs) ->
  demeanor_core transcript examiner =
  (examiner_segments <- filterM (is_examiner examiner) segs ;;
   st <- foldM (demeanor_step examiner items) segs initial_state ;;
   texts <- mapM (fun s => _get_segment_text s items) (firstn 10 examiner_segments) ;;
   Ok (flags st, join " " texts, examiner_segments)).
Proof.
  unfold demeanor_core, transcript_parts.
  destruct (get transcript "results" (PyDict [])) as [results|]; simpl;
    [|discriminate].
  destruct (get results "items" (PyList [])) as [its|]; simpl; [|discriminate].
  destruct (get results "speaker_labels" (PyDict [])) as [labels|]; simpl;
    [|discriminate].
  destruct (get labels "segments" (PyList [])) as [segments|]; simpl;
    [|discriminate].
  destruct (iter segments); simpl; [|discriminate].
  intros [= <- <-]. reflexivity.
Qed.

(** *** Runs and histories *)

Lemma trailing_run_snoc {A : Type} (p : A -> bool) (l : list A) (a : A) :
  trailing_run p (l ++ [a]) = if p a then S (trailing_run p l) else 0.
Proof. unfold trailing_run. rewrite rev_unit. reflexivity. Qed.

Lemma with_history_from_snoc {A : Type} (before l : list A) (a : A) :
  with_history_from before (l ++ [a])
  = with_history_from before l ++ [(before ++ l, a)].
Proof.
  revert before. induction l as [|b l IH]; intros before; simpl.
  - now rewrite app_nil_r.
  - rewrite IH. now rewrite <- app_assoc.
Qed.

Lemma with_history_from_In {A : Type} (before l h : list A) (a : A) :
  In (h, a) (with_history_from before l) <->
  exists l1 l2, l = l1 ++ a :: l2 /\ h = before ++ l1.
Proof.
  revert before. induction l as [|b l IH]; intros before; simpl.
  - split; [contradiction|]. intros [l1 [l2 [H _]]]. now destruct l1.
  - rewrite IH. split.
    + intros [H|[l1 [l2 [-> ->]]]].
      * injection H as <- <-. exists [], l. now rewrite app_nil_r.
      * exists (b :: l1), l2. now rewrite <- app_assoc.
    + intros [[|c l1] [l2 [H ->]]]; simpl in H; injection H as -> ->.
      * left. now rewrite app_nil_r.
      * right. exists l1, l2. now rewrite <- app_assoc.
Qed.

Lemma with_history_In {A : Type} (l h : list A) (a : A) :
  In (h, a) (with_history l) <-> exists after, l = h ++ a :: after.
Proof.
  unfold with_history. rewrite with_history_from_In. simpl. split.
  - intros [l1 [l2 [-> ->]]]. eauto.
  - intros [after ->]. eauto.
Qed.

(** *** The loop *)

Lemma interruption_flag_kept (count : nat) (text : string) (t : float) :
  filter is_interruption [interruption_flag count text t]
  = [ {| flag_type := "interruption";
         flag_timestamp := PyFloat t;
         transcript_excerpt := take 200 text;
         severity := "medium";
         description := "Examiner spoke " ++ str_of_nat (S count)
                        ++ " times consecutively";
         sentiment_scores := None |} ].
Proof.
  unfold interruption_flag, tone_flag. rewrite Nat.add_1_r. reflexivity.
Qed.

(** After the segments [before], the loop has flagged the interruptions
    expected of them, remembers whether the last one was the examiner's,
    and, if so, counts the examiner segments that came in a row just
    before it. *)
Lemma demeanor_loop_invariant (items : pyval) (before : list pyval)
  (st : loop_state) :
  foldM (demeanor_step examiner items) before initial_state = Ok st ->
  filter is_interruption (flags st)
    = flat_map (expected_interruption examiner items) (with_history before) /\
  eq_str (last_speaker st) examiner
    = (0 <? trailing_run (attributed_to examiner) before)%nat /\
  (eq_str (last_speaker st) examiner = true ->
   S (consecutive_count st) = trailing_run (attributed_to examiner) before).
Proof.
  revert st. induction before as [|a before IH] using rev_ind; intros st.
  - simpl. intros [= <-]. simpl. repeat split. discriminate.
  - rewrite foldM_app. simpl.
    destruct (foldM (demeanor_step examiner items) before initial_state)
      as [st0|]; simpl; [|discriminate].
    destruct (IH st0 eq_refl) as [Hfl [Hlast Hcount]].
    rewrite demeanor_step_view.
    destruct (segment_view items a) as [[[speaker start_time] text]|] eqn:Hview;
      simpl; [|discriminate].
    assert (Hsp : attributed_to examiner a = eq_str speaker examiner
                  /\ float_field a "start_time" = Ok start_time
                  /\ _get_segment_text a items = Ok text).
    { unfold segment_view in Hview. unfold attributed_to.
      destruct (get a "speaker_label" PyNone); simpl in Hview; [|discriminate].
      destruct (float_field a "start_time"); simpl in Hview; [|discriminate].
      destruct (_get_segment_text a items); simpl in Hview; [|discriminate].
      injection Hview as -> -> ->. auto. }
    destruct Hsp as [Hatt [Hstart Htext]].
    unfold with_history in *. rewrite with_history_from_snoc, flat_map_app.
    simpl. rewrite app_nil_r.
    rewrite trailing_run_snoc, Hatt. unfold run_position.
    intros [= <-].
    destruct (eq_str speaker examiner) eqn:Hex;
      cbn [flags last_speaker consecutive_count andb]; rewrite ?Hex.
    + rewrite Hstart, Htext, filter_app, analyze_tone_no_interruption, app_nil_r.
      destruct (eq_str (last_speaker st0) examiner) eqn:Hl; cbn [andb].
      * specialize (Hcount eq_refl).
        rewrite <- Hcount, Nat.add_1_r.
        split; [|split; [reflexivity | now intros _]].
        destruct (consecutive_count st0) as [|n].
        -- cbn [Nat.leb]. rewrite app_nil_r. exact Hfl.
        -- cbn [Nat.leb]. rewrite filter_app, Hfl, interruption_flag_kept.
           reflexivity.
      * symmetry in Hlast. apply Nat.ltb_ge in Hlast.
        assert (Hz : trailing_run (attributed_to examiner) before = 0) by lia.
        rewrite Hz. cbn [Nat.leb]. rewrite app_nil_r.
        split; [exact Hfl|]. split; [reflexivity | now intros _].
    + rewrite app_nil_r. split; [exact Hfl|]. split; [reflexivity | discriminate].
Qed.

Lemma demeanor_step_raises (items : pyval) (st : loop_state) (segment : pyval) :
  succeeds (segment_view items segment) = false ->
  succeeds (demeanor_step examiner items st segment) = false.
Proof.
  intros H. rewrite demeanor_step_view.
  destruct (segment_view items segment); [discriminate | reflexivity].
Qed.

Lemma demeanor_loop_views (items : pyval) (segs : list pyval) (st st' : loop_state)
  (segment : pyval) :
  foldM (demeanor_step examiner items) segs st = Ok st' ->
  In segment segs ->
  succeeds (segment_view items segment) = true.
Proof.
  intros Hloop Hin.
  destruct (succeeds (segment_view items segment)) eqn:E; [reflexivity|].
  pose proof (foldM_raise (demeanor_step examiner items) segs segment st Hin
                (fun s' => demeanor_step_raises items s' segment E)) as Hr.
  rewrite Hloop in Hr. discriminate Hr.
Qed.

(** The interruption flags of a pass that runs to completion. *)
Lemma completed_pass_interruptions (transcript items : pyval)
  (segs : list pyval) :
  transcript_parts transcript = Ok (items, segs) ->
  succeeds (analyze_examiner_demeanor_try detect_sentiment transcript examiner)
    = true ->
  let out := analyze_examiner_demeanor detect_sentiment transcript examiner in
  filter is_interruption out
    = flat_map (expected_interruption examiner items) (with_history segs) /\
  (forall f, In f out -> is_interruption f = true ->
     severity f = "medium" /\
     exists before segment after start_time,
       segs = before ++ segment :: after /\
       attributed_to examiner segment = true /\
       3 <= run_position examiner before /\
       float_field segment "start_time" = Ok start_time /\
       flag_timestamp f = PyFloat start_time) /\
  (forall before segment after,
     segs = before ++ segment :: after ->
     attributed_to examiner segment = true ->
     3 <= run_position examiner before ->
     exists f start_time,
       In f out /\ is_interruption f = true /\ severity f = "medium" /\
       float_field segment "start_time" = Ok start_time /\
       flag_timestamp f = PyFloat start_time).
Proof.
  intros Hparts Hok out. subst out.
  unfold analyze_examiner_demeanor.
  rewrite analyze_examiner_demeanor_try_core in *.
  rewrite (demeanor_core_parts _ _ _ Hparts) in *.
  destruct (filterM (is_examiner examiner) segs) as [es|]; simpl in *;
    [|discriminate].
  destruct (foldM (demeanor_step examiner items) segs initial_state) as [st|]
    eqn:Hloop; simpl in *; [|discriminate].
  destruct (mapM (fun s => _get_segment_text s items) (firstn 10 es)) as [texts|];
    simpl in *; [|discriminate].
  destruct (demeanor_loop_invariant _ _ _ Hloop) as [Hfl _].
  set (sf := match join " " texts with
             | EmptyString => []
             | _ => _analyze_sentiment_comprehend detect_sentiment
                      (join " " texts) es
             end).
  assert (Hsf : filter is_interruption sf = []).
  { subst sf. destruct (join " " texts); [reflexivity|].
    apply sentiment_no_interruption. }
  assert (Heq : filter is_interruption (flags st ++ sf)
                = flat_map (expected_interruption examiner items)
                    (with_history segs)).
  { now rewrite filter_app, Hsf, app_nil_r. }
  split; [exact Heq|]. split.
  - intros f Hin Hi.
    assert (Hf : In f (filter is_interruption (flags st ++ sf)))
      by (apply filter_In; auto).
    rewrite Heq in Hf. apply in_flat_map in Hf as [[before segment] [Hh Hf]].
    apply with_history_In in Hh as [after ->].
    unfold expected_interruption in Hf.
    destruct (attributed_to examiner segment) eqn:Ha; cbn [andb] in Hf;
      [|contradiction].
    destruct (3 <=? run_position examiner before)%nat eqn:Hr; [|contradiction].
    apply Nat.leb_le in Hr.
    destruct (float_field segment "start_time") as [t|] eqn:Ht; [|contradiction].
    destruct (_get_segment_text segment items); [|contradiction].
    destruct Hf as [<-|[]]. simpl. split; [reflexivity|].
    exists before, segment, after, t. auto.
  - intros before segment after -> Ha Hr.
    assert (Hv : succeeds (segment_view items segment) = true).
    { apply (demeanor_loop_views _ _ _ _ _ Hloop). apply in_elt. }
    unfold segment_view in Hv.
    destruct (get segment "speaker_label" PyNone); simpl in Hv; [|discriminate].
    destruct (float_field segment "start_time") as [t|] eqn:Ht; simpl in Hv;
      [|discriminate].
    destruct (_get_segment_text segment items) as [text|] eqn:Htx; simpl in Hv;
      [|discriminate].
    set (f := {| flag_type := "interruption";
                 flag_timestamp := PyFloat t;
                 transcript_excerpt := take 200 text;
                 severity := "medium";
                 description := "Examiner spoke "
                                ++ str_of_nat (run_position examiner before)
                                ++ " times consecutively";
                 sentiment_scores := None |}).
    assert (Hf : In f (filter is_interruption (flags st ++ sf))).
    { rewrite Heq. apply in_flat_map. exists (before, segment).
      split; [apply with_history_In; eauto|].
      unfold expected_interruption.
      rewrite Ha, Ht, Htx. cbn [andb].
      destruct (3 <=? run_position examiner before)%nat eqn:Hb;
        [left; reflexivity | apply Nat.leb_gt in Hb; lia]. }
    apply filter_In in Hf as [Hin Hi].
    exists f, t. repeat split; assumption || reflexivity.
Qed.

(** C5 (amended): when the pass runs to completion (nothing raises while
    the transcript is read), its interruption flags are exactly, in
    segment order, one flag of severity medium per examiner segment that
    is the third or a later one of its run of consecutive examiner
    segments, timestamped at that segment's start time; when something
    raises, the pass returns no flag at all, so that a third consecutive
    examiner segment then gets none.  In both cases the first and second
    segments of a run get no interruption flag, and the rank in the run
    starts again at 1 after a segment of another speaker. *)
Theorem interruption_from_third_consecutive (transcript items : pyval)
  (segs : list pyval) :
  transcript_parts transcript = Ok (items, segs) ->
  let out := analyze_examiner_demeanor detect_sentiment transcript examiner in
  (succeeds (analyze_examiner_demeanor_try detect_sentiment transcript examiner)
     = true ->
   filter is_interruption out
     = flat_map (expected_interruption examiner items) (with_history segs) /\
   (forall before segment after,
      segs = before ++ segment :: after ->
      attributed_to examiner segment = true ->
      3 <= run_position examiner before ->
      exists f start_time,
        In f out /\ is_interruption f = true /\ severity f = "medium" /\
        float_field segment "start_time" = Ok start_time /\
        flag_timestamp f = PyFloat start_time)) /\
  (succeeds (analyze_examiner_demeanor_try detect_sentiment transcript examiner)
     = false ->
   out = []) /\
  (forall f, In f out -> is_interruption f = true ->
     severity f = "medium" /\
     exists before segment after start_time,
       segs = before ++ segment :: after /\
       attributed_to examiner segment = true /\
       3 <= run_position examiner before /\
       float_field segment "start_time" = Ok start_time /\
       flag_timestamp f = PyFloat start_time) /\
  (forall before segment after,
     segs = before ++ segment :: after ->
     run_position examiner before < 3 ->
     expected_interruption examiner items (before, segment) = []) /\
  run_position examiner [] = 1 /\
  (forall before previous,
     attributed_to examiner previous = false ->
     run_position examiner (before ++ [previous]) = 1) /\
  (forall before previous,
     attributed_to examiner previous = true ->
     run_position examiner (before ++ [previous])
       = S (run_position examiner before)).
Proof.
  intros Hparts out. subst out.
  assert (Hfail : succeeds (analyze_examiner_demeanor_try detect_sentiment
                              transcript examiner) = false ->
                  analyze_examiner_demeanor detect_sentiment transcript examiner
                  = []).
  { unfold analyze_examiner_demeanor.
    destruct (analyze_examiner_demeanor_try detect_sentiment transcript examiner);
      [discriminate | reflexivity]. }
  split; [|split; [|split; [|split; [|split; [|split]]]]].
  - intros Hok.
    destruct (completed_pass_interruptions _ _ _ Hparts Hok) as [H1 [_ H3]].
    split; [exact H1 | exact H3].
  - exact Hfail.
  - intros f Hin Hi.
    destruct (succeeds (analyze_examiner_demeanor_try detect_sentiment
                          transcript examiner)) eqn:Hrun.
    + destruct (completed_pass_interruptions _ _ _ Hparts Hrun) as [_ [H2 _]].
      exact (H2 f Hin Hi).
    + rewrite (Hfail eq_refl) in Hin. contradiction.
  - intros before segment after _ Hr.
    unfold expected_interruption, run_position in *.
    destruct (trailing_run (attributed_to examiner) before) as [|[|k]];
      [| |lia]; now destruct (attributed_to examiner segment).
  - reflexivity.
  - intros before previous Hp. unfold run_position.
    now rewrite trailing_run_snoc, Hp.
  - intros before previous Hp. unfold run_position.
    now rewrite trailing_run_snoc, Hp.
Qed.

(** *** Severities *)

Lemma demeanor_loop_Forall (P : demeanor_flag -> Prop) (items : pyval)
  (segs : list pyval) (st st' : loop_state) :
  (forall n text t, P (interruption_flag n text t)) ->
  (forall text t f, In f (_analyze_tone text t) -> P f) ->
  foldM (demeanor_step examiner items) segs st = Ok st' ->
  Forall P (flags st) -> Forall P (flags st').
Proof.
  intros Hi Ht. revert st.
  induction segs as [|a segs IH]; intros st; simpl.
  - now intros [= <-].
  - rewrite demeanor_step_view.
    destruct (segment_view items a) as [[[speaker t] text]|]; simpl;
      [|discriminate].
    intros Hloop Hst. apply (IH _ Hloop). clear Hloop IH.
    destruct (eq_str speaker examiner); simpl; [|exact Hst].
    apply Forall_app. split.
    + destruct (eq_str (last_speaker st) examiner && _); [|exact Hst].
      apply Forall_app. split; [exact Hst|]. constructor; [apply Hi|constructor].
    + apply Forall_forall. intros f. apply Ht.
Qed.

(** C10: whatever the transcript and the answer of the sentiment service,
    every flag of the returned list has the severity of its kind: medium
    for interruption, dismissive and negative_sentiment, high for
    negative_tone and aggressive; none has severity low. *)
Theorem flag_severity_by_kind (transcript : pyval) :
  Forall (fun f => severity_matches_kind f = true /\
                   (severity f = "medium" \/ severity f = "high") /\
                   severity f <> "low")
    (analyze_examiner_demeanor detect_sentiment transcript examiner).
Proof.
  set (P := fun f => severity_matches_kind f = true /\
                     (severity f = "medium" \/ severity f = "high") /\
                     severity f <> "low").
  unfold analyze_examiner_demeanor.
  rewrite analyze_examiner_demeanor_try_core.
  unfold demeanor_core.
  destruct (get transcript "results" (PyDict [])) as [results|]; simpl;
    [|constructor].
  destruct (get results "speaker_labels" (PyDict [])) as [labels|]; simpl;
    [|constructor].
  destruct (get labels "segments" (PyList [])) as [segments|]; simpl;
    [|constructor].
  destruct (get results "items" (PyList [])) as [items|]; simpl; [|constructor].
  destruct (iter segments) as [segs|]; simpl; [|constructor].
  destruct (filterM (is_examiner examiner) segs) as [es|]; simpl; [|constructor].
  destruct (foldM (demeanor_step examiner items) segs initial_state) as [st|]
    eqn:Hloop; simpl; [|constructor].
  destruct (mapM (fun s => _get_segment_text s items) (firstn 10 es)) as [texts|];
    simpl; [|constructor].
  apply Forall_app. split.
  - apply (demeanor_loop_Forall P items segs initial_state st);
      [ | | exact Hloop | constructor].
    + intros n text t. subst P. cbv beta.
      split; [reflexivity|]. split; [left; reflexivity | discriminate].
    + intros text t f Hf. subst P. cbv beta.
      unfold severity_matches_kind.
      destruct (analyze_tone_kinds _ _ _ Hf) as [[-> ->]|[[-> ->]|[-> ->]]];
        (split; [reflexivity|]); (split; [auto | discriminate]).
  - destruct (join " " texts); [constructor|].
    apply Forall_forall. intros f Hf.
    destruct (sentiment_flags_kind _ _ _ Hf) as [Hk Hs].
    subst P. cbv beta. unfold severity_matches_kind. rewrite Hk, Hs.
    split; [reflexivity|]. split; [left; reflexivity | discriminate].
Qed.

(** *** Failures *)

Lemma segment_tests_raises (items segment : pyval) :
  succeeds (_get_segment_text segment items) = false ->
  succeeds (segment_tests items segment) = false.
Proof.
  unfold segment_tests. intros H.
  destruct (get segment "speaker_label" (PyStr "unknown")); simpl; [|reflexivity].
  destruct (float_field segment "start_time"); simpl; [|reflexivity].
  destruct (float_field segment "end_time"); simpl; [|reflexivity].
  destruct (_get_segment_text segment items); [discriminate | reflexivity].
Qed.

Lemma tests_loop (items : pyval) (segs : list pyval) (acc : list declared_test) :
  forallb (fun segment => succeeds (segment_tests items segment)) segs = true ->
  foldM (fun declared_tests segment =>
           ts <- segment_tests items segment ;; Ok (declared_tests ++ ts)) segs acc
  = Ok (acc ++ flat_map (segment_events items) segs).
Proof.
  revert acc. induction segs as [|a segs IH]; intros acc; simpl.
  - now rewrite app_nil_r.
  - intros H. apply andb_true_iff in H as [Ha H].
    unfold segment_events at 1.
    destruct (segment_tests items a) as [ts|]; [|discriminate]. simpl.
    rewrite (IH _ H). now rewrite app_assoc.
Qed.

(** C1, as the code has it: a segment whose analysis raises makes both
    [detect_declared_tests] and [analyze_examiner_demeanor] return the
    empty list (the error is caught around the whole loop and the events
    of the other segments are dropped, nothing is raised to the caller);
    when every segment can be analysed, [detect_declared_tests] returns
    the events of all of them, in segment order. *)
Theorem segment_failure_empties_result (transcript items : pyval)
  (segs : list pyval) :
  transcript_parts transcript = Ok (items, segs) ->
  (forall segment,
      In segment segs ->
      succeeds (_get_segment_text segment items) = false ->
      detect_declared_tests transcript = [] /\
      analyze_examiner_demeanor detect_sentiment transcript examiner = []) /\
  (forallb (fun segment => succeeds (segment_tests items segment)) segs = true ->
   detect_declared_tests transcript = flat_map (segment_events items) segs).
Proof.
  intros Hparts. split.
  - intros segment Hin Hbad. split.
    + unfold detect_declared_tests.
      rewrite detect_declared_tests_try_parts, Hparts. simpl.
      pose proof (foldM_raise
                    (fun declared_tests s =>
                       ts <- segment_tests items s ;; Ok (declared_tests ++ ts))
                    segs segment [] Hin) as Hr.
      destruct (foldM _ segs []); [|reflexivity].
      discriminate Hr. intros s'.
      pose proof (segment_tests_raises _ _ Hbad) as Ht.
      destruct (segment_tests items segment); [discriminate | reflexivity].
    + unfold analyze_examiner_demeanor.
      rewrite analyze_examiner_demeanor_try_core,
        (demeanor_core_parts _ _ _ Hparts).
      destruct (filterM (is_examiner examiner) segs); simpl; [|reflexivity].
      pose proof (foldM_raise (demeanor_step examiner items) segs segment
                    initial_state Hin
                    (fun s' => demeanor_step_raises items s' segment
                                 (segment_text_raises_view _ _ Hbad))) as Hr.
      destruct (foldM (demeanor_step examiner items) segs initial_state);
        [discriminate | reflexivity].
  - intros Hall. unfold detect_declared_tests.
    rewrite detect_declared_tests_try_parts, Hparts. simpl.
    now rewrite (tests_loop _ _ [] Hall).
Qed.

End Demeanor.

(** ** The whole pass *)

Section Pass.

Import Py Re Nlp Spec.

Lemma sentiment_flags_filtered (detect_sentiment : sentiment_oracle)
  (text : string) (segments : list pyval) :
  filter (fun f => negb (is_negative_sentiment f))
    (_analyze_sentiment_comprehend detect_sentiment text segments) = [].
Proof.
  apply filter_none. intros f Hf. unfold is_negative_sentiment.
  destruct (sentiment_flags_kind _ _ _ _ Hf) as [-> _]. reflexivity.
Qed.

(** The flags of a run without those of the sentiment service are the
    flags of the loop, which no oracle takes part in. *)
Lemma demeanor_flags_without_sentiment (detect_sentiment : sentiment_oracle)
  (transcript : pyval) (examiner : string) :
  filter (fun f => negb (is_negative_sentiment f))
    (analyze_examiner_demeanor detect_sentiment transcript examiner)
  = match demeanor_core transcript examiner with
    | Ok (loop_flags, _, _) =>
        filter (fun f => negb (is_negative_sentiment f)) loop_flags
    | Raise _ => []
    end.
Proof.
  unfold analyze_examiner_demeanor.
  rewrite analyze_examiner_demeanor_try_core.
  destruct (demeanor_core transcript examiner) as [[[loop_flags text] es]|];
    simpl; [|reflexivity].
  rewrite filter_app.
  destruct text; simpl; [now rewrite app_nil_r|].
  now rewrite sentiment_flags_filtered, app_nil_r.
Qed.

(** C8: two runs of the pass on the same transcript, whatever the
    sentiment service answers in each and whenever each is run, produce
    the same declared tests and, leaving out the flags contributed by the
    sentiment service, the same demeanor flags, in the same order. *)
Theorem classification_deterministic (oracle1 oracle2 : sentiment_oracle)
  (now1 now2 : Z) (session_id : string) (transcript_data : pyval) :
  let run1 :=
    process_transcript_for_cme_analysis oracle1 now1 session_id transcript_data in
  let run2 :=
    process_transcript_for_cme_analysis oracle2 now2 session_id transcript_data in
  declared_tests run1 = declared_tests run2 /\
  filter (fun f => negb (is_negative_sentiment f)) (demeanor_flags run1)
  = filter (fun f => negb (is_negative_sentiment f)) (demeanor_flags run2).
Proof.
  cbv zeta. unfold process_transcript_for_cme_analysis.
  cbn [declared_tests demeanor_flags].
  split; [reflexivity|].
  now rewrite !demeanor_flags_without_sentiment.
Qed.

(** C1 fails as stated: in the sample examination the first segment
    declares a test and later segments are flagged, but once a sixth
    segment with a malformed timestamp is added to the transcript both
    passes return the empty list. *)
Lemma one_bad_segment_drops_all :
  transcript_parts damaged_transcript
    = Ok (PyList sample_items, sample_segments ++ [malformed_segment]) /\
  _get_segment_text malformed_segment (PyList sample_items) = Raise ValueError /\
  detect_declared_tests sample_transcript
    = [ {| test := {| label := "straight_leg_raise"; timestamp := 0.5;
                      confidence := 0.96;
                      matched_text := "Let's do the SLR test" |};
           speaker := PyStr "spk_0";
           transcript_text := "Let's do the SLR test" |} ] /\
  List.length (analyze_examiner_demeanor no_service sample_transcript "spk_0") = 4 /\
  detect_declared_tests damaged_transcript = [] /\
  analyze_examiner_demeanor no_service damaged_transcript "spk_0" = [].
Proof.
  repeat split; vm_compute; reflexivity.
Qed.

Lemma segment_failure_empties_result_witness :
  transcript_parts damaged_transcript
    = Ok (PyList sample_items, sample_segments ++ [malformed_segment]) /\
  In malformed_segment (sample_segments ++ [malformed_segment]) /\
  succeeds (_get_segment_text malformed_segment (PyList sample_items)) = false /\
  detect_declared_tests damaged_transcript = [] /\
  analyze_examiner_demeanor no_service damaged_transcript "spk_0" = [].
Proof.
  assert (Hp : transcript_parts damaged_transcript
               = Ok (PyList sample_items, sample_segments ++ [malformed_segment]))
    by (vm_compute; reflexivity).
  assert (Hin : In malformed_segment (sample_segments ++ [malformed_segment]))
    by (apply in_or_app; right; left; reflexivity).
  assert (Hbad : succeeds (_get_segment_text malformed_segment (PyList sample_items))
                 = false) by (vm_compute; reflexivity).
  split; [exact Hp|]. split; [exact Hin|]. split; [exact Hbad|].
  exact (proj1 (segment_failure_empties_result no_service "spk_0" _ _ _ Hp)
           malformed_segment Hin Hbad).
Defined.

Lemma interruption_from_third_consecutive_witness :
  transcript_parts sample_transcript = Ok (PyList sample_items, sample_segments) /\
  succeeds (analyze_examiner_demeanor_try no_service sample_transcript "spk_0")
    = true /\
  filter is_interruption
    (analyze_examiner_demeanor no_service sample_transcript "spk_0")
  = [ {| flag_type := "interruption";
         flag_timestamp := PyFloat 5;
         transcript_excerpt := "Lie back";
         severity := "medium";
         description := "Examiner spoke 3 times consecutively";
         sentiment_scores := None |};
      {| flag_type := "interruption";
         flag_timestamp := PyFloat 7;
         transcript_excerpt := "That doesn't matter";
         severity := "medium";
         description := "Examiner spoke 4 times consecutively";
         sentiment_scores := None |} ].
Proof.
  assert (Hp : transcript_parts sample_transcript
               = Ok (PyList sample_items, sample_segments))
    by (vm_compute; reflexivity).
  assert (Hok : succeeds (analyze_examiner_demeanor_try no_service
                            sample_transcript "spk_0") = true)
    by (vm_compute; reflexivity).
  split; [exact Hp|]. split; [exact Hok|].
  rewrite (proj1 (proj1 (interruption_from_third_consecutive no_service "spk_0"
                           _ _ _ Hp) Hok)).
  vm_compute. reflexivity.
Defined.

(** C5 fails as stated: in the sample examination the third and fourth
    consecutive segments of the examiner are flagged as interruptions, but
    once a segment with a malformed timestamp follows them the pass raises
    and returns no flag, although the third segment is still the third of
    its run. *)
Lemma third_consecutive_segment_unflagged :
  transcript_parts damaged_transcript
    = Ok (PyList sample_items, sample_segments ++ [malformed_segment]) /\
  sample_segments ++ [malformed_segment]
    = [segment_of "spk_0" (PyStr "0.5") (PyStr "2.0");
       segment_of "spk_0" (PyStr "3.0") (PyStr "4.0")]
      ++ segment_of "spk_0" (PyStr "5.0") (PyStr "6.0")
      :: [segment_of "spk_0" (PyStr "7.0") (PyStr "8.0");
          segment_of "spk_1" (PyStr "9.0") (PyStr "9.5");
          malformed_segment] /\
  attributed_to "spk_0" (segment_of "spk_0" (PyStr "5.0") (PyStr "6.0")) = true /\
  run_position "spk_0"
    [segment_of "spk_0" (PyStr "0.5") (PyStr "2.0");
     segment_of "spk_0" (PyStr "3.0") (PyStr "4.0")] = 3 /\
  List.length (filter is_interruption
                 (analyze_examiner_demeanor no_service sample_transcript "spk_0"))
    = 2 /\
  succeeds (analyze_examiner_demeanor_try no_service damaged_transcript "spk_0")
    = false /\
  filter is_interruption
    (analyze_examiner_demeanor no_service damaged_transcript "spk_0") = [].
Proof.
  repeat split; vm_compute; reflexivity.
Qed.

End Pass.

(** ** The report: reconciliation of declared tests with their evidence *)

Section Reconciliation.

Import Py Report.

Lemma is_discrepancy_iff (m : pyval) :
  is_discrepancy m = true <-> m = PyStr "brief" \/ m = PyStr "not_observed".
Proof.
  unfold is_discrepancy, eq_str. split.
  - destruct m; try discriminate.
    rewrite orb_true_iff, !String.eqb_eq. intros [->| ->]; auto.
  - intros [->| ->]; reflexivity.
Qed.

Lemma count_steps_skip (cond : string -> result bool) (step_id : string)
  (declared_steps : list string) :
  cond step_id = Ok false ->
  count_steps cond (step_id :: declared_steps) = count_steps cond declared_steps.
Proof.
  intros H. unfold count_steps. simpl. rewrite H. simpl.
  destruct (filterM cond declared_steps); reflexivity.
Qed.

(** C6: the timeline flags a declared test as a discrepancy exactly when
    the motion_present of its observed action is 'brief' or
    'not_observed'; of the three verdict values 'performed' is the only
    one not flagged; two actions that differ only in pose_match are shown
    and counted alike; and a declared test without an observed action is
    shown as "Unknown", is not flagged, and is counted neither among the
    tests performed nor among the tests not observed. *)
Theorem discrepancy_iff_brief_or_not_observed (step_actions : actions)
  (step_id : string) :
  (forall item,
      timeline_item_of step_actions step_id = Ok item ->
      (discrepancy item = true <->
       motion_present item = PyStr "brief" \/
       motion_present item = PyStr "not_observed") /\
      (discrepancy_class item = "discrepancy" <-> discrepancy item = true)) /\
  (forall m,
      In m ["performed"; "brief"; "not_observed"] ->
      (is_discrepancy (PyStr m) = false <-> m = "performed")) /\
  (forall other d1 d2,
      action_of step_actions step_id = PyDict d1 ->
      action_of other step_id = PyDict d2 ->
      (forall key, key <> "pose_match" -> assoc key d1 = assoc key d2) ->
      timeline_item_of step_actions step_id = timeline_item_of other step_id /\
      is_not_observed step_actions step_id = is_not_observed other step_id /\
      is_performed step_actions step_id = is_performed other step_id) /\
  (assoc step_id step_actions = None ->
   timeline_item_of step_actions step_id
     = Ok {| motion_present := PyStr "unknown";
             discrepancy := false;
             discrepancy_class := "";
             observed_action := "Unknown" |} /\
   (forall declared_steps,
       tests_not_performed step_actions (step_id :: declared_steps)
         = tests_not_performed step_actions declared_steps /\
       tests_performed step_actions (step_id :: declared_steps)
         = tests_performed step_actions declared_steps)).
Proof.
  split; [|split; [|split]].
  - intros item. unfold timeline_item_of.
    destruct (get (action_of step_actions step_id) "motion_present"
                (PyStr "unknown")) as [m|]; simpl; [|discriminate].
    destruct m; simpl; try discriminate.
    intros [= <-]. cbn [discrepancy motion_present discrepancy_class].
    split; [apply is_discrepancy_iff|].
    destruct (is_discrepancy (PyStr s)); split; try reflexivity; discriminate.
  - intros m [<-|[<-|[<-|[]]]]; split; try reflexivity; discriminate.
  - intros other d1 d2 H1 H2 Hd.
    assert (Hm : assoc "motion_present" d1 = assoc "motion_present" d2)
      by (apply Hd; discriminate).
    unfold timeline_item_of, is_not_observed, is_performed.
    rewrite H1, H2. simpl. rewrite Hm. auto.
  - intros Hnone.
    assert (Ha : action_of step_actions step_id = PyDict [])
      by (unfold action_of; now rewrite Hnone).
    split.
    + unfold timeline_item_of. rewrite Ha. reflexivity.
    + intros declared_steps. unfold tests_not_performed, tests_performed.
      split; apply count_steps_skip.
      * unfold is_not_observed. rewrite Ha. reflexivity.
      * unfold is_performed. rewrite Ha. reflexivity.
Qed.

Lemma discrepancy_iff_brief_or_not_observed_witness :
  let step_actions :=
    [("step_1", PyDict [("declared_step_id", PyStr "step_1");
                        ("motion_present", PyStr "not_observed");
                        ("pose_match", PyStr "no_match")]);
     ("step_2", PyDict [("declared_step_id", PyStr "step_2");
                        ("motion_present", PyStr "performed");
                        ("pose_match", PyStr "partial")])] in
  assoc "step_3" step_actions = None /\
  timeline_item_of step_actions "step_3"
    = Ok {| motion_present := PyStr "unknown";
            discrepancy := false;
            discrepancy_class := "";
            observed_action := "Unknown" |} /\
  tests_not_performed step_actions ["step_3"; "step_1"; "step_2"] = Ok 1 /\
  tests_performed step_actions ["step_3"; "step_1"; "step_2"] = Ok 1 /\
  option_map discrepancy
    (match timeline_item_of step_actions "step_1" with
     | Ok item => Some item | Raise _ => None end) = Some true.
Proof.
  set (step_actions :=
    [("step_1", PyDict [("declared_step_id", PyStr "step_1");
                        ("motion_present", PyStr "not_observed");
                        ("pose_match", PyStr "no_match")]);
     ("step_2", PyDict [("declared_step_id", PyStr "step_2");
                        ("motion_present", PyStr "performed");
                        ("pose_match", PyStr "partial")])]).
  assert (Hnone : assoc "step_3" step_actions = None) by reflexivity.
  destruct (discrepancy_iff_brief_or_not_observed step_actions "step_3")
    as [_ [_ [_ H]]].
  destruct (H Hnone) as [Hitem Hcount].
  destruct (Hcount ["step_1"; "step_2"]) as [Hn Hp].
  split; [exact Hnone|]. split; [exact Hitem|].
  split; [rewrite Hn; reflexivity|]. split; [rewrite Hp; reflexivity|].
  reflexivity.
Defined.

End Reconciliation.

(** ** Further properties of the test intent classifier *)

Section ClassifierExtra.

Import Py Re Nlp Spec SpecNlp.

Lemma lower_ascii_idem (c : ascii) : lower_ascii (lower_ascii c) = lower_ascii c.
Proof.
  destruct c as [[] [] [] [] [] [] [] []]; vm_compute; reflexivity.
Qed.

Lemma lower_idem (s : string) : lower (lower s) = lower s.
Proof.
  induction s as [|c s IH]; simpl; [reflexivity|].
  now rewrite lower_ascii_idem, IH.
Qed.

Lemma map_flat_map {A B C : Type} (f : B -> C) (g : A -> list B) (l : list A) :
  map f (flat_map g l) = flat_map (fun a => map f (g a)) l.
Proof.
  induction l as [|a l IH]; simpl; [reflexivity|].
  now rewrite map_app, IH.
Qed.

Lemma flat_map_ext_all {A B : Type} (f g : A -> list B) (l : list A) :
  (forall a, f a = g a) -> flat_map f l = flat_map g l.
Proof.
  intros H. induction l as [|a l IH]; simpl; [reflexivity|].
  now rewrite H, IH.
Qed.

(** X1: The classifier reads the text only through its lowercase form, apart
    from the text it quotes: two texts that differ only in letter case get
    the same categories, timestamps and confidences, in the same order. *)
Theorem classifier_ignores_case (text1 text2 : string) (timestamp : float) :
  lower text1 = lower text2 ->
  map verdict (_analyze_text_for_tests text1 timestamp)
  = map verdict (_analyze_text_for_tests text2 timestamp).
Proof.
  intros H. unfold _analyze_text_for_tests, analyze_text_with.
  rewrite !map_flat_map. apply flat_map_ext_all.
  intros [l cfg]. unfold analyze_category. rewrite H.
  destruct (PrimFloat.leb 0.5 (category_confidence cfg (lower text2)));
    reflexivity.
Qed.

Lemma classifier_ignores_case_witness :
  lower "LET'S CHECK THE SPINE" = lower "let's check the Spine" /\
  map verdict (_analyze_text_for_tests "LET'S CHECK THE SPINE" 12)
  = [("spine", 12%float, 0.96%float)] /\
  map verdict (_analyze_text_for_tests "let's check the Spine" 12)
  = [("spine", 12%float, 0.96%float)].
Proof.
  assert (H : lower "LET'S CHECK THE SPINE" = lower "let's check the Spine")
    by (vm_compute; reflexivity).
  split; [exact H|].
  rewrite <- (classifier_ignores_case _ _ 12 H).
  split; vm_compute; reflexivity.
Defined.

(** *** One candidate per category, in taxonomy order *)

Lemma flat_map_filter_map {A B : Type} (p : A -> bool) (f : A -> B) (l : list A) :
  flat_map (fun a => if p a then [f a] else []) l = map f (filter p l).
Proof.
  induction l as [|a l IH]; simpl; [reflexivity|].
  rewrite IH. now destruct (p a).
Qed.

Lemma kept_labels_distinct {V : Type} (keep : string * V -> bool)
  (entries : list (string * V)) :
  NoDup (map fst entries) -> NoDup (map fst (filter keep entries)).
Proof.
  intros Hall. induction entries as [|entry entries IH]; [constructor|].
  apply NoDup_cons_iff in Hall as [Hfresh Hrest]. cbn [filter].
  destruct (keep entry); [|exact (IH Hrest)].
  cbn [map]. apply NoDup_cons; [|exact (IH Hrest)].
  intros Hin. apply Hfresh.
  apply in_map_iff in Hin as [other [Hlabel Hin]].
  apply filter_In in Hin as [Hin _].
  rewrite <- Hlabel. now apply in_map.
Qed.

(** X2: The candidates are those of the categories whose score clears the
    threshold, one per category and in the order of the taxonomy; no
    category appears twice and there are at most ten candidates. *)
Theorem one_candidate_per_category (text : string) (timestamp : float) :
  map label (_analyze_text_for_tests text timestamp)
  = map fst (filter (clears_threshold text) TEST_TAXONOMY) /\
  NoDup (map label (_analyze_text_for_tests text timestamp)) /\
  List.length (_analyze_text_for_tests text timestamp) <= 10.
Proof.
  assert (E : _analyze_text_for_tests text timestamp
              = map (fun entry : string * test_config =>
                       {| label := fst entry;
                          timestamp := timestamp;
                          confidence :=
                            Py.min (category_confidence (snd entry) (lower text)) 1;
                          matched_text := take 200 text |})
                  (filter (clears_threshold text) TEST_TAXONOMY)).
  { unfold _analyze_text_for_tests, analyze_text_with.
    rewrite <- flat_map_filter_map. apply flat_map_ext_all.
    intros [l cfg]. reflexivity. }
  assert (L : map label (_analyze_text_for_tests text timestamp)
              = map fst (filter (clears_threshold text) TEST_TAXONOMY)).
  { rewrite E, map_map. reflexivity. }
  split; [exact L|]. split.
  - rewrite L. apply kept_labels_distinct, taxonomy_labels_NoDup.
  - rewrite <- (length_map label), L, length_map.
    etransitivity; [apply filter_length_le|]. reflexivity.
Qed.

(** *** Keywords alone *)

Lemma forallb_filter_length {A : Type} (f : A -> bool) (l : list A) :
  forallb f l = true <-> List.length (filter f l) = List.length l.
Proof.
  split; [|apply filter_length_forallb].
  induction l as [|a l IH]; simpl; [reflexivity|].
  intros H. apply andb_true_iff in H as [-> H]. simpl. now rewrite IH.
Qed.

Lemma taxonomy_keyword_only_ok :
  forallb (fun e => keyword_only_ok (List.length (keywords (snd e)))) TEST_TAXONOMY
  = true.
Proof. vm_compute. reflexivity. Qed.

Lemma taxonomy_keyword_only_score (test_label : string) (test_config : test_config) :
  In (test_label, test_config) TEST_TAXONOMY ->
  Py.min (confidence_of (List.length (keywords test_config))
            (List.length (keywords test_config)) 0 true) 1 = 0.5%float.
Proof.
  intros H. simpl in H.
  repeat (destruct H as [H|H]; [injection H as <- <-; vm_compute; reflexivity|]).
  contradiction.
Qed.

Lemma keyword_only_threshold (test_label : string) (test_config : test_config)
  (text_lower : string) :
  In (test_label, test_config) TEST_TAXONOMY ->
  any_pattern test_config text_lower = false ->
  PrimFloat.leb 0.5 (category_confidence test_config text_lower)
  = all_keywords test_config text_lower && has_declaration text_lower.
Proof.
  intros Hin Hp.
  pose proof taxonomy_keyword_only_ok as T. rewrite forallb_forall in T.
  specialize (T _ Hin). cbn [snd] in T. unfold keyword_only_ok in T.
  rewrite forallb_forall in T.
  pose proof (keyword_matches_le test_config text_lower) as Hle.
  specialize (T (keyword_matches test_config text_lower)).
  rewrite in_seq in T.
  assert (Hk : 0 <= keyword_matches test_config text_lower
               < 0 + S (List.length (keywords test_config))) by lia.
  specialize (T Hk). rewrite forallb_forall in T.
  specialize (T (has_declaration text_lower)).
  assert (Hd : In (has_declaration text_lower) [true; false])
    by (destruct (has_declaration text_lower); simpl; auto).
  apply T in Hd. apply eqb_prop in Hd.
  unfold category_confidence, pattern_matches.
  unfold any_pattern in Hp. rewrite (filter_nil_existsb _ _ Hp). cbn [List.length].
  rewrite Hd. f_equal.
  unfold all_keywords, keyword_matches in *.
  destruct (forallb (fun kw => contains kw text_lower) (keywords test_config))
    eqn:E.
  - apply forallb_filter_length in E. rewrite E. apply Nat.eqb_refl.
  - apply Nat.eqb_neq. intros Heq.
    apply forallb_filter_length in Heq. congruence.
Qed.

(** X3: When no pattern rule of a category matches, the classifier emits a
    candidate for it exactly when every keyword of the category occurs in
    the text and a declaration phrase is present; its confidence is then
    exactly 0.5. *)
Theorem keyword_only_candidate (text : string) (timestamp : float)
  (test_label : string) (test_config : test_config) :
  assoc test_label TEST_TAXONOMY = Some test_config ->
  any_pattern test_config (lower text) = false ->
  ((exists e, In e (_analyze_text_for_tests text timestamp) /\ label e = test_label)
   <-> all_keywords test_config (lower text) = true /\
       has_declaration (lower text) = true) /\
  (forall e, In e (_analyze_text_for_tests text timestamp) ->
             label e = test_label -> confidence e = 0.5%float).
Proof.
  intros Hcfg Hp. apply assoc_In in Hcfg.
  pose proof (keyword_only_threshold _ _ _ Hcfg Hp) as Hth.
  assert (Hown : forall e, In e (_analyze_text_for_tests text timestamp) ->
                   label e = test_label ->
                   PrimFloat.leb 0.5 (category_confidence test_config (lower text))
                   = true /\
                   confidence e
                   = Py.min (category_confidence test_config (lower text)) 1).
  { intros e He Hl.
    apply analyze_text_with_In in He as [cfg [Hin [Hge He]]].
    rewrite Hl in Hin.
    apply (In_assoc_NoDup _ _ _ taxonomy_labels_NoDup) in Hin.
    rewrite (In_assoc_NoDup _ _ _ taxonomy_labels_NoDup Hcfg) in Hin.
    injection Hin as <-. split; [exact Hge|]. rewrite He. reflexivity. }
  split; [split|].
  - intros [e [He Hl]]. destruct (Hown e He Hl) as [Hge _].
    rewrite Hth in Hge. now apply andb_true_iff in Hge.
  - intros [Hk Hd].
    assert (Hge : PrimFloat.leb 0.5 (category_confidence test_config (lower text))
                  = true) by (rewrite Hth, Hk, Hd; reflexivity).
    eexists. split.
    + unfold _analyze_text_for_tests, analyze_text_with.
      apply in_flat_map. exists (test_label, test_config).
      split; [exact Hcfg|]. unfold analyze_category. rewrite Hge.
      left. reflexivity.
    + reflexivity.
  - intros e He Hl. destruct (Hown e He Hl) as [Hge ->].
    rewrite Hth in Hge. apply andb_true_iff in Hge as [Hk Hd].
    unfold category_confidence, pattern_matches.
    unfold any_pattern in Hp. rewrite (filter_nil_existsb _ _ Hp).
    cbn [List.length]. rewrite Hd.
    unfold all_keywords in Hk. apply forallb_filter_length in Hk.
    unfold keyword_matches. rewrite Hk.
    exact (taxonomy_keyword_only_score _ _ Hcfg).
Qed.

Lemma keyword_only_candidate_witness :
  let text := "Let's look at Waddell, non-organic or non organic, behavioral" in
  let entry := nth 3 TEST_TAXONOMY ("", {| keywords := []; patterns := [] |}) in
  assoc "waddells_signs" TEST_TAXONOMY = Some (snd entry) /\
  any_pattern (snd entry) (lower text) = false /\
  all_keywords (snd entry) (lower text) = true /\
  has_declaration (lower text) = true /\
  exists e, In e (_analyze_text_for_tests text 5) /\ label e = "waddells_signs".
Proof.
  set (text := "Let's look at Waddell, non-organic or non organic, behavioral").
  set (entry := nth 3 TEST_TAXONOMY ("", {| keywords := []; patterns := [] |})).
  assert (H1 : assoc "waddells_signs" TEST_TAXONOMY = Some (snd entry))
    by (vm_compute; reflexivity).
  assert (H2 : any_pattern (snd entry) (lower text) = false)
    by (vm_compute; reflexivity).
  assert (H3 : all_keywords (snd entry) (lower text) = true)
    by (vm_compute; reflexivity).
  assert (H4 : has_declaration (lower text) = true) by (vm_compute; reflexivity).
  split; [exact H1|]. split; [exact H2|]. split; [exact H3|]. split; [exact H4|].
  exact (proj2 (proj1 (keyword_only_candidate text 5 _ _ H1 H2)) (conj H3 H4)).
Defined.

End ClassifierExtra.

(** ** Further properties of the two passes *)

Section PassesExtra.

Import Py Re Nlp Spec SpecNlp.

Variable examiner : string.

Lemma tests_loop_all_ok (items : pyval) (segs : list pyval)
  (acc out : list declared_test) :
  foldM (fun declared_tests segment =>
           ts <- segment_tests items segment ;; Ok (declared_tests ++ ts)) segs acc
  = Ok out ->
  forallb (fun segment => succeeds (segment_tests items segment)) segs = true.
Proof.
  revert acc. induction segs as [|a segs IH]; intros acc; simpl; [reflexivity|].
  destruct (segment_tests items a) as [ts|]; simpl; [|discriminate].
  apply IH.
Qed.

(** X4: Every declared-test event describes a segment of the transcript: its
    speaker is the segment's speaker label (or 'unknown'), its timestamp
    the segment's start time, its transcript text the words of the
    segment, and its matched text the first 200 characters of that
    text. *)
Theorem declared_events_describe_segments (transcript : pyval) (e : declared_test) :
  In e (detect_declared_tests transcript) ->
  exists items segs segment,
    transcript_parts transcript = Ok (items, segs) /\
    In segment segs /\
    get segment "speaker_label" (PyStr "unknown") = Ok (speaker e) /\
    float_field segment "start_time" = Ok (timestamp (test e)) /\
    _get_segment_text segment items = Ok (transcript_text e) /\
    In (test e)
       (_analyze_text_for_tests (transcript_text e) (timestamp (test e))) /\
    matched_text (test e) = take 200 (transcript_text e).
Proof.
  unfold detect_declared_tests. rewrite detect_declared_tests_try_parts.
  destruct (transcript_parts transcript) as [[items segs]|]; simpl;
    [|contradiction].
  destruct (foldM _ segs []) as [out|] eqn:Hloop; [|contradiction].
  pose proof (tests_loop_all_ok _ _ _ _ Hloop) as Hall.
  rewrite (tests_loop _ _ [] Hall) in Hloop. injection Hloop as <-.
  simpl. rewrite in_flat_map. intros [segment [Hseg He]].
  exists items, segs, segment. split; [reflexivity|]. split; [exact Hseg|].
  unfold segment_events, segment_tests in He.
  destruct (get segment "speaker_label" (PyStr "unknown")) as [sp|]; simpl in He;
    [|contradiction].
  destruct (float_field segment "start_time") as [t|]; simpl in He;
    [|contradiction].
  destruct (float_field segment "end_time") as [t'|]; simpl in He;
    [|contradiction].
  destruct (_get_segment_text segment items) as [text|]; simpl in He;
    [|contradiction].
  apply in_map_iff in He as [d [<- Hd]]. cbn [speaker test transcript_text].
  pose proof (analyze_text_with_In _ _ _ _ Hd) as [cfg [_ [_ Heq]]].
  assert (Ht : timestamp d = t) by (rewrite Heq; reflexivity).
  assert (Hm : matched_text d = take 200 text) by (rewrite Heq; reflexivity).
  rewrite Ht. repeat split; auto.
Qed.

Lemma declared_events_describe_segments_witness :
  let e := {| test := {| label := "straight_leg_raise"; timestamp := 0.5;
                         confidence := 0.96;
                         matched_text := "Let's do the SLR test" |};
              speaker := PyStr "spk_0";
              transcript_text := "Let's do the SLR test" |} in
  In e (detect_declared_tests sample_transcript) /\
  exists segment,
    In segment sample_segments /\
    float_field segment "start_time" = Ok (timestamp (test e)) /\
    _get_segment_text segment (PyList sample_items) = Ok (transcript_text e).
Proof.
  set (e := {| test := {| label := "straight_leg_raise"; timestamp := 0.5;
                          confidence := 0.96;
                          matched_text := "Let's do the SLR test" |};
               speaker := PyStr "spk_0";
               transcript_text := "Let's do the SLR test" |}).
  assert (H : In e (detect_declared_tests sample_transcript))
    by (vm_compute; left; reflexivity).
  split; [exact H|].
  destruct (declared_events_describe_segments _ _ H)
    as [items [segs [segment [Hp [Hin [_ [Ht [Hx _]]]]]]]].
  assert (Hp' : transcript_parts sample_transcript
                = Ok (PyList sample_items, sample_segments))
    by (vm_compute; reflexivity).
  rewrite Hp' in Hp. injection Hp as <- <-.
  exists segment. exact (conj Hin (conj Ht Hx)).
Defined.

(** *** Segments of other speakers *)

Lemma is_examiner_attributed (s : pyval) (b : bool) :
  is_examiner examiner s = Ok b -> attributed_to examiner s = b.
Proof.
  unfold is_examiner, attributed_to.
  destruct (get s "speaker_label" PyNone); simpl; [|discriminate].
  now intros [= <-].
Qed.

Lemma filterM_is_examiner (segs es : list pyval) :
  filterM (is_examiner examiner) segs = Ok es ->
  es = filter (attributed_to examiner) segs.
Proof.
  revert es. induction segs as [|a segs IH]; intros es; simpl.
  - now intros [= <-].
  - destruct (is_examiner examiner a) as [b|] eqn:Ha; simpl; [|discriminate].
    destruct (filterM (is_examiner examiner) segs) as [r|]; simpl; [|discriminate].
    intros [= <-]. rewrite (is_examiner_attributed _ _ Ha), (IH r eq_refl).
    reflexivity.
Qed.

Lemma demeanor_loop_other_speakers (items : pyval) (segs : list pyval)
  (st st' : loop_state) :
  forallb (fun s => negb (attributed_to examiner s)) segs = true ->
  foldM (demeanor_step examiner items) segs st = Ok st' ->
  flags st' = flags st.
Proof.
  revert st. induction segs as [|a segs IH]; intros st; simpl.
  - now intros _ [= <-].
  - intros H. apply andb_true_iff in H as [Ha H].
    rewrite demeanor_step_view.
    destruct (segment_view items a) as [[[sp t] text]|] eqn:Hv; simpl;
      [|discriminate].
    assert (Hsp : eq_str sp examiner = false).
    { unfold segment_view in Hv. unfold attributed_to in Ha.
      destruct (get a "speaker_label" PyNone); simpl in Hv; [|discriminate].
      destruct (float_field a "start_time"); simpl in Hv; [|discriminate].
      destruct (_get_segment_text a items); simpl in Hv; [|discriminate].
      injection Hv as -> _ _. now apply negb_true_iff in Ha. }
    rewrite Hsp. intros Hloop. now rewrite (IH _ H Hloop).
Qed.

(** X5: Flags only come from the examiner's segments: when no segment of the
    transcript is attributed to the examiner (in particular when there is
    no segment at all) the analyzer returns no flag, and the answer of the
    sentiment service plays no part. *)
Theorem no_examiner_segment_no_flag (detect_sentiment : sentiment_oracle)
  (transcript items : pyval) (segs : list pyval) :
  transcript_parts transcript = Ok (items, segs) ->
  forallb (fun s => negb (attributed_to examiner s)) segs = true ->
  analyze_examiner_demeanor detect_sentiment transcript examiner = [].
Proof.
  intros Hparts Hnone. unfold analyze_examiner_demeanor.
  rewrite analyze_examiner_demeanor_try_core, (demeanor_core_parts _ _ _ _ Hparts).
  destruct (filterM (is_examiner examiner) segs) as [es|] eqn:Hes; simpl;
    [|reflexivity].
  apply filterM_is_examiner in Hes.
  assert (Hnil : es = []).
  { rewrite Hes. apply filter_none. intros x Hx.
    rewrite forallb_forall in Hnone. now apply negb_true_iff, Hnone. }
  subst es. rewrite Hnil.
  destruct (foldM (demeanor_step examiner items) segs initial_state) as [st|]
    eqn:Hloop; simpl; [|reflexivity].
  now rewrite (demeanor_loop_other_speakers _ _ _ _ Hnone Hloop).
Qed.

End PassesExtra.

Section SentimentExtra.

Import Py Re Nlp Spec SpecNlp.

Lemma no_examiner_segment_no_flag_witness :
  transcript_parts sample_transcript = Ok (PyList sample_items, sample_segments) /\
  forallb (fun s => negb (attributed_to "spk_2" s)) sample_segments = true /\
  analyze_examiner_demeanor always_negative sample_transcript "spk_2" = [] /\
  List.length (analyze_examiner_demeanor always_negative sample_transcript "spk_0")
  = 5.
Proof.
  assert (Hp : transcript_parts sample_transcript
               = Ok (PyList sample_items, sample_segments))
    by (vm_compute; reflexivity).
  assert (Hn : forallb (fun s => negb (attributed_to "spk_2" s)) sample_segments
               = true) by (vm_compute; reflexivity).
  split; [exact Hp|]. split; [exact Hn|].
  split; [exact (no_examiner_segment_no_flag "spk_2" always_negative _ _ _ Hp Hn)|].
  vm_compute. reflexivity.
Defined.

Lemma take_take (n m : nat) (s : string) :
  n <= m -> take n (take m s) = take n s.
Proof.
  unfold take. revert m s.
  induction n as [|n IH]; intros m s H.
  - destruct s, m; reflexivity.
  - destruct m as [|m]; [lia|]. destruct s as [|c s]; simpl; [reflexivity|].
    f_equal. apply IH. lia.
Qed.

(** What [_analyze_sentiment_comprehend] returns, from the answer. *)
Lemma sentiment_cases (detect_sentiment : sentiment_oracle) (text : string)
  (segments : list pyval) :
  _analyze_sentiment_comprehend detect_sentiment text segments =
  match detect_sentiment (take 5000 text) with
  | Raise _ => []
  | Ok response =>
      if is_negative response then
        match
          match segments with
          | first :: _ => t <- float_field first "start_time" ;; Ok (PyFloat t)
          | [] => Ok (PyInt 0)
          end
        with
        | Ok timestamp =>
            [ {| flag_type := "negative_sentiment";
                 flag_timestamp := timestamp;
                 transcript_excerpt := take 200 text;
                 severity := "medium";
                 description := "Overall negative sentiment detected (score: "
                                ++ format_2f (negative_score response) ++ ")";
                 sentiment_scores :=
                   Some (match SentimentScore response with
                         | Some d => d
                         | None => []
                         end) |} ]
        | Raise _ => []
        end
      else []
  end.
Proof.
  unfold _analyze_sentiment_comprehend, sentiment_try, is_negative, negative_score.
  destruct (detect_sentiment (take 5000 text)) as [response|]; simpl;
    [|reflexivity].
  rewrite (take_take 200 5000 text) by lia.
  destruct (SentimentScore response) as [d|]; simpl.
  - destruct (match Sentiment response with
              | Some l => String.eqb l "NEGATIVE"
              | None => false
              end && _); [|reflexivity].
    destruct segments as [|first rest]; [reflexivity|].
    destruct (float_field first "start_time"); reflexivity.
  - destruct (match Sentiment response with
              | Some l => String.eqb l "NEGATIVE"
              | None => false
              end && _); [|reflexivity].
    destruct segments as [|first rest]; [reflexivity|].
    destruct (float_field first "start_time"); reflexivity.
Qed.

(** X6: The sentiment pass yields at most one flag, and yields one exactly
    when the service answers, labels the text NEGATIVE with a negative
    score strictly above 0.6, and the start time of the first examiner
    segment is a number; a failure of the service or a score of exactly
    0.6 yields none.  The flag quotes the first 200 characters of the
    text. *)
Theorem sentiment_flag_threshold (detect_sentiment : sentiment_oracle)
  (text : string) (segments : list pyval) :
  let out := _analyze_sentiment_comprehend detect_sentiment text segments in
  List.length out <= 1 /\
  (out <> [] <->
   exists response,
     detect_sentiment (take 5000 text) = Ok response /\
     is_negative response = true /\
     first_start_ok segments = true) /\
  (forall e, detect_sentiment (take 5000 text) = Raise e -> out = []) /\
  (forall response,
      detect_sentiment (take 5000 text) = Ok response ->
      negative_score response = 0.6%float -> out = []) /\
  (forall f, In f out ->
             flag_type f = "negative_sentiment" /\
             transcript_excerpt f = take 200 text).
Proof.
  cbv zeta. rewrite sentiment_cases.
  destruct (detect_sentiment (take 5000 text)) as [response|e0].
  - destruct (is_negative response) eqn:Hneg.
    + destruct segments as [|first rest]; cbn [first_start_ok].
      * split; [simpl; lia|]. split; [|split; [|split]].
        -- split; [eauto | discriminate].
        -- discriminate.
        -- intros r [= <-] H06. unfold is_negative in Hneg.
           rewrite H06 in Hneg. rewrite andb_comm in Hneg. discriminate Hneg.
        -- intros f [<-|[]]. split; reflexivity.
      * destruct (float_field first "start_time"); cbn [bind succeeds].
        -- split; [simpl; lia|]. split; [|split; [|split]].
           ++ split; [eauto | discriminate].
           ++ discriminate.
           ++ intros r [= <-] H06. unfold is_negative in Hneg.
              rewrite H06 in Hneg. rewrite andb_comm in Hneg. discriminate Hneg.
           ++ intros f [<-|[]]. split; reflexivity.
        -- split; [simpl; lia|]. split; [|split; [|split]]; auto.
           ++ split; [congruence|]. intros [r [_ [_ H]]]. discriminate H.
           ++ intros f [].
    + split; [simpl; lia|]. split; [|split; [|split]]; auto.
      * split; [congruence|]. intros [r [[= <-] [H _]]]. congruence.
      * intros f [].
  - split; [simpl; lia|]. split; [|split; [|split]]; auto.
    + split; [congruence|]. intros [r [H _]]. discriminate H.
    + intros f [].
Qed.

Lemma sentiment_flag_threshold_witness :
  let segments := [segment_of "spk_0" (PyStr "1.5") (PyStr "2.0")] in
  let borderline : sentiment_oracle :=
    fun _ => Ok {| Sentiment := Some "NEGATIVE";
                   SentimentScore := Some [("Negative", 0.6%float)] |} in
  List.length (_analyze_sentiment_comprehend always_negative "Be quiet" segments)
    = 1 /\
  _analyze_sentiment_comprehend no_service "Be quiet" segments = [] /\
  _analyze_sentiment_comprehend borderline "Be quiet" segments = [].
Proof.
  cbv zeta.
  split; [vm_compute; reflexivity|].
  split.
  - exact (proj1 (proj2 (proj2 (sentiment_flag_threshold no_service "Be quiet"
                                  [segment_of "spk_0" (PyStr "1.5") (PyStr "2.0")])))
             ClientError eq_refl).
  - vm_compute. reflexivity.
Defined.

Lemma sentiment_at_most_5000 (detect_sentiment : sentiment_oracle) (text : string)
  (segments : list pyval) :
  _analyze_sentiment_comprehend (at_most_5000 detect_sentiment) text segments
  = _analyze_sentiment_comprehend detect_sentiment text segments.
Proof.
  rewrite !sentiment_cases. unfold at_most_5000.
  pose proof (take_length 5000 text) as H. apply Nat.leb_le in H.
  now rewrite H.
Qed.

(** X7: The sentiment service is never handed more than 5000 characters: the
    analyzer gives the same result with a service that refuses any longer
    text. *)
Theorem oracle_text_at_most_5000 (detect_sentiment : sentiment_oracle)
  (transcript : pyval) (examiner : string) :
  analyze_examiner_demeanor (at_most_5000 detect_sentiment) transcript examiner
  = analyze_examiner_demeanor detect_sentiment transcript examiner.
Proof.
  unfold analyze_examiner_demeanor.
  rewrite !analyze_examiner_demeanor_try_core.
  destruct (demeanor_core transcript examiner) as [[[fl text] es]|]; simpl;
    [|reflexivity].
  destruct text; [reflexivity|].
  now rewrite sentiment_at_most_5000.
Qed.

End SentimentExtra.

(** ** The lexical tone scan and the entry point *)

Section ToneExtra.

Import Py Re Nlp Spec SpecNlp.

Lemma flat_map_cond_length {A B : Type} (p : A -> bool) (f : A -> B) (l : list A) :
  List.length (flat_map (fun a => if p a then [f a] else []) l) <= List.length l.
Proof.
  rewrite flat_map_filter_map, length_map. apply filter_length_le.
Qed.

Lemma tone_parts (text : string) (timestamp : float) :
  _analyze_tone text timestamp =
  map (fun indicator =>
         tone_flag "negative_tone" "high"
           ("Negative language detected: " ++ dquote ++ indicator ++ dquote)%string
           text timestamp)
    (filter (fun indicator => contains indicator (lower text))
       NEGATIVE_TONE_INDICATORS)
  ++ map (fun _ => tone_flag "dismissive" "medium" "Dismissive language detected"
                     text timestamp)
       (filter (fun pattern => search false pattern (lower text))
          DISMISSIVE_PATTERNS)
  ++ map (fun _ => tone_flag "aggressive" "high"
                     "Aggressive or controlling language detected" text timestamp)
       (filter (fun pattern => search false pattern (lower text))
          INTERRUPTION_PATTERNS).
Proof.
  unfold _analyze_tone, negative_tone_flags, dismissive_flags, aggressive_flags.
  now rewrite !flat_map_filter_map.
Qed.

Lemma filter_map_const {A B : Type} (p : B -> bool) (f : A -> B) (l : list A)
  (b : bool) :
  (forall a, p (f a) = b) ->
  filter p (map f l) = if b then map f l else [].
Proof.
  intros H. induction l as [|a l IH]; simpl; [now destruct b|].
  rewrite H, IH. now destruct b.
Qed.

(** X8: The tone scan raises one negative_tone flag per phrase of the list
    that occurs in the lowercased text, in list order and naming the
    phrase; it raises at most 18 flags; each flag carries the given
    timestamp and quotes the first 200 characters of the text; and the
    kinds, severities and descriptions do not depend on letter case. *)
Theorem tone_scan_flags (text : string) (timestamp : float) :
  map description (filter is_negative_tone (_analyze_tone text timestamp))
  = map (fun indicator =>
           ("Negative language detected: " ++ dquote ++ indicator ++ dquote)%string)
      (filter (fun indicator => contains indicator (lower text))
         NEGATIVE_TONE_INDICATORS) /\
  List.length (_analyze_tone text timestamp) <= 18 /\
  (forall f, In f (_analyze_tone text timestamp) ->
             flag_timestamp f = PyFloat timestamp /\
             transcript_excerpt f = take 200 text /\
             String.length (transcript_excerpt f) <= 200) /\
  (forall text', lower text' = lower text ->
                 map finding (_analyze_tone text' timestamp)
                 = map finding (_analyze_tone text timestamp)).
Proof.
  split; [|split; [|split]].
  - rewrite tone_parts, !filter_app.
    rewrite (filter_map_const is_negative_tone _ _ true) by reflexivity.
    rewrite (filter_map_const is_negative_tone _ _ false) by reflexivity.
    rewrite (filter_map_const is_negative_tone _ _ false) by reflexivity.
    rewrite !app_nil_r, map_map. reflexivity.
  - unfold _analyze_tone, negative_tone_flags, dismissive_flags, aggressive_flags.
    rewrite !length_app.
    pose proof (flat_map_cond_length
                  (fun indicator => contains indicator (lower text))
                  (fun indicator =>
                     tone_flag "negative_tone" "high"
                       ("Negative language detected: " ++ dquote ++ indicator
                        ++ dquote)%string text timestamp)
                  NEGATIVE_TONE_INDICATORS) as H1.
    pose proof (flat_map_cond_length
                  (fun pattern => search false pattern (lower text))
                  (fun _ => tone_flag "dismissive" "medium"
                              "Dismissive language detected" text timestamp)
                  DISMISSIVE_PATTERNS) as H2.
    pose proof (flat_map_cond_length
                  (fun pattern => search false pattern (lower text))
                  (fun _ => tone_flag "aggressive" "high"
                              "Aggressive or controlling language detected"
                              text timestamp) INTERRUPTION_PATTERNS) as H3.
    change (List.length NEGATIVE_TONE_INDICATORS) with 9 in H1.
    change (List.length DISMISSIVE_PATTERNS) with 4 in H2.
    change (List.length INTERRUPTION_PATTERNS) with 5 in H3.
    lia.
  - intros f. rewrite tone_parts, !in_app_iff, !in_map_iff.
    intros [[x [<- _]]|[[x [<- _]]|[x [<- _]]]]; cbn [tone_flag flag_timestamp
      transcript_excerpt]; (split; [reflexivity|]); (split; [reflexivity|]);
      apply take_length.
  - intros text' H. rewrite !tone_parts, !map_app, !map_map, H. reflexivity.
Qed.

Lemma tone_scan_flags_witness :
  lower "That's RIDICULOUS, come on. It does not matter!"
  = lower "that's ridiculous, Come On. it does NOT matter!" /\
  map finding (_analyze_tone "That's RIDICULOUS, come on. It does not matter!" 4)
  = map finding (_analyze_tone "that's ridiculous, Come On. it does NOT matter!" 4) /\
  map flag_type (_analyze_tone "That's RIDICULOUS, come on. It does not matter!" 4)
  = ["negative_tone"; "negative_tone"; "dismissive"].
Proof.
  assert (H : lower "That's RIDICULOUS, come on. It does not matter!"
              = lower "that's ridiculous, Come On. it does NOT matter!")
    by (vm_compute; reflexivity).
  split; [exact H|].
  split.
  - exact (proj2 (proj2 (proj2 (tone_scan_flags
             "that's ridiculous, Come On. it does NOT matter!" 4))) _ H).
  - vm_compute. reflexivity.
Defined.

(** *** The entry point *)

Lemma demeanor_core_parts_raise (transcript : pyval) (examiner : string) :
  succeeds (transcript_parts transcript) = false ->
  succeeds (demeanor_core transcript examiner) = false.
Proof.
  unfold transcript_parts, demeanor_core.
  destruct (get transcript "results" (PyDict [])) as [results|]; simpl;
    [|reflexivity].
  destruct (get results "items" (PyList [])) as [items|] eqn:Hi; simpl.
  - destruct (get results "speaker_labels" (PyDict [])) as [labels|]; simpl;
      [|reflexivity].
    destruct (get labels "segments" (PyList [])) as [segments|]; simpl;
      [|reflexivity].
    destruct (iter segments); simpl; [discriminate | reflexivity].
  - intros _. destruct results; try discriminate Hi; reflexivity.
Qed.

(** X9: A transcript whose segments cannot be read (not a dict, or with a
    'results', 'speaker_labels' or 'segments' entry of the wrong type) is
    not reported as a failure: the entry point returns status 'completed'
    with no declared test and no flag. *)
Theorem unreadable_transcript_reported_completed (detect_sentiment : sentiment_oracle)
  (now : Z) (session_id : string) (transcript_data : pyval) :
  succeeds (transcript_parts transcript_data) = false ->
  process_transcript_for_cme_analysis detect_sentiment now session_id transcript_data
  = {| session_id := session_id;
       declared_tests := [];
       demeanor_flags := [];
       processing_timestamp := now;
       status := "completed" |}.
Proof.
  intros H. unfold process_transcript_for_cme_analysis. f_equal.
  - unfold detect_declared_tests. rewrite detect_declared_tests_try_parts.
    destruct (transcript_parts transcript_data); [discriminate | reflexivity].
  - unfold analyze_examiner_demeanor. rewrite analyze_examiner_demeanor_try_core.
    pose proof (demeanor_core_parts_raise _ "speaker_0" H) as Hc.
    destruct (demeanor_core transcript_data "speaker_0");
      [discriminate | reflexivity].
Qed.

Lemma unreadable_transcript_reported_completed_witness :
  let broken := PyDict [("results", PyDict [("speaker_labels", PyNone)])] in
  succeeds (transcript_parts PyNone) = false /\
  succeeds (transcript_parts broken) = false /\
  status (process_transcript_for_cme_analysis always_negative 1700000000
            "cme_1" PyNone) = "completed" /\
  declared_tests (process_transcript_for_cme_analysis always_negative 1700000000
                    "cme_1" broken) = [].
Proof.
  set (broken := PyDict [("results", PyDict [("speaker_labels", PyNone)])]).
  assert (H1 : succeeds (transcript_parts PyNone) = false) by reflexivity.
  assert (H2 : succeeds (transcript_parts broken) = false) by reflexivity.
  split; [exact H1|]. split; [exact H2|].
  split.
  - rewrite (unreadable_transcript_reported_completed always_negative 1700000000
               "cme_1" PyNone H1). reflexivity.
  - rewrite (unreadable_transcript_reported_completed always_negative 1700000000
               "cme_1" broken H2). reflexivity.
Defined.

End ToneExtra.

(** ** The pattern matcher *)

Section Matcher.

Import Py Re.

Variable ic : bool.

Lemma matches_Fail (s : list ascii) : ~ matches ic Fail s.
Proof. intros H. inversion H. Qed.

Lemma matches_Eps (s : list ascii) : matches ic Eps s <-> s = [].
Proof.
  split; [intros H; now inversion H | intros ->; constructor].
Qed.

Lemma matches_Cat (r1 r2 : regex) (s : list ascii) :
  matches ic (Cat r1 r2) s <->
  exists s1 s2, s = s1 ++ s2 /\ matches ic r1 s1 /\ matches ic r2 s2.
Proof.
  split.
  - intros H. inversion H; subst. eauto.
  - intros [s1 [s2 [-> [H1 H2]]]]. now constructor.
Qed.

Lemma matches_Alt (r1 r2 : regex) (s : list ascii) :
  matches ic (Alt r1 r2) s <-> matches ic r1 s \/ matches ic r2 s.
Proof.
  split.
  - intros H. inversion H; subst; auto.
  - intros [H|H]; [now apply MAltL | now apply MAltR].
Qed.

Lemma nullable_spec (r : regex) : nullable r = true <-> matches ic r [].
Proof.
  induction r as [| |a|r1 IH1 r2 IH2|r1 IH1 r2 IH2|r IH]; simpl.
  - split; [discriminate | intros H; inversion H].
  - split; [constructor | reflexivity].
  - split; [discriminate | intros H; inversion H].
  - rewrite andb_true_iff, IH1, IH2, matches_Cat. split.
    + intros [H1 H2]. exists [], []. auto.
    + intros [s1 [s2 [E [H1 H2]]]]. symmetry in E.
      apply app_eq_nil in E as [-> ->]. auto.
  - rewrite orb_true_iff, IH1, IH2, matches_Alt. reflexivity.
  - split; [constructor | reflexivity].
Qed.

Lemma cat_spec (r1 r2 : regex) (s : list ascii) :
  matches ic (cat r1 r2) s <-> matches ic (Cat r1 r2) s.
Proof.
  destruct r1, r2; unfold cat; try reflexivity;
    try (split;
         [ intros H; inversion H
         | intros H; apply matches_Cat in H as [s1 [s2 [_ [H1 H2]]]];
           solve [inversion H1 | inversion H2] ]);
    try (split;
         [ intros H; apply matches_Cat; exists [], s;
           split; [reflexivity | split; [constructor | exact H]]
         | intros H; apply matches_Cat in H as [s1 [s2 [-> [H1 H2]]]];
           inversion H1; subst; exact H2 ]).
Qed.

Lemma alt_spec (r1 r2 : regex) (s : list ascii) :
  matches ic (alt r1 r2) s <-> matches ic (Alt r1 r2) s.
Proof.
  destruct r1, r2; unfold alt; try reflexivity;
    try (split;
         [ intros H; now apply MAltR
         | intros H; apply matches_Alt in H as [H|H]; [inversion H | exact H] ]);
    try (split;
         [ intros H; now apply MAltL
         | intros H; apply matches_Alt in H as [H|H]; [exact H | inversion H] ]).
Qed.

Lemma matches_Star_cons (r : regex) (c : ascii) (s : list ascii) :
  matches ic (Star r) (c :: s) ->
  exists s1 s2, s = s1 ++ s2 /\ matches ic r (c :: s1) /\ matches ic (Star r) s2.
Proof.
  intros H. remember (Star r) as r' eqn:Er. remember (c :: s) as w eqn:Ew.
  revert s Ew.
  induction H as [| | | | | |r0 s1 s2 H1 _ H2 IH2]; try discriminate.
  intros s Ew. injection Er as ->.
  destruct s1 as [|c1 s1]; simpl in Ew.
  - now apply IH2.
  - injection Ew as -> <-. eauto.
Qed.

Lemma deriv_spec (r : regex) (c : ascii) (s : list ascii) :
  matches ic (deriv ic c r) s <-> matches ic r (c :: s).
Proof.
  revert s. induction r as [| |a|r1 IH1 r2 IH2|r1 IH1 r2 IH2|r IH]; intros s;
    simpl.
  - split; intros H; inversion H.
  - split; intros H; inversion H.
  - destruct (accepts ic a c) eqn:E.
    + rewrite matches_Eps. split.
      * intros ->. now constructor.
      * intros H. now inversion H.
    + split; intros H; inversion H; congruence.
  - assert (Hcat : matches ic (cat (deriv ic c r1) r2) s <->
                   exists s1 s2, s = s1 ++ s2 /\ matches ic r1 (c :: s1)
                                 /\ matches ic r2 s2).
    { rewrite cat_spec, matches_Cat. split.
      - intros [s1 [s2 [E [H1 H2]]]]. apply IH1 in H1. eauto.
      - intros [s1 [s2 [E [H1 H2]]]]. apply IH1 in H1. eauto. }
    rewrite matches_Cat.
    destruct (nullable r1) eqn:N.
    + rewrite alt_spec, matches_Alt, Hcat, IH2. split.
      * intros [[s1 [s2 [-> [H1 H2]]]]|H].
        -- exists (c :: s1), s2. auto.
        -- apply nullable_spec in N. exists [], (c :: s). auto.
      * intros [[|c1 s1] [s2 [E [H1 H2]]]]; simpl in E.
        -- subst s2. now right.
        -- injection E as <- ->. left. eauto.
    + rewrite Hcat. split.
      * intros [s1 [s2 [-> [H1 H2]]]]. exists (c :: s1), s2. auto.
      * intros [[|c1 s1] [s2 [E [H1 H2]]]]; simpl in E.
        -- apply nullable_spec in H1. congruence.
        -- injection E as <- ->. eauto.
  - rewrite alt_spec, !matches_Alt, IH1, IH2. reflexivity.
  - rewrite cat_spec, matches_Cat. split.
    + intros [s1 [s2 [-> [H1 H2]]]]. apply IH in H1.
      change (c :: s1 ++ s2) with ((c :: s1) ++ s2). now constructor.
    + intros H. apply matches_Star_cons in H as [s1 [s2 [-> [H1 H2]]]].
      apply IH in H1. eauto.
Qed.

Lemma match_prefix_spec (r : regex) (s : string) :
  match_prefix ic r s = true <->
  exists m rest, list_ascii_of_string s = m ++ rest /\ matches ic r m.
Proof.
  revert r. induction s as [|c s IH]; intros r; simpl.
  - rewrite orb_false_r, nullable_spec. split.
    + intros H. exists [], []. auto.
    + intros [m [rest [E H]]]. symmetry in E.
      apply app_eq_nil in E as [-> _]. exact H.
  - rewrite orb_true_iff, nullable_spec, IH. split.
    + intros [H|[m [rest [E H]]]].
      * exists [], (c :: list_ascii_of_string s). auto.
      * apply deriv_spec in H. exists (c :: m), rest. rewrite E. auto.
    + intros [[|c1 m] [rest [E H]]]; simpl in E.
      * now left.
      * injection E as <- E. right. exists m, rest.
        split; [exact E|]. now apply deriv_spec.
Qed.

(** X10: [search] decides whether the text contains a piece that the pattern
    matches: it answers true exactly when the text splits into a part
    before, a part that belongs to the language of the pattern, and a
    part after. *)
Theorem search_finds_a_match (r : regex) (s : string) :
  search ic r s = true <->
  exists before m rest,
    list_ascii_of_string s = before ++ m ++ rest /\ matches ic r m.
Proof.
  induction s as [|c s IH]; simpl.
  - rewrite !orb_false_r, nullable_spec. split.
    + intros H. exists [], [], []. auto.
    + intros [before [m [rest [E H]]]]. symmetry in E.
      apply app_eq_nil in E as [_ E]. apply app_eq_nil in E as [-> _]. exact H.
  - rewrite orb_true_iff, IH.
    pose proof (match_prefix_spec r (String c s)) as P. simpl in P.
    rewrite P. split.
    + intros [[m [rest [E H]]]|[before [m [rest [E H]]]]].
      * exists [], m, rest. auto.
      * exists (c :: before), m, rest. rewrite E. auto.
    + intros [[|c1 before] [m [rest [E H]]]]; simpl in E.
      * left. eauto.
      * injection E as <- E. right. eauto.
Qed.

End Matcher.

(** ** Further properties of the report *)

Section ReportExtra.

Import Py Report ReportData SpecReport.

Lemma filterM_disjoint_length {A : Type} (c1 c2 : A -> result bool) (l k1 k2 : list A) :
  (forall x, c1 x = Ok true -> c2 x = Ok true -> False) ->
  filterM c1 l = Ok k1 -> filterM c2 l = Ok k2 ->
  List.length k1 + List.length k2 <= List.length l.
Proof.
  intros Hd. revert k1 k2.
  induction l as [|a l IH]; intros k1 k2; simpl.
  - intros [= <-] [= <-]. simpl. lia.
  - destruct (c1 a) as [b1|] eqn:E1; simpl; [|discriminate].
    destruct (filterM c1 l) as [r1|]; simpl; [|discriminate].
    destruct (c2 a) as [b2|] eqn:E2; simpl; [|discriminate].
    destruct (filterM c2 l) as [r2|]; simpl; [|discriminate].
    intros [= <-] [= <-]. specialize (IH r1 r2 eq_refl eq_refl).
    destruct b1, b2; simpl; try lia.
    exfalso. exact (Hd a E1 E2).
Qed.

(** X11: The boxes of the executive summary are consistent: no step is counted
    both as performed and as not observed, so the two counts add up to at
    most the number of declared tests. *)
Theorem summary_counts_bounded (step_actions : actions)
  (declared_steps : list string) (performed not_performed : nat) :
  tests_performed step_actions declared_steps = Ok performed ->
  tests_not_performed step_actions declared_steps = Ok not_performed ->
  performed + not_performed <= List.length declared_steps.
Proof.
  unfold tests_performed, tests_not_performed, count_steps.
  destruct (filterM (is_performed step_actions) declared_steps) as [k1|] eqn:E1;
    simpl; [|discriminate].
  destruct (filterM (is_not_observed step_actions) declared_steps) as [k2|] eqn:E2;
    simpl; [|discriminate].
  intros [= <-] [= <-].
  apply (filterM_disjoint_length (is_performed step_actions)
           (is_not_observed step_actions) declared_steps k1 k2); auto.
  intros x H1 H2. unfold is_performed, is_not_observed in *.
  destruct (get (action_of step_actions x) "motion_present" PyNone) as [m|];
    simpl in *; [|discriminate].
  injection H1 as H1. injection H2 as H2.
  destruct m; try discriminate. simpl in *.
  apply String.eqb_eq in H1, H2. congruence.
Qed.

Lemma summary_counts_bounded_witness :
  let step_actions := [("step_1", action_with "step_1" "performed" "full_match");
                       ("step_2", action_with "step_2" "brief" "partial");
                       ("step_3", action_with "step_3" "not_observed" "no_match")] in
  let declared_steps := ["step_1"; "step_2"; "step_3"; "step_4"] in
  tests_performed step_actions declared_steps = Ok 1 /\
  tests_not_performed step_actions declared_steps = Ok 1 /\
  1 + 1 <= List.length declared_steps.
Proof.
  set (step_actions :=
         [("step_1", action_with "step_1" "performed" "full_match");
          ("step_2", action_with "step_2" "brief" "partial");
          ("step_3", action_with "step_3" "not_observed" "no_match")]).
  set (declared_steps := ["step_1"; "step_2"; "step_3"; "step_4"]).
  assert (H1 : tests_performed step_actions declared_steps = Ok 1) by reflexivity.
  assert (H2 : tests_not_performed step_actions declared_steps = Ok 1)
    by reflexivity.
  split; [exact H1|]. split; [exact H2|].
  exact (summary_counts_bounded _ _ _ _ H1 H2).
Defined.

(** X12: The summary and the timeline agree on a step: one counted as not
    observed is shown as "Not Observed" and flagged, one counted as
    performed is shown as "Performed" and not flagged; a step whose action
    says 'brief' is flagged in the timeline but counted in neither box. *)
Theorem summary_agrees_with_timeline (step_actions : actions) (step_id : string) :
  (is_not_observed step_actions step_id = Ok true ->
   timeline_item_of step_actions step_id
   = Ok {| motion_present := PyStr "not_observed"; discrepancy := true;
           discrepancy_class := "discrepancy";
           observed_action := "Not Observed" |}) /\
  (is_performed step_actions step_id = Ok true ->
   timeline_item_of step_actions step_id
   = Ok {| motion_present := PyStr "performed"; discrepancy := false;
           discrepancy_class := ""; observed_action := "Performed" |}) /\
  (get (action_of step_actions step_id) "motion_present" PyNone = Ok (PyStr "brief") ->
   timeline_item_of step_actions step_id
   = Ok {| motion_present := PyStr "brief"; discrepancy := true;
           discrepancy_class := "discrepancy"; observed_action := "Brief" |} /\
   is_performed step_actions step_id = Ok false /\
   is_not_observed step_actions step_id = Ok false).
Proof.
  unfold is_not_observed, is_performed, timeline_item_of, get.
  destruct (action_of step_actions step_id) as [| | | | | |d];
    try (repeat split; discriminate).
  destruct (assoc "motion_present" d) as [m|]; simpl.
  - split; [|split].
    + intros [= H]. destruct m; try discriminate. simpl in H.
      apply String.eqb_eq in H. subst. reflexivity.
    + intros [= H]. destruct m; try discriminate. simpl in H.
      apply String.eqb_eq in H. subst. reflexivity.
    + intros [= ->]. repeat split; reflexivity.
  - repeat split; discriminate.
Qed.

Lemma summary_agrees_with_timeline_witness :
  let step_actions := [("step_2", action_with "step_2" "brief" "partial")] in
  get (action_of step_actions "step_2") "motion_present" PyNone
    = Ok (PyStr "brief") /\
  timeline_item_of step_actions "step_2"
  = Ok {| motion_present := PyStr "brief"; discrepancy := true;
          discrepancy_class := "discrepancy"; observed_action := "Brief" |} /\
  tests_performed step_actions ["step_2"] = Ok 0 /\
  tests_not_performed step_actions ["step_2"] = Ok 0.
Proof.
  set (step_actions := [("step_2", action_with "step_2" "brief" "partial")]).
  assert (H : get (action_of step_actions "step_2") "motion_present" PyNone
              = Ok (PyStr "brief")) by reflexivity.
  split; [exact H|].
  destruct (summary_agrees_with_timeline step_actions "step_2") as [_ [_ Hb]].
  destruct (Hb H) as [Hitem _].
  split; [exact Hitem|]. split; reflexivity.
Defined.

(** *** Quotations *)

Lemma append_length (s1 s2 : string) :
  String.length (s1 ++ s2) = String.length s1 + String.length s2.
Proof.
  induction s1 as [|c s1 IH]; simpl; [reflexivity|]. now rewrite IH.
Qed.

Lemma append_empty_r (s : string) : (s ++ "")%string = s.
Proof.
  induction s as [|c s IH]; simpl; [reflexivity|]. now rewrite IH.
Qed.

(** X13: A transcript or excerpt quoted in the report is shown whole when it
    has at most [limit] characters; a longer one is cut to its first
    [limit] characters followed by "...", so that never more than
    [limit + 3] characters are shown. *)
Theorem quoted_text_bounded (limit : nat) (s : string) :
  (len s <= limit -> quoted limit s = s) /\
  (limit < len s -> quoted limit s = (take limit s ++ "...")%string) /\
  len (quoted limit s) <= limit + 3 /\
  String.prefix (take limit s) (quoted limit s) = true.
Proof.
  unfold quoted, len.
  assert (Hp : forall t, String.prefix (take limit s) (take limit s ++ t) = true).
  { intros t. induction (take limit s) as [|c u IH]; simpl.
    - now destruct t.
    - destruct (ascii_dec c c); [exact IH | congruence]. }
  split; [|split; [|split]].
  - intros H. apply Nat.ltb_ge in H. rewrite H, append_empty_r.
    apply take_short. now apply Nat.ltb_ge.
  - intros H. apply Nat.ltb_lt in H. now rewrite H.
  - rewrite append_length. pose proof (take_length limit s) as H.
    destruct (limit <? String.length s)%nat; simpl; lia.
  - apply Hp.
Qed.

Lemma quoted_text_bounded_witness :
  len "Bend forward" <= 200 /\ quoted 200 "Bend forward" = "Bend forward" /\
  3 < len "Bend forward" /\ quoted 3 "Bend forward" = "Ben...".
Proof.
  assert (H1 : len "Bend forward" <= 200) by (vm_compute; lia).
  assert (H2 : 3 < len "Bend forward") by (vm_compute; lia).
  split; [exact H1|].
  split; [exact (proj1 (quoted_text_bounded 200 "Bend forward") H1)|].
  split; [exact H2|].
  rewrite (proj1 (proj2 (quoted_text_bounded 3 "Bend forward")) H2). reflexivity.
Defined.

End ReportExtra.

(** ** The actions of a report and the verdicts of the video comparison *)

Section DataExtra.

Import Py Report ReportData SpecReport Video.

Lemma assoc_dict_set {A : Type} (key k : string) (v : A) (d : list (string * A)) :
  assoc key (dict_set k v d) = if String.eqb key k then Some v else assoc key d.
Proof.
  induction d as [|[k' x] d IH]; simpl.
  - reflexivity.
  - destruct (String.eqb k k') eqn:E; simpl.
    + apply String.eqb_eq in E. subst k'.
      destruct (String.eqb key k); reflexivity.
    + rewrite IH. destruct (String.eqb key k') eqn:E'; [|reflexivity].
      apply String.eqb_eq in E'. subst k'.
      destruct (String.eqb key k) eqn:E''; [|reflexivity].
      apply String.eqb_eq in E''. subst. rewrite String.eqb_refl in E.
      discriminate.
Qed.

Lemma find_snoc {A : Type} (p : A -> bool) (l : list A) (a : A) :
  find p (l ++ [a])
  = match find p l with
    | Some x => Some x
    | None => if p a then Some a else None
    end.
Proof.
  induction l as [|b l IH]; simpl; [reflexivity|].
  destruct (p b); [reflexivity | exact IH].
Qed.

Lemma record_action_assoc (step_id : string) (acc acc' : actions) (action : pyval) :
  step_id <> "" ->
  record_action acc action = Ok acc' ->
  assoc step_id acc'
  = if refers_to step_id action then Some action else assoc step_id acc.
Proof.
  intros Hne. unfold record_action, refers_to.
  destruct (get action "declared_step_id" PyNone) as [v|]; simpl; [|discriminate].
  destruct v as [|b|z|f|s|l|d]; simpl.
  - now intros [= <-].
  - destruct b; now intros [= <-].
  - destruct (negb (z =? 0)%Z); now intros [= <-].
  - destruct (negb (PrimFloat.eqb f 0)); now intros [= <-].
  - destruct (String.eqb s "") eqn:E; simpl.
    + apply String.eqb_eq in E. subst s. intros [= <-].
      destruct (String.eqb "" step_id) eqn:E'; [|reflexivity].
      apply String.eqb_eq in E'. congruence.
    + intros [= <-]. rewrite assoc_dict_set, (String.eqb_sym step_id s).
      reflexivity.
  - destruct l; [now intros [= <-] | discriminate].
  - destruct d; [now intros [= <-] | discriminate].
Qed.

Lemma build_loop_assoc (step_id : string) (all_actions : list pyval)
  (acc step_actions : actions) :
  step_id <> "" ->
  foldM record_action all_actions acc = Ok step_actions ->
  assoc step_id step_actions
  = match find_last (refers_to step_id) all_actions with
    | Some action => Some action
    | None => assoc step_id acc
    end.
Proof.
  intros Hne. revert acc.
  induction all_actions as [|a l IH]; intros acc; simpl.
  - now intros [= <-].
  - destruct (record_action acc a) as [acc'|] eqn:Ha; simpl; [|discriminate].
    intros Hloop. rewrite (IH _ Hloop).
    unfold find_last. simpl. rewrite find_snoc.
    destruct (find (refers_to step_id) (rev l)); [reflexivity|].
    rewrite (record_action_assoc _ _ _ _ Hne Ha).
    now destruct (refers_to step_id a).
Qed.

(** X14: When several observed actions refer to the same declared step, the
    report uses the last one of the scan; a step no action refers to has
    no action. *)
Theorem step_actions_keep_last (all_actions : list pyval) (step_actions : actions)
  (step_id : string) :
  step_id <> "" ->
  build_step_actions all_actions = Ok step_actions ->
  assoc step_id step_actions = find_last (refers_to step_id) all_actions.
Proof.
  intros Hne H. rewrite (build_loop_assoc _ _ _ _ Hne H).
  now destruct (find_last (refers_to step_id) all_actions).
Qed.

Lemma step_actions_keep_last_witness :
  let all_actions := [action_with "step_1" "not_observed" "no_match";
                      action_with "step_2" "performed" "full_match";
                      PyDict [("observed_action_id", PyStr "action_x")];
                      action_with "step_1" "performed" "partial"] in
  "step_1" <> "" /\
  succeeds (build_step_actions all_actions) = true /\
  (forall step_actions,
      build_step_actions all_actions = Ok step_actions ->
      assoc "step_1" step_actions
        = Some (action_with "step_1" "performed" "partial") /\
      assoc "step_3" step_actions = None).
Proof.
  set (all_actions := [action_with "step_1" "not_observed" "no_match";
                       action_with "step_2" "performed" "full_match";
                       PyDict [("observed_action_id", PyStr "action_x")];
                       action_with "step_1" "performed" "partial"]).
  assert (H1 : "step_1" <> "") by discriminate.
  assert (H3 : "step_3" <> "") by discriminate.
  split; [exact H1|]. split; [reflexivity|].
  intros step_actions H.
  rewrite (step_actions_keep_last _ _ "step_1" H1 H).
  rewrite (step_actions_keep_last _ _ "step_3" H3 H).
  split; reflexivity.
Defined.

(** X15: The comparison with the expectations can only say 'performed' (when
    both analysis jobs report COMPLETED) or 'unknown' (otherwise): it
    never says 'brief' or 'not_observed', so a step whose action carries
    its verdict is never flagged as a discrepancy in the report. *)
Theorem comparison_never_discrepant (motion_analysis pose_analysis expectations
  verdict : pyval) :
  _compare_with_expectations motion_analysis pose_analysis expectations
    = Ok verdict ->
  exists m,
    get verdict "motion_present" (PyStr "unknown") = Ok (PyStr m) /\
    (m = "performed" \/ m = "unknown") /\
    (m = "performed" <->
     get motion_analysis "status" PyNone = Ok (PyStr "COMPLETED") /\
     get pose_analysis "status" PyNone = Ok (PyStr "COMPLETED")) /\
    (forall step_id,
        exists item,
          timeline_item_of [(step_id, verdict)] step_id = Ok item /\
          discrepancy item = false /\
          tests_not_performed [(step_id, verdict)] [step_id] = Ok 0).
Proof.
  unfold _compare_with_expectations.
  assert (Heq : forall v, eq_str v "COMPLETED" = true <-> v = PyStr "COMPLETED").
  { intros v. destruct v; simpl; try (split; discriminate).
    rewrite String.eqb_eq. split; [now intros -> | now intros [= ->]]. }
  destruct (get motion_analysis "status" PyNone) as [ms|] eqn:Hm; simpl;
    [|discriminate].
  destruct (eq_str ms "COMPLETED") eqn:Ems.
  - destruct (get pose_analysis "status" PyNone) as [ps|] eqn:Hp; simpl;
      [|discriminate].
    destruct (get expectations "expected_movements" (PyList [])); simpl;
      [|discriminate].
    destruct (get expectations "patient_motion_required" (PyBool false)); simpl;
      [|discriminate].
    destruct (get expectations "examiner_touch" (PyBool false)); simpl;
      [|discriminate].
    intros [= <-].
    apply Heq in Ems. subst ms.
    destruct (eq_str ps "COMPLETED") eqn:Eps.
    + apply Heq in Eps. subst ps.
      exists "performed". split; [reflexivity|]. split; [now left|].
      split; [tauto|].
      intros step_id. unfold timeline_item_of, tests_not_performed, count_steps,
        is_not_observed, action_of. simpl. rewrite String.eqb_refl. simpl.
      eexists. repeat split.
    + exists "unknown". split; [reflexivity|]. split; [now right|].
      split.
      * split; [discriminate|]. intros [_ [= ->]]. discriminate Eps.
      * intros step_id. unfold timeline_item_of, tests_not_performed, count_steps,
          is_not_observed, action_of. simpl. rewrite String.eqb_refl. simpl.
        eexists. repeat split.
  - simpl.
    destruct (get expectations "expected_movements" (PyList [])); simpl;
      [|discriminate].
    destruct (get expectations "patient_motion_required" (PyBool false)); simpl;
      [|discriminate].
    destruct (get expectations "examiner_touch" (PyBool false)); simpl;
      [|discriminate].
    intros [= <-].
    exists "unknown". split; [reflexivity|]. split; [now right|].
    split.
    + split; [discriminate|]. intros [[= ->] _]. discriminate Ems.
    + intros step_id. unfold timeline_item_of, tests_not_performed, count_steps,
        is_not_observed, action_of. simpl. rewrite String.eqb_refl. simpl.
      eexists. repeat split.
Qed.

Lemma comparison_never_discrepant_witness :
  let done := PyDict [("status", PyStr "COMPLETED"); ("results", PyDict [])] in
  let running := PyDict [("job_id", PyStr "j1"); ("status", PyStr "IN_PROGRESS")] in
  let expectations :=
    PyDict [("expected_movements", PyList [PyStr "leg_raise"; PyStr "hip_flexion"]);
            ("patient_motion_required", PyBool true);
            ("examiner_touch", PyBool true)] in
  succeeds (_compare_with_expectations done running expectations) = true /\
  (forall verdict,
      _compare_with_expectations done running expectations = Ok verdict ->
      get verdict "motion_present" (PyStr "unknown") = Ok (PyStr "unknown") /\
      exists item,
        timeline_item_of [("step_1", verdict)] "step_1" = Ok item /\
        discrepancy item = false).
Proof.
  cbv zeta. split; [reflexivity|].
  intros verdict H.
  destruct (comparison_never_discrepant _ _ _ _ H) as [m [Hg [_ [Hiff Hstep]]]].
  split.
  - injection H as <-. reflexivity.
  - destruct (Hstep "step_1") as [item [Hi [Hd _]]]. eauto.
Defined.

End DataExtra.

(** ** Recording rules, recording locations and the video analysis *)

Section HandlerExtra.

Import Py Handler.

Lemma upper_ascii_idem (c : ascii) : upper_ascii (upper_ascii c) = upper_ascii c.
Proof.
  destruct c as [[] [] [] [] [] [] [] []]; vm_compute; reflexivity.
Qed.

Lemma upper_idem (s : string) : upper (upper s) = upper s.
Proof.
  induction s as [|c s IH]; simpl; [reflexivity|].
  now rewrite upper_ascii_idem, IH.
Qed.

(** The rules of a state, by cases on its upper-case name. *)
Lemma rules_for_cases (state : string) :
  (upper state = "FL" /\ rules_for state
     = {| video := true; audio := true; mode := "Full Record";
          rule := "Rule 1.360" |}) \/
  (upper state = "PA" /\ rules_for state
     = {| video := false; audio := true; mode := "Audio Only";
          rule := "Pennsylvania law" |}) \/
  (upper state = "CA" /\ rules_for state
     = {| video := true; audio := true; mode := "Full Record";
          rule := "CCP §2032.320" |}) \/
  (upper state = "TX" /\ rules_for state
     = {| video := false; audio := false; mode := "Ephemeral";
          rule := "Texas Civil Practice" |}) \/
  (upper state <> "FL" /\ upper state <> "PA" /\ upper state <> "CA" /\
   upper state <> "TX" /\ rules_for state = DEFAULT_RULES).
Proof.
  unfold rules_for, STATE_RECORDING_RULES. cbn [assoc].
  destruct (String.eqb_spec (upper state) "FL") as [E1|N1]; [now left|].
  destruct (String.eqb_spec (upper state) "PA") as [E2|N2]; [now right; left|].
  destruct (String.eqb_spec (upper state) "CA") as [E3|N3];
    [now right; right; left|].
  destruct (String.eqb_spec (upper state) "TX") as [E4|N4];
    [now right; right; right; left|].
  right; right; right; right.
  destruct (String.eqb_spec (upper state) "DEFAULT"); repeat split; auto.
Qed.

(** X16: A session is created with the rules of its state whatever the letter
    case of the state name; video may be recorded only in FL and CA, audio
    only in FL, PA and CA, and any other state gets the ephemeral default;
    wherever video is allowed audio is too, and the mode says which:
    'Full Record' with video, 'Audio Only' with audio alone, 'Ephemeral'
    with neither. *)
Theorem session_rules_by_state (uuid_hex : string) (now : Z)
  (patient_id doctor_name state : string) (video_uri consent_hash : option string) :
  let session := create_exam_session uuid_hex now patient_id doctor_name state
                   video_uri consent_hash in
  let rules := recording_allowed session in
  session = create_exam_session uuid_hex now patient_id doctor_name (upper state)
              video_uri consent_hash /\
  Handler.state session = upper state /\
  session_mode session = mode rules /\
  (video rules = true <-> upper state = "FL" \/ upper state = "CA") /\
  (audio rules = true <->
   upper state = "FL" \/ upper state = "PA" \/ upper state = "CA") /\
  (video rules = true -> audio rules = true) /\
  (mode rules = "Full Record" <-> video rules = true) /\
  (mode rules = "Audio Only" <-> audio rules = true /\ video rules = false) /\
  (mode rules = "Ephemeral" <-> audio rules = false).
Proof.
  cbv zeta. unfold create_exam_session.
  cbn [recording_allowed Handler.state session_mode].
  split; [|split; [reflexivity|split; [reflexivity|]]].
  - unfold rules_for. now rewrite !upper_idem.
  - destruct (rules_for_cases state)
      as [[E ->]|[[E ->]|[[E ->]|[[E ->]|[N1 [N2 [N3 [N4 ->]]]]]]]];
      cbn [video audio mode DEFAULT_RULES]; rewrite ?E;
      repeat split; try discriminate; try tauto; auto;
      try (intros [H|H]; discriminate H);
      try (intros [H|[H|H]]; discriminate H);
      try (intros [H _]; discriminate H);
      try (intros [_ H]; discriminate H);
      try (intros [H|H]; congruence);
      try (intros [H|[H|H]]; congruence).
Qed.

Lemma session_rules_by_state_witness :
  let session := create_exam_session "0123456789abcdef0123456789abcdef" 1700000000
                   "patient_7" "Dr. Grey" "pa" None None in
  video (recording_allowed session) = false /\
  audio (recording_allowed session) = true /\
  session_mode session = "Audio Only" /\
  Handler.state session = "PA" /\
  Handler.session_id session = "cme_0123456789ab".
Proof.
  cbv zeta.
  destruct (session_rules_by_state "0123456789abcdef0123456789abcdef" 1700000000
              "patient_7" "Dr. Grey" "pa" None None)
    as [_ [Hs [Hm [_ [_ [_ [_ [Ha _]]]]]]]].
  assert (Hmode : session_mode
                    (create_exam_session "0123456789abcdef0123456789abcdef"
                       1700000000 "patient_7" "Dr. Grey" "pa" None None)
                  = "Audio Only") by reflexivity.
  rewrite Hm in Hmode. destruct (proj1 Ha Hmode) as [H1 H2].
  split; [exact H2|]. split; [exact H1|].
  split; [rewrite Hm; exact Hmode|]. split; [exact Hs | reflexivity].
Defined.

(** *** Locations *)

Lemma has_char_append (c : ascii) (s1 s2 : string) :
  has_char c (s1 ++ s2) = has_char c s1 || has_char c s2.
Proof.
  induction s1 as [|x s1 IH]; simpl; [reflexivity|].
  now rewrite IH, orb_assoc.
Qed.

Lemma last_part_no_sep (sep : ascii) (s : string) :
  has_char sep (last_part sep s) = false.
Proof.
  induction s as [|c s IH]; simpl; [reflexivity|].
  destruct (has_char sep s) eqn:E; [exact IH|].
  destruct (Ascii.eqb c sep) eqn:Ec; [exact E|].
  simpl. now rewrite Ec, E.
Qed.

Lemma last_part_has_char (sep c : ascii) (s : string) :
  has_char c s = false -> has_char c (last_part sep s) = false.
Proof.
  induction s as [|x s IH]; simpl; [reflexivity|].
  intros H. apply orb_false_iff in H as [Hx Hs].
  destruct (has_char sep s); [now apply IH|].
  destruct (Ascii.eqb x sep); [exact Hs|].
  simpl. now rewrite Hx, Hs.
Qed.

Lemma last_part_append (sep : ascii) (stem ext : string) :
  has_char sep ext = false ->
  last_part sep (stem ++ String sep ext) = ext.
Proof.
  intros H. induction stem as [|c stem IH]; simpl.
  - now rewrite H, Ascii.eqb_refl.
  - rewrite has_char_append. simpl. rewrite Ascii.eqb_refl, orb_true_r.
    exact IH.
Qed.

(** X17: The extension of an uploaded file is what follows the last dot of its
    name, and 'mp4' for a name without dot; it never contains a dot. *)
Theorem file_extension_after_last_dot (filename : string) :
  has_char "." (file_extension filename) = false /\
  (has_char "." filename = false -> file_extension filename = "mp4") /\
  (forall stem ext,
      filename = (stem ++ "." ++ ext)%string ->
      has_char "." ext = false ->
      file_extension filename = ext).
Proof.
  unfold file_extension. split; [|split].
  - destruct (has_char "." filename); [apply last_part_no_sep | reflexivity].
  - now intros ->.
  - intros stem ext -> H.
    rewrite has_char_append. simpl. rewrite orb_true_r.
    now apply last_part_append.
Qed.

Lemma file_extension_after_last_dot_witness :
  file_extension "exam.2024.MOV" = "MOV" /\
  has_char "." "recording" = false /\
  file_extension "recording" = "mp4" /\
  file_extension "recording." = "".
Proof.
  destruct (file_extension_after_last_dot "exam.2024.MOV") as [_ [_ H]].
  split; [exact (H "exam.2024" "MOV" eq_refl eq_refl)|].
  assert (Hn : has_char "." "recording" = false) by reflexivity.
  split; [exact Hn|].
  split; [exact (proj1 (proj2 (file_extension_after_last_dot "recording")) Hn)|].
  reflexivity.
Defined.

Lemma prefix_split (a t : string) :
  String.prefix a t = true -> exists b, t = (a ++ b)%string.
Proof.
  revert t. induction a as [|c a IH]; intros t; simpl.
  - intros _. now exists t.
  - destruct t as [|x t]; simpl; [discriminate|].
    destruct (ascii_dec c x) as [->|]; [|discriminate].
    intros H. destruct (IH _ H) as [b ->]. now exists b.
Qed.

Lemma remove_all_no_colon (s : string) :
  has_char ":" s = false -> remove_all "s3://" s = s.
Proof.
  unfold remove_all. induction s as [|c s IH]; [reflexivity|].
  intros H. cbn [remove_from].
  destruct (String.prefix "s3://" (String c s)) eqn:P.
  - apply prefix_split in P as [b E]. rewrite E in H. simpl in H.
    discriminate H.
  - simpl in H. apply orb_false_iff in H as [_ H]. now rewrite (IH H).
Qed.

Lemma split_once_append (sep : ascii) (a b : string) :
  has_char sep a = false ->
  split_once sep (a ++ String sep b) = Some (a, b).
Proof.
  induction a as [|c a IH]; simpl.
  - now rewrite Ascii.eqb_refl.
  - intros H. apply orb_false_iff in H as [Hc Ha].
    now rewrite Hc, (IH Ha).
Qed.

(** X18: The location the upload handler stores for a recording is read back
    unchanged when transcription starts: for a bucket name without '/'
    and without ':' and a session id and file name without ':', the URI
    [s3://bucket/cme-recordings/<session>/recording.<ext>] is split into
    that bucket and that key, and the media URI of the job is the stored
    URI. *)
Theorem recording_location_round_trip (S3_BUCKET bucket session_id filename
  : string) :
  has_char "/" bucket = false ->
  has_char ":" bucket = false ->
  has_char ":" session_id = false ->
  has_char ":" filename = false ->
  let key := recording_key session_id filename in
  media_location S3_BUCKET (recording_uri bucket key) = Ok (bucket, key) /\
  media_file_uri (bucket, key) = recording_uri bucket key.
Proof.
  intros Hslash Hb Hs Hf key. split; [|reflexivity].
  assert (Hkey : has_char ":" key = false).
  { unfold key, recording_key. rewrite !has_char_append, Hs. simpl.
    unfold file_extension.
    destruct (has_char "." filename); [|reflexivity].
    now apply last_part_has_char. }
  assert (Hpre : forall a b, String.prefix a (a ++ b)%string = true).
  { intros a b. induction a as [|c a IH]; simpl; [now destruct b|].
    destruct (ascii_dec c c); [exact IH | congruence]. }
  unfold media_location, recording_uri. rewrite Hpre.
  assert (Hrm : forall rest, remove_all "s3://" ("s3://" ++ rest)%string
                             = remove_all "s3://" rest).
  { intros rest. unfold remove_all.
    pose proof (Hpre "s3://" rest) as Hp. cbn [append] in Hp |- *.
    cbn [remove_from]. rewrite Hp. reflexivity. }
  rewrite Hrm, remove_all_no_colon.
  - change (bucket ++ "/" ++ key)%string with (bucket ++ String "/" key)%string.
    now rewrite (split_once_append "/" bucket key Hslash).
  - rewrite has_char_append, Hb. simpl. exact Hkey.
Qed.

Lemma recording_location_round_trip_witness :
  recording_uri "eve-legal-documents" (recording_key "cme_0123456789ab" "exam.mov")
  = "s3://eve-legal-documents/cme-recordings/cme_0123456789ab/recording.mov" /\
  media_location "other-bucket"
    "s3://eve-legal-documents/cme-recordings/cme_0123456789ab/recording.mov"
  = Ok ("eve-legal-documents", "cme-recordings/cme_0123456789ab/recording.mov") /\
  media_location "other-bucket" "s3://bucket-without-key" = Raise ValueError /\
  media_location "other-bucket" "uploads/exam.mov"
  = Ok ("other-bucket", "uploads/exam.mov").
Proof.
  assert (E : recording_uri "eve-legal-documents"
                (recording_key "cme_0123456789ab" "exam.mov")
              = "s3://eve-legal-documents/cme-recordings/cme_0123456789ab/recording.mov")
    by reflexivity.
  split; [exact E|].
  split.
  - rewrite <- E.
    exact (proj1 (recording_location_round_trip "other-bucket"
                    "eve-legal-documents" "cme_0123456789ab" "exam.mov"
                    eq_refl eq_refl eq_refl eq_refl)).
  - split; reflexivity.
Defined.

End HandlerExtra.

Section VideoExtra.

Import Py Video VideoSegment.

Lemma expectations_are_dicts (test_type : string) :
  exists d,
    match assoc test_type TEST_MOTION_EXPECTATIONS with
    | Some e => e
    | None => PyDict []
    end = PyDict d.
Proof.
  destruct (assoc test_type TEST_MOTION_EXPECTATIONS) as [e|] eqn:E;
    [|now exists []].
  apply assoc_In in E. simpl in E.
  repeat (destruct E as [E|E]; [injection E as _ <-; eexists; reflexivity|]).
  contradiction.
Qed.

(** X19: The analysis of a video segment never decides: whatever the video
    service answers and whatever the test type, the comparison it returns
    says motion 'unknown', pose 'unknown' and confidence 0.5, because the
    jobs it has just started are IN_PROGRESS at best; its analysis status
    is 'pending' exactly when the motion job could be started. *)
Theorem video_analysis_never_decides (start_label_detection start_person_tracking
  : start_job) (s3_bucket segment_s3_key test_type : string) :
  exists comparison,
    get (analyze_video_segment start_label_detection start_person_tracking
           s3_bucket segment_s3_key test_type) "comparison" PyNone
      = Ok comparison /\
    get comparison "motion_present" PyNone = Ok (PyStr "unknown") /\
    get comparison "pose_match" PyNone = Ok (PyStr "unknown") /\
    get comparison "confidence_score" PyNone = Ok (PyFloat 0.5) /\
    (get comparison "analysis_status" PyNone = Ok (PyStr "pending") <->
     exists response job_id,
       start_label_detection s3_bucket segment_s3_key = Returned response /\
       assoc "JobId" response = Some job_id).
Proof.
  unfold analyze_video_segment.
  destruct (expectations_are_dicts test_type) as [d ->].
  unfold _analyze_motion_rekognition, _detect_poses_rekognition, start_analysis.
  destruct (start_label_detection s3_bucket segment_s3_key) as [response|msg].
  - destruct (assoc "JobId" response) as [job_id|] eqn:EJ.
    + eexists. split; [reflexivity|]. simpl.
      repeat (split; [reflexivity|]).
      split; [intros _; exists response, job_id; auto | reflexivity].
    + eexists. split; [reflexivity|]. simpl.
      repeat (split; [reflexivity|]).
      split; [discriminate|]. intros [r [j [[= <-] H]]]. congruence.
  - eexists. split; [reflexivity|]. simpl.
    repeat (split; [reflexivity|]).
    split; [discriminate|]. intros [r [j [H _]]]. discriminate H.
Qed.

End VideoExtra.

(** ** Further properties of the segment text extractor and of the keyword
       test *)

Section TextExtra.

Import Py Re Nlp Spec.

Lemma words_loop_raise (s e : float) (before after : list pyval) (item : pyval)
  (x : exn) :
  forallb (well_formed_item s e) before = true ->
  item_words s e item = Raise x ->
  foldM (fun words it => w <- item_words s e it ;; Ok (words ++ w))
    (before ++ item :: after) []
  = Raise x.
Proof.
  intros Hb Hi. rewrite foldM_app, (words_loop _ _ _ [] Hb). simpl.
  now rewrite Hi.
Qed.

(** X20: A word of the window whose list of alternatives is empty makes the
    extractor raise [IndexError], whereas a word of the window with no
    'alternatives' entry at all is accepted and contributes an empty
    word. *)
Theorem empty_alternatives_raise (segment : pyval) (before after : list pyval)
  (d : list (string * pyval)) (start_time end_time t : float) :
  float_field segment "start_time" = Ok start_time ->
  float_field segment "end_time" = Ok end_time ->
  forallb (well_formed_item start_time end_time) before = true ->
  is_lexical (PyDict d) = true ->
  float_field (PyDict d) "start_time" = Ok t ->
  PrimFloat.leb start_time t && PrimFloat.leb t end_time = true ->
  (assoc "alternatives" d = Some (PyList []) ->
   _get_segment_text segment (PyList (before ++ PyDict d :: after))
   = Raise IndexError) /\
  (assoc "alternatives" d = None ->
   well_formed_item start_time end_time (PyDict d) = true /\
   in_window start_time end_time (PyDict d) = true /\
   item_content (PyDict d) = "").
Proof.
  intros Hs He Hb Hlex Ht Hwin.
  assert (Hty : exists ty, get (PyDict d) "type" PyNone = Ok ty /\
                           eq_str ty "pronunciation" = true).
  { unfold is_lexical in Hlex.
    destruct (get (PyDict d) "type" PyNone) as [ty|]; [|discriminate]. eauto. }
  destruct Hty as [ty [Hty Hpron]].
  split.
  - intros Halt.
    unfold _get_segment_text. rewrite Hs, He. cbn [bind iter].
    rewrite (words_loop_raise _ _ before after (PyDict d) IndexError Hb);
      [reflexivity|].
    unfold item_words. rewrite Hty. cbn [bind]. rewrite Hpron, Ht. cbn [bind].
    rewrite Hwin. unfold get. rewrite Halt. reflexivity.
  - intros Halt.
    unfold well_formed_item, in_window, is_lexical, item_start, item_content,
      content_lookup.
    rewrite Hty, Hpron, Ht, Hwin. unfold get at 1 3. rewrite Halt.
    cbn. apply andb_true_iff in Hwin as [H1 H2]. rewrite H1, H2. auto.
Qed.

Lemma empty_alternatives_raise_witness :
  let segment := segment_of "spk_0" (PyStr "1.0") (PyStr "2.0") in
  let silent := PyDict [("type", PyStr "pronunciation");
                        ("start_time", PyStr "1.5");
                        ("alternatives", PyList [])] in
  _get_segment_text segment (PyList [word "1.0" "Bend"; silent; word "1.8" "now"])
  = Raise IndexError /\
  _get_segment_text segment
    (PyList [word "1.0" "Bend";
             PyDict [("type", PyStr "pronunciation"); ("start_time", PyStr "1.5")];
             word "1.8" "now"])
  = Ok "Bend  now".
Proof.
  cbv zeta. split; [|vm_compute; reflexivity].
  assert (Hs : float_field (segment_of "spk_0" (PyStr "1.0") (PyStr "2.0"))
                 "start_time" = Ok 1%float) by (vm_compute; reflexivity).
  assert (He : float_field (segment_of "spk_0" (PyStr "1.0") (PyStr "2.0"))
                 "end_time" = Ok 2%float) by (vm_compute; reflexivity).
  assert (Hb : forallb (well_formed_item 1 2) [word "1.0" "Bend"] = true)
    by (vm_compute; reflexivity).
  assert (Ht : float_field (PyDict [("type", PyStr "pronunciation");
                                    ("start_time", PyStr "1.5");
                                    ("alternatives", PyList [])])
                 "start_time" = Ok 1.5%float) by (vm_compute; reflexivity).
  exact (proj1 (empty_alternatives_raise _ [word "1.0" "Bend"] [word "1.8" "now"]
                  [("type", PyStr "pronunciation"); ("start_time", PyStr "1.5");
                   ("alternatives", PyList [])]
                  1 2 1.5 Hs He Hb eq_refl Ht eq_refl) eq_refl).
Defined.

(** *** The keyword test *)

Lemma prefix_iff (a t : string) :
  String.prefix a t = true <-> exists b, t = (a ++ b)%string.
Proof.
  split.
  - revert t. induction a as [|c a IH]; intros t; simpl.
    + intros _. now exists t.
    + destruct t as [|x t]; simpl; [discriminate|].
      destruct (ascii_dec c x) as [->|]; [|discriminate].
      intros H. destruct (IH _ H) as [b ->]. now exists b.
  - intros [b ->]. induction a as [|c a IH]; simpl; [now destruct b|].
    destruct (ascii_dec c c); [exact IH | congruence].
Qed.

(** The keyword test [kw in text] holds exactly when the text is some
    text, then the keyword, then some text. *)
Lemma contains_finds_substring (sub s : string) :
  contains sub s = true <->
  exists before rest, s = (before ++ sub ++ rest)%string.
Proof.
  induction s as [|c s IH].
  - change (contains sub "") with (String.prefix sub "" || false).
    rewrite orb_false_r, prefix_iff. split.
    + intros [b E]. now exists "", b.
    + intros [before [rest E]]. destruct before as [|x before]; [|discriminate].
      now exists rest.
  - change (contains sub (String c s))
      with (String.prefix sub (String c s) || contains sub s).
    rewrite orb_true_iff, prefix_iff, IH. split.
    + intros [[b E]|[before [rest E]]].
      * now exists "", b.
      * exists (String c before), rest. simpl. now rewrite E.
    + intros [[|x before] [rest E]]; simpl in E.
      * left. now exists rest.
      * injection E as <- E. right. now exists before, rest.
Qed.

End TextExtra.
